(** * Anarisuto: intent extraction and query planning

    A shallow embedding of the Python backend
    ([app/query_planner/catalog.py], [app/query_planner/planner.py],
    [app/mcp/gemini_client.py], [app/api/routes.py],
    [app/api/admin_routes.py], [app/settings.py]) and the properties
    of its planner, rule-based extractor, response assembly and master-data
    endpoints.

    Texts are sequences of ASCII characters: the character classes below
    ([is_space], [is_word], [is_digit], case mapping) are Python's on code
    points 0..127, and a code above 127 stands for a character that is in
    none of them. Python's classes also hold characters outside ASCII
    (other decimal digits, letters and white space), so the embedding
    describes the code on ASCII texts ([is_ascii]); a property that needs
    this says so. *)

From Stdlib Require Import ZArith List String Ascii Bool Lia Sorted.
From Stdlib Require Import Floats.SpecFloat.
From Stdlib Require Import Numbers.DecimalString.
Import ListNotations.
Open Scope string_scope.
Open Scope Z_scope.
Set Warnings "-register-all".

(** ** Python strings *)

Module Py.

Definition in_range (lo hi : N) (c : ascii) : bool :=
  let n := N_of_ascii c in ((lo <=? n) && (n <=? hi))%N.

(** [str.isspace] on ASCII: TAB..CR, FS..US and the blank. *)
Definition is_space (c : ascii) : bool := in_range 9 13 c || in_range 28 32 c.

Definition is_digit (c : ascii) : bool := in_range 48 57 c.
Definition is_upper (c : ascii) : bool := in_range 65 90 c.
Definition is_lower (c : ascii) : bool := in_range 97 122 c.
Definition is_alpha (c : ascii) : bool := is_upper c || is_lower c.

(** The class [\w] of [re]. *)
Definition is_word (c : ascii) : bool :=
  is_alpha c || is_digit c || Ascii.eqb c "_".

Definition lower_char (c : ascii) : ascii :=
  if is_upper c then ascii_of_N (N_of_ascii c + 32) else c.

Definition upper_char (c : ascii) : ascii :=
  if is_lower c then ascii_of_N (N_of_ascii c - 32) else c.

Fixpoint map_str (f : ascii -> ascii) (s : string) : string :=
  match s with
  | EmptyString => EmptyString
  | String c s' => String (f c) (map_str f s')
  end.

(** [s.lower()] *)
Definition lower (s : string) : string := map_str lower_char s.

Fixpoint mem_char (c : ascii) (chars : string) : bool :=
  match chars with
  | EmptyString => false
  | String d chars' => Ascii.eqb c d || mem_char c chars'
  end.

Fixpoint lstrip_by (p : ascii -> bool) (s : string) : string :=
  match s with
  | EmptyString => EmptyString
  | String c s' => if p c then lstrip_by p s' else s
  end.

Fixpoint rstrip_by (p : ascii -> bool) (s : string) : string :=
  match s with
  | EmptyString => EmptyString
  | String c s' =>
      let r := rstrip_by p s' in
      if String.eqb r EmptyString && p c then EmptyString else String c r
  end.

Definition strip_by (p : ascii -> bool) (s : string) : string :=
  rstrip_by p (lstrip_by p s).

(** [s.strip()] and [s.strip(chars)] *)
Definition strip (s : string) : string := strip_by is_space s.
Definition strip_chars (chars s : string) : string :=
  strip_by (fun c => mem_char c chars) s.

(** [sub in text] *)
Fixpoint contains (sub text : string) : bool :=
  String.prefix sub text ||
  match text with
  | EmptyString => false
  | String _ text' => contains sub text'
  end.

(** [any(k in q for k in keys)] *)
Definition any_in (q : string) (keys : list string) : bool :=
  existsb (fun k => contains k q) keys.

(** [s.split()]: the maximal runs of characters that are not white space. *)
Fixpoint split_acc (acc s : string) : list string :=
  match s with
  | EmptyString => if String.eqb acc EmptyString then [] else [acc]
  | String c s' =>
      if is_space c
      then (if String.eqb acc EmptyString then split_acc EmptyString s'
            else acc :: split_acc EmptyString s')
      else split_acc (acc ++ String c EmptyString) s'
  end.

Definition split (s : string) : list string := split_acc EmptyString s.

(** [w.capitalize()] *)
Definition capitalize (w : string) : string :=
  match w with
  | EmptyString => EmptyString
  | String c w' => String (upper_char c) (lower w')
  end.

(** [sep.join(parts)] *)
Definition join (sep : string) (parts : list string) : string :=
  String.concat sep parts.

(** [str(n)] for an [int]. *)
Definition str_of_Z (n : Z) : string := NilEmpty.string_of_int (Z.to_int n).

(** [int(s)] on a run of digits; [None] is the [ValueError]. *)
Fixpoint digits_acc (acc : Z) (s : string) : option Z :=
  match s with
  | EmptyString => Some acc
  | String c s' =>
      if is_digit c
      then digits_acc (10 * acc + Z.of_N (N_of_ascii c - 48)) s'
      else None
  end.

Definition int_of_str (s : string) : option Z :=
  match s with
  | EmptyString => None
  | _ => digits_acc 0 s
  end.

Definition dquote : ascii := ascii_of_nat 34.

End Py.

(** ** Python values

    The payloads are what [json.loads] and [_stub_parse] build: [None],
    booleans, integers, floats, strings, lists and dictionaries keyed by
    strings. A dictionary keeps its insertion order. *)

Inductive value : Type :=
| VNone
| VBool (b : bool)
| VInt (n : Z)
| VFloat (x : spec_float)
| VStr (s : string)
| VList (xs : list value)
| VDict (kvs : list (string * value)).

Definition dict : Type := list (string * value).

(** [d.get(k)] *)
Fixpoint dict_get (d : dict) (k : string) : value :=
  match d with
  | [] => VNone
  | (k', v) :: d' => if String.eqb k k' then v else dict_get d' k
  end.

(** [d[k] = v] *)
Fixpoint dict_set (d : dict) (k : string) (v : value) : dict :=
  match d with
  | [] => [(k, v)]
  | (k', v') :: d' =>
      if String.eqb k k' then (k', v) :: d' else (k', v') :: dict_set d' k v
  end.

Definition dict_keys (d : dict) : list string := map fst d.

(** [d.update(e)] and [{**d, ...}] *)
Definition dict_update (d e : dict) : dict :=
  fold_left (fun acc kv => dict_set acc (fst kv) (snd kv)) e d.

(** [bool(v)] *)
Definition truthy (v : value) : bool :=
  match v with
  | VNone => false
  | VBool b => b
  | VInt n => negb (n =? 0)
  | VFloat (S754_zero _) => false
  | VFloat _ => true
  | VStr s => negb (String.eqb s EmptyString)
  | VList xs => match xs with [] => false | _ => true end
  | VDict kvs => match kvs with [] => false | _ => true end
  end.

(** [a or b] *)
Definition py_or (a b : value) : value := if truthy a then a else b.

(** [isinstance(v, int)]: [bool] is a subclass of [int]. *)
Definition is_int (v : value) : bool :=
  match v with VInt _ | VBool _ => true | _ => false end.

Definition is_str (v : value) : bool :=
  match v with VStr _ => true | _ => false end.

Definition is_list (v : value) : bool :=
  match v with VList _ => true | _ => false end.

Definition is_dict (v : value) : bool :=
  match v with VDict _ => true | _ => false end.

(** The number an [int] (or [bool]) stands for in comparisons. *)
Definition int_val (v : value) : Z :=
  match v with
  | VInt n => n
  | VBool true => 1
  | _ => 0
  end.

Definition str_val (v : value) : string :=
  match v with VStr s => s | _ => EmptyString end.

Definition list_val (v : value) : list value :=
  match v with VList xs => xs | _ => [] end.

Definition dict_val (v : value) : dict :=
  match v with VDict kvs => kvs | _ => [] end.

(** [v == "lit"]: only a string equals a string. *)
Definition eq_lit (v : value) (lit : string) : bool :=
  match v with VStr s => String.eqb s lit | _ => false end.

(** [v in ("a", "b", ...)] *)
Definition in_lits (v : value) (lits : list string) : bool :=
  existsb (eq_lit v) lits.

(** Lists and dictionaries have no hash. *)
Definition hashable (v : value) : bool :=
  match v with VList _ | VDict _ => false | _ => true end.

(** [isinstance(v, str) and v.strip()] *)
Definition nonblank_str (v : value) : bool :=
  match v with
  | VStr s => negb (String.eqb (Py.strip s) EmptyString)
  | _ => false
  end.

(** [sorted(set(xs))] on a list of integers: the first of each group of
    equal numbers is kept ([True == 1]), then insertion sort. *)
Fixpoint mem_int (n : Z) (xs : list value) : bool :=
  match xs with
  | [] => false
  | x :: xs' => (int_val x =? n) || mem_int n xs'
  end.

Fixpoint set_of_ints (seen xs : list value) : list value :=
  match xs with
  | [] => rev seen
  | x :: xs' =>
      if mem_int (int_val x) seen then set_of_ints seen xs'
      else set_of_ints (x :: seen) xs'
  end.

Fixpoint insert_sorted (x : value) (xs : list value) : list value :=
  match xs with
  | [] => [x]
  | y :: xs' =>
      if int_val x <? int_val y then x :: xs else y :: insert_sorted x xs'
  end.

Definition sorted_set (xs : list value) : list value :=
  fold_left (fun acc x => insert_sorted x acc) (set_of_ints [] xs) [].

(** ** The intent catalog ([catalog.py]) *)

Record IntentSpec : Type := {
  name : string;
  allowed_metrics : list string;
  allowed_dimensions : list string;
  default_chart : string
}.

Definition mk_intent (n : string) (dims : list string) (chart : string)
  : string * IntentSpec :=
  (n, {| name := n; allowed_metrics := ["total_revenue"];
         allowed_dimensions := dims; default_chart := chart |}).

Definition INTENTS : list (string * IntentSpec) := [
  mk_intent "sales_trend" ["year"] "line";
  mk_intent "sales_comparison" ["year"] "bar";
  mk_intent "revenue_by_category" ["category"] "bar";
  mk_intent "top_products" ["product"] "bar";
  mk_intent "sales_comparison_by_year" ["year"] "bar";
  mk_intent "sales_trend_over_time" ["year"] "line";
  mk_intent "total_sales_for_period" ["year"] "bar";
  mk_intent "sales_by_product" ["product"] "bar";
  mk_intent "product_sales_trend" ["year"] "line";
  mk_intent "sales_by_category" ["category"] "bar";
  mk_intent "top_bottom_performers" ["product"; "category"] "bar";
  mk_intent "sales_breakdown_for_year" ["product"; "category"] "bar";
  mk_intent "sales_growth_analysis" ["year"] "line";
  mk_intent "clarification_required" ["year"] "line";
  mk_intent "multi_year_comparison" ["year"] "bar"
].

(** [INTENTS[k]] for a string key. *)
Fixpoint intents_get (tbl : list (string * IntentSpec)) (k : string)
  : option IntentSpec :=
  match tbl with
  | [] => None
  | (k', spec) :: tbl' => if String.eqb k k' then Some spec else intents_get tbl' k
  end.

(** [INTENTS] looked up with an arbitrary hashable value: only a string
    can equal a key. *)
Definition lookup_intent (intent : value) : option IntentSpec :=
  match intent with
  | VStr s => intents_get INTENTS s
  | _ => None
  end.

(** ** Exceptions *)

Inductive planner_error : Type :=
| Unsupported_intent (intent : value)
| Invalid_types
| Unsupported (what : string) (v : value)
| Requires_product
| Requires_year
| No_planner_mapping (intent : string).

Inductive exn : Type :=
| QueryPlannerError (e : planner_error)
| TypeError (unhashable : value)
| OverflowError
| ValueError.

Definition result (A : Type) : Type := (exn + A)%type.

Definition ok {A : Type} (a : A) : result A := inr a.
Definition raise {A : Type} (e : exn) : result A := inl e.

Definition bind {A B : Type} (r : result A) (f : A -> result B) : result B :=
  match r with
  | inl e => inl e
  | inr a => f a
  end.

Notation "x <- r ;; k" := (bind r (fun x => k))
  (at level 61, r at next level, right associativity).

Definition succeeds {A : Type} (r : result A) : bool :=
  match r with inr _ => true | inl _ => false end.

(** ** The planner ([planner.py]) *)

Record PlannedQuery : Type := {
  sql : string;
  params : dict;
  chart_type : value;
  label_field : string;
  value_field : string;
  series_field : option string
}.

Fixpoint _validate_list (values : list value) (allowed : list string)
  (what : string) : result unit :=
  match values with
  | [] => ok tt
  | v :: rest =>
      if negb (hashable v) then raise (TypeError v)
      else if negb (in_lits v allowed)
           then raise (QueryPlannerError (Unsupported what v))
           else _validate_list rest allowed what
  end.

(** The accumulators of a branch: [where], [params] and [join_products]. *)
Record clauses : Type := {
  where_ : list string;
  params_ : dict;
  join_products : bool
}.

Definition start (params0 : dict) (join0 : bool) : clauses :=
  {| where_ := []; params_ := params0; join_products := join0 |}.

(** [where.append(text); params[key] = v] *)
Definition add (st : clauses) (text key : string) (v : value) : clauses :=
  {| where_ := (where_ st ++ [text])%list;
     params_ := dict_set (params_ st) key v;
     join_products := join_products st |}.

(** [join_products = True] *)
Definition joined (st : clauses) : clauses :=
  {| where_ := where_ st; params_ := params_ st; join_products := true |}.

(** [("WHERE " + " AND ".join(where)) if where else ""] *)
Definition where_sql_of (where_ : list string) : string :=
  match where_ with
  | [] => ""
  | _ => "WHERE " ++ Py.join " AND " where_
  end.

Definition join_sql_of (join_products : bool) : string :=
  if join_products then "JOIN products p ON p.id = s.product_id" else "".

(** [if not isinstance(limit, int) or limit <= 0 or limit > hi: limit = dflt] *)
Definition limit_or_default (limit : value) (hi dflt : Z) : value :=
  if negb (is_int limit) || (int_val limit <=? 0) || (int_val limit >? hi)
  then VInt dflt else limit.

(** [str(v)] of an [int] or [bool], as f-strings format it. *)
Definition str_of_int_value (v : value) : string :=
  match v with
  | VBool true => "True"
  | VBool false => "False"
  | _ => Py.str_of_Z (int_val v)
  end.

(** [name = product_name.strip(); if "%" not in name: name = f"%{name}%"] *)
Definition like_pattern (product_name : value) : value :=
  let name := Py.strip (str_val product_name) in
  VStr (if negb (Py.contains "%" name) then "%" ++ name ++ "%" else name).

Definition stripped (v : value) : value := VStr (Py.strip (str_val v)).

(** The year filters shared by most branches. *)
Definition add_year_from_to (filters : dict) (st : clauses) : clauses :=
  let year_from := dict_get filters "year_from" in
  let year_to := dict_get filters "year_to" in
  let st := if is_int year_from
            then add st "s.year >= :year_from" "year_from" year_from else st in
  if is_int year_to then add st "s.year <= :year_to" "year_to" year_to else st.

Definition add_year_or_range (filters : dict) (st : clauses) : clauses :=
  let year := dict_get filters "year" in
  if is_int year then add st "s.year = :year" "year" year
  else add_year_from_to filters st.

Definition add_product_id (filters : dict) (st : clauses) : clauses :=
  let product_id := dict_get filters "product_id" in
  if is_int product_id
  then add st "s.product_id = :product_id" "product_id" product_id else st.

Definition add_category (filters : dict) (st : clauses) : clauses :=
  let category := dict_get filters "category" in
  if nonblank_str category
  then add (joined st) "lower(p.category) = lower(:category)" "category"
         (stripped category)
  else st.

Definition add_product_name (filters : dict) (st : clauses) : clauses :=
  let product_name := dict_get filters "product_name" in
  if nonblank_str product_name
  then add (joined st) "p.name ILIKE :product_name" "product_name"
         (like_pattern product_name)
  else st.

Definition mk_plan (sql_ : string) (params_ : dict) (chart : value)
  : PlannedQuery :=
  {| sql := sql_; params := params_; chart_type := chart;
     label_field := "label"; value_field := "value"; series_field := None |}.

Section Planner.

(** [str(v)] of a float, a list or a dictionary is Python's [repr], which
    this code base does not define. *)
Variable py_repr : value -> string.

(** A two-element [set] of strings iterates in the order of the hashes of
    the running process: [true] when that is the reverse of the order in
    which the catalog writes the set. *)
Variable hash_order_rev : bool.

(** [str(v)] *)
Definition py_str (v : value) : string :=
  match v with
  | VNone => "None"
  | VBool _ | VInt _ => str_of_int_value v
  | VStr s => s
  | _ => py_repr v
  end.

(** [list(s)[0]] *)
Definition first_of_set (s : list string) : string :=
  hd "" (if hash_order_rev then rev s else s).

(** [[str(c).strip().lower() for c in categories if str(c).strip()]] *)
Definition cleaned_categories (categories : list value) : list value :=
  map (fun c => VStr (Py.lower (Py.strip (py_str c))))
      (filter (fun c => negb (String.eqb (Py.strip (py_str c)) "")) categories).

(** [if isinstance(years, list) and years: ... else: year_from / year_to] *)
Definition add_years_or_range (filters : dict) (st : clauses) : clauses :=
  let years := dict_get filters "years" in
  if is_list years && truthy years
  then add st "s.year = ANY(:years)" "years" years
  else add_year_from_to filters st.

(** [if isinstance(category, str) and category.strip(): ...
     elif isinstance(categories, list) and categories: ...] *)
Definition add_category_or_categories (filters : dict) (st : clauses)
  : clauses :=
  let category := dict_get filters "category" in
  let categories := dict_get filters "categories" in
  if nonblank_str category
  then add (joined st) "lower(p.category) = lower(:category)" "category"
         (stripped category)
  else if is_list categories && truthy categories
  then match cleaned_categories (list_val categories) with
       | [] => st
       | cleaned =>
           add (joined st) "lower(p.category) = ANY(:categories)"
             "categories" (VList cleaned)
       end
  else st.

(** [if isinstance(years, list) and years: ... else: yr_list = ...] of
    [sales_comparison_by_year] *)
Definition add_years_or_pair (filters : dict) (st : clauses) : clauses :=
  let years := dict_get filters "years" in
  let year_from := dict_get filters "year_from" in
  let year_to := dict_get filters "year_to" in
  if is_list years && truthy years
  then add st "s.year = ANY(:years)" "years" years
  else
    let yr_list := ((if is_int year_from then [year_from] else []) ++
                    (if is_int year_to then [year_to] else []))%list in
    match sorted_set yr_list with
    | [] => st
    | yr_list => add st "s.year = ANY(:years)" "years" (VList yr_list)
    end.

(** [sales_trend], [sales_comparison], [sales_trend_over_time] *)
Definition plan_sales_trend (filters : dict) (chart : value) : PlannedQuery :=
  let category := dict_get filters "category" in
  let categories := dict_get filters "categories" in
  let product_name := dict_get filters "product_name" in
  let st :=
    start [] (truthy (py_or (py_or category categories) product_name)) in
  let st := add_years_or_range filters st in
  let st := add_product_id filters st in
  let st := add_category_or_categories filters st in
  let st := add_product_name filters st in
  let where_sql := where_sql_of (where_ st) in
  let join_sql := join_sql_of (join_products st) in
  mk_plan ("
            SELECT s.year::TEXT AS label,
                   SUM(s.revenue)::NUMERIC AS value
            FROM sales s
            " ++ join_sql ++ "
            " ++ where_sql ++ "
            GROUP BY s.year
            ORDER BY s.year ASC
        ") (params_ st) chart.

Definition plan_sales_comparison_by_year (filters : dict) (chart : value)
  : PlannedQuery :=
  let category := dict_get filters "category" in
  let product_name := dict_get filters "product_name" in
  let st := start [] (truthy (py_or category product_name)) in
  let st := add_years_or_pair filters st in
  let st := add_product_id filters st in
  let st := add_category filters st in
  let st := add_product_name filters st in
  let join_sql := join_sql_of (join_products st) in
  let where_sql := where_sql_of (where_ st) in
  mk_plan ("
            SELECT s.year::TEXT AS label,
                   SUM(s.revenue)::NUMERIC AS value
            FROM sales s
            " ++ join_sql ++ "
            " ++ where_sql ++ "
            GROUP BY s.year
            ORDER BY s.year ASC
        ") (params_ st) chart.

Definition plan_total_sales_for_period (filters : dict) (chart : value)
  : PlannedQuery :=
  let year := dict_get filters "year" in
  let year_from := dict_get filters "year_from" in
  let year_to := dict_get filters "year_to" in
  let category := dict_get filters "category" in
  let product_name := dict_get filters "product_name" in
  let st := start [] (truthy (py_or category product_name)) in
  let st := add_year_or_range filters st in
  let label :=
    if is_int year then str_of_int_value year
    else if is_int year_from && is_int year_to
    then str_of_int_value year_from ++ "-" ++ str_of_int_value year_to
    else "total" in
  let st := add_product_id filters st in
  let st := add_category filters st in
  let st := add_product_name filters st in
  let join_sql := join_sql_of (join_products st) in
  let where_sql := where_sql_of (where_ st) in
  mk_plan ("
            SELECT :label::TEXT AS label,
                   COALESCE(SUM(s.revenue), 0)::NUMERIC AS value
            FROM sales s
            " ++ join_sql ++ "
            " ++ where_sql ++ "
        ") (dict_set (params_ st) "label" (VStr label)) chart.

Definition plan_sales_by_product (filters : dict) (chart : value)
  : PlannedQuery :=
  let category := dict_get filters "category" in
  let limit := limit_or_default (dict_get filters "limit") 100 20 in
  let st := start [("limit", limit)] false in
  let st := add_year_or_range filters st in
  let st :=
    if nonblank_str category
    then add st "lower(p.category) = lower(:category)" "category"
           (stripped category)
    else st in
  let where_sql := where_sql_of (where_ st) in
  mk_plan ("
            SELECT p.name AS label,
                   SUM(s.revenue)::NUMERIC AS value
            FROM sales s
            JOIN products p ON p.id = s.product_id
            " ++ where_sql ++ "
            GROUP BY p.name
            ORDER BY value DESC
            LIMIT :limit
        ") (params_ st) chart.

Definition plan_product_sales_trend (filters : dict) (chart : value)
  : result PlannedQuery :=
  let product_id := dict_get filters "product_id" in
  let product_name := dict_get filters "product_name" in
  let st := start [] false in
  let st := add_year_from_to filters st in
  st <- (if is_int product_id
         then ok (add st "s.product_id = :product_id" "product_id" product_id)
         else if nonblank_str product_name
         then ok (add st "p.name ILIKE :product_name" "product_name"
                    (like_pattern product_name))
         else raise (QueryPlannerError Requires_product)) ;;
  let where_sql := where_sql_of (where_ st) in
  ok (mk_plan ("
            SELECT s.year::TEXT AS label,
                   SUM(s.revenue)::NUMERIC AS value
            FROM sales s
            JOIN products p ON p.id = s.product_id
            " ++ where_sql ++ "
            GROUP BY s.year
            ORDER BY s.year ASC
        ") (params_ st) chart).

Definition plan_sales_by_category (filters : dict) (chart : value)
  : PlannedQuery :=
  let st := start [] false in
  let st := add_year_or_range filters st in
  let where_sql := where_sql_of (where_ st) in
  mk_plan ("
            SELECT p.category AS label,
                   SUM(s.revenue)::NUMERIC AS value
            FROM sales s
            JOIN products p ON p.id = s.product_id
            " ++ where_sql ++ "
            GROUP BY p.category
            ORDER BY value DESC
        ") (params_ st) chart.

Definition plan_top_bottom_performers (filters : dict) (dim0 chart : value)
  : PlannedQuery :=
  let entity := dict_get filters "entity" in
  let order := dict_get filters "order" in
  let entity :=
    if negb (in_lits entity ["product"; "category"])
    then (if in_lits dim0 ["product"; "category"] then dim0 else VStr "product")
    else entity in
  let order := if negb (in_lits order ["top"; "bottom"]) then VStr "top" else order in
  let limit := limit_or_default (dict_get filters "limit") 50 5 in
  let st := start [("limit", limit)] false in
  let st := add_year_or_range filters st in
  let where_sql := where_sql_of (where_ st) in
  let label_expr := if eq_lit entity "category" then "p.category" else "p.name" in
  let group_expr := if eq_lit entity "category" then "p.category" else "p.name" in
  let order_sql := if eq_lit order "top" then "DESC" else "ASC" in
  mk_plan ("
            SELECT " ++ label_expr ++ " AS label,
                   SUM(s.revenue)::NUMERIC AS value
            FROM sales s
            JOIN products p ON p.id = s.product_id
            " ++ where_sql ++ "
            GROUP BY " ++ group_expr ++ "
            ORDER BY value " ++ order_sql ++ "
            LIMIT :limit
        ") (params_ st) chart.

Definition plan_sales_breakdown_for_year (filters : dict) (dim0 chart : value)
  : result PlannedQuery :=
  let year := dict_get filters "year" in
  if negb (is_int year) then raise (QueryPlannerError Requires_year)
  else
    let label_expr := if eq_lit dim0 "category" then "p.category" else "p.name" in
    let group_expr := if eq_lit dim0 "category" then "p.category" else "p.name" in
    ok (mk_plan ("
            SELECT " ++ label_expr ++ " AS label,
                   SUM(s.revenue)::NUMERIC AS value
            FROM sales s
            JOIN products p ON p.id = s.product_id
            WHERE s.year = :year
            GROUP BY " ++ group_expr ++ "
            ORDER BY value DESC
        ") [("year", year)] chart).

Definition plan_sales_growth_analysis (filters : dict) (chart : value)
  : PlannedQuery :=
  let category := dict_get filters "category" in
  let st := start [] (truthy category) in
  let st := add_year_from_to filters st in
  let st := add_category filters st in
  let join_sql := join_sql_of (join_products st) in
  let where_sql := where_sql_of (where_ st) in
  mk_plan ("
            WITH yearly AS (
              SELECT s.year,
                     SUM(s.revenue)::NUMERIC AS revenue
              FROM sales s
              " ++ join_sql ++ "
              " ++ where_sql ++ "
              GROUP BY s.year
            )
            SELECT y.year::TEXT AS label,
                   (y.revenue - LAG(y.revenue) OVER (ORDER BY y.year))::NUMERIC AS value
            FROM yearly y
            ORDER BY y.year ASC
        ") (params_ st) chart.

Definition plan_multi_year_comparison (filters : dict) (chart : value)
  : PlannedQuery :=
  let average := dict_get filters "average" in
  let category := dict_get filters "category" in
  let year_count := limit_or_default (dict_get filters "year_count") 20 3 in
  let params0 : dict := [("year_count", year_count)] in
  let join_products0 := truthy category in
  let extra_where :=
    if nonblank_str category then "AND lower(p.category) = lower(:category)"
    else "" in
  let params1 :=
    if nonblank_str category then dict_set params0 "category" (stripped category)
    else params0 in
  let join_sql := join_sql_of (join_products0 || nonblank_str category) in
  if truthy average
  then mk_plan ("
                WITH max_year AS (SELECT MAX(year) AS y FROM sales),
                     yearly AS (
                       SELECT s.year,
                              SUM(s.revenue)::NUMERIC AS revenue
                       FROM sales s
                       " ++ join_sql ++ "
                       WHERE s.year >= (SELECT y FROM max_year) - :year_count + 1
                       " ++ extra_where ++ "
                       GROUP BY s.year
                     )
                SELECT 'avg'::TEXT AS label,
                       AVG(revenue)::NUMERIC AS value
                FROM yearly
            ") params1 chart
  else mk_plan ("
            WITH max_year AS (SELECT MAX(year) AS y FROM sales)
            SELECT s.year::TEXT AS label,
                   SUM(s.revenue)::NUMERIC AS value
            FROM sales s
            " ++ join_sql ++ "
            WHERE s.year >= (SELECT y FROM max_year) - :year_count + 1
            " ++ extra_where ++ "
            GROUP BY s.year
            ORDER BY s.year ASC
        ") params1 chart.

Definition plan_clarification_required (chart : value) : PlannedQuery :=
  mk_plan "SELECT 1::TEXT AS label, 0::NUMERIC AS value WHERE FALSE" [] chart.

Definition plan_revenue_by_category (filters : dict) (chart : value)
  : PlannedQuery :=
  let year := dict_get filters "year" in
  let where_sql := if is_int year then "WHERE s.year = :year" else "" in
  let params_ : dict := if is_int year then [("year", year)] else [] in
  mk_plan ("
            SELECT p.category AS label,
                   SUM(s.revenue)::NUMERIC AS value
            FROM sales s
            JOIN products p ON p.id = s.product_id
            " ++ where_sql ++ "
            GROUP BY p.category
            ORDER BY value DESC
        ") params_ chart.

Definition plan_top_products (filters : dict) (chart : value) : PlannedQuery :=
  let year := dict_get filters "year" in
  let limit := limit_or_default (dict_get filters "limit") 50 10 in
  let where_sql := if is_int year then "WHERE s.year = :year" else "" in
  let params0 : dict := [("limit", limit)] in
  let params_ := if is_int year then dict_set params0 "year" year else params0 in
  mk_plan ("
            SELECT p.name AS label,
                   SUM(s.revenue)::NUMERIC AS value
            FROM sales s
            JOIN products p ON p.id = s.product_id
            " ++ where_sql ++ "
            GROUP BY p.name
            ORDER BY value DESC
            LIMIT :limit
        ") params_ chart.

(** The chain of [if intent_name == ...] tests, in the order of the source. *)
Definition plan_branch (intent_name : string) (filters : dict)
  (dim0 chart : value) : result PlannedQuery :=
  if existsb (String.eqb intent_name)
       ["sales_trend"; "sales_comparison"; "sales_trend_over_time"]
  then ok (plan_sales_trend filters chart)
  else if String.eqb intent_name "sales_comparison_by_year"
  then ok (plan_sales_comparison_by_year filters chart)
  else if String.eqb intent_name "total_sales_for_period"
  then ok (plan_total_sales_for_period filters chart)
  else if String.eqb intent_name "sales_by_product"
  then ok (plan_sales_by_product filters chart)
  else if String.eqb intent_name "product_sales_trend"
  then plan_product_sales_trend filters chart
  else if String.eqb intent_name "sales_by_category"
  then ok (plan_sales_by_category filters chart)
  else if String.eqb intent_name "top_bottom_performers"
  then ok (plan_top_bottom_performers filters dim0 chart)
  else if String.eqb intent_name "sales_breakdown_for_year"
  then plan_sales_breakdown_for_year filters dim0 chart
  else if String.eqb intent_name "sales_growth_analysis"
  then ok (plan_sales_growth_analysis filters chart)
  else if String.eqb intent_name "multi_year_comparison"
  then ok (plan_multi_year_comparison filters chart)
  else if String.eqb intent_name "clarification_required"
  then ok (plan_clarification_required chart)
  else if String.eqb intent_name "revenue_by_category"
  then ok (plan_revenue_by_category filters chart)
  else if String.eqb intent_name "top_products"
  then ok (plan_top_products filters chart)
  else raise (QueryPlannerError (No_planner_mapping intent_name)).

Definition plan_intent (intent_payload : dict) : result PlannedQuery :=
  let intent := dict_get intent_payload "intent" in
  if negb (hashable intent) then raise (TypeError intent)
  else
    match lookup_intent intent with
    | None => raise (QueryPlannerError (Unsupported_intent intent))
    | Some spec =>
        let metrics := py_or (dict_get intent_payload "metrics") (VList []) in
        let dimensions := py_or (dict_get intent_payload "dimensions") (VList []) in
        let filters := py_or (dict_get intent_payload "filters") (VDict []) in
        if negb (is_list metrics) || negb (is_list dimensions)
           || negb (is_dict filters)
        then raise (QueryPlannerError Invalid_types)
        else
          _ <- _validate_list (list_val metrics) (allowed_metrics spec) "metric" ;;
          _ <- _validate_list (list_val dimensions) (allowed_dimensions spec)
                 "dimension" ;;
          let chart :=
            py_or (dict_get intent_payload "chart") (VStr (default_chart spec)) in
          let chart :=
            if negb (in_lits chart ["line"; "bar"])
            then VStr (default_chart spec) else chart in
          let dim0 :=
            match list_val dimensions with
            | d :: _ => d
            | [] => VStr (first_of_set (allowed_dimensions spec))
            end in
          plan_branch (str_val intent) (dict_val filters) dim0 chart
    end.

End Planner.

(** ** Bind parameters of a template

    The planner hands its templates to [sqlalchemy.text]
    ([as_sqlalchemy_text]), which finds the parameters with the pattern
    [(?<![:\w\x5c]):(\w+)(?!:)]: a colon that follows neither a colon, a
    word character nor a backslash (so the casts [::TEXT] and [::NUMERIC]
    are none), then the longest run of word characters that is not followed
    by a colon. When a colon follows the whole run, the matcher gives back
    its last character, so that [:label::TEXT] names [labe]; a run of one
    character before a colon names nothing. *)

Fixpoint take_word (s : string) : string :=
  match s with
  | String c s' => if Py.is_word c then String c (take_word s') else ""
  | EmptyString => ""
  end.

(** What follows the run of word characters at the head of [s]. *)
Fixpoint drop_word (s : string) : string :=
  match s with
  | String c s' => if Py.is_word c then drop_word s' else s
  | EmptyString => ""
  end.

(** [s] without its last character. *)
Fixpoint but_last (s : string) : string :=
  match s with
  | EmptyString => ""
  | String c s' =>
      match s' with
      | EmptyString => ""
      | _ => String c (but_last s')
      end
  end.

(** [(\w+)(?!:)] at the head of [s]; the empty string when it does not
    match. *)
Definition bind_name (s : string) : string :=
  match drop_word s with
  | String c _ => if Ascii.eqb c ":" then but_last (take_word s)
                  else take_word s
  | EmptyString => take_word s
  end.

Definition blocks_colon (prev : option ascii) : bool :=
  match prev with
  | Some c => Py.is_word c || Ascii.eqb c ":" || Ascii.eqb c (ascii_of_nat 92)
  | None => false
  end.

Fixpoint placeholders_from (prev : option ascii) (s : string) : list string :=
  match s with
  | EmptyString => []
  | String c s' =>
      let rest := placeholders_from (Some c) s' in
      if Ascii.eqb c ":" && negb (blocks_colon prev)
      then match bind_name s' with
           | EmptyString => rest
           | w => w :: rest
           end
      else rest
  end.

Definition placeholders (template : string) : list string :=
  placeholders_from None template.

(** Two lists hold the same set of names. *)
Definition same_names (xs ys : list string) : Prop :=
  forall k, In k xs <-> In k ys.

Definition subset_names (xs ys : list string) : bool :=
  forallb (fun x => existsb (String.eqb x) ys) xs.

Definition same_namesb (xs ys : list string) : bool :=
  subset_names xs ys && subset_names ys xs.

(** ** Regular expressions ([re.search])

    The backtracking matcher of [re] on the constructs the patterns of
    [gemini_client.py] use. A quantifier ranges over a character class;
    [Rep true p] is [p*] and [Rep false p] is [p*?]. *)

Module Re.

Inductive re : Type :=
| Eps
| Chr (p : ascii -> bool)
| Seq (r1 r2 : re)
| Alt (r1 r2 : re)
| Rep (greedy : bool) (p : ascii -> bool)
| Grp (i : nat) (r : re)
| WordB.

(** The groups of a match, the latest capture first. *)
Definition groups : Type := list (nat * string).

Fixpoint group (g : groups) (i : nat) : string :=
  match g with
  | [] => ""
  | (j, t) :: g' => if Nat.eqb i j then t else group g' i
  end.

(** The part of [s] read up to its suffix [s']. *)
Definition taken (s s' : string) : string :=
  substring 0 (String.length s - String.length s') s.

Definition at_boundary (prev : option ascii) (s : string) : bool :=
  xorb (match prev with Some c => Py.is_word c | None => false end)
       (match s with String c _ => Py.is_word c | EmptyString => false end).

Fixpoint rep {A : Type} (greedy : bool) (p : ascii -> bool)
  (k : option ascii -> string -> option A) (prev : option ascii) (s : string)
  : option A :=
  match s with
  | String c s' =>
      if p c
      then if greedy
           then match rep greedy p k (Some c) s' with
                | Some a => Some a
                | None => k prev s
                end
           else match k prev s with
                | Some a => Some a
                | None => rep greedy p k (Some c) s'
                end
      else k prev s
  | EmptyString => k prev s
  end.

(** [exec r prev s g k]: match [r] at the front of [s] ([prev] is the
    character before it), then go on with [k]; alternatives are tried in
    the order of [re]. *)
Fixpoint exec {A : Type} (r : re) (prev : option ascii) (s : string)
  (g : groups) (k : option ascii -> string -> groups -> option A) : option A :=
  match r with
  | Eps => k prev s g
  | Chr p =>
      match s with
      | String c s' => if p c then k (Some c) s' g else None
      | EmptyString => None
      end
  | Seq r1 r2 => exec r1 prev s g (fun prev' s' g' => exec r2 prev' s' g' k)
  | Alt r1 r2 =>
      match exec r1 prev s g k with
      | Some a => Some a
      | None => exec r2 prev s g k
      end
  | Rep greedy p => rep greedy p (fun prev' s' => k prev' s' g) prev s
  | Grp i r1 =>
      exec r1 prev s g (fun prev' s' g' => k prev' s' ((i, taken s s') :: g'))
  | WordB => if at_boundary prev s then k prev s g else None
  end.

Fixpoint search_from (r : re) (prev : option ascii) (s : string)
  : option groups :=
  match exec r prev s [] (fun _ _ g => Some g) with
  | Some g => Some g
  | None =>
      match s with
      | String c s' => search_from r (Some c) s'
      | EmptyString => None
      end
  end.

(** [re.search(r, s)] *)
Definition search (r : re) (s : string) : option groups := search_from r None s.

Fixpoint seqs (rs : list re) : re :=
  match rs with
  | [] => Eps
  | [r] => r
  | r :: rs' => Seq r (seqs rs')
  end.

Definition chr (c : ascii) : re := Chr (Ascii.eqb c).

(** A letter under [re.IGNORECASE]. *)
Definition ichr (c : ascii) : re :=
  Chr (fun x => Ascii.eqb (Py.lower_char x) (Py.lower_char c)).

Fixpoint lit (s : string) : re :=
  match s with
  | EmptyString => Eps
  | String c EmptyString => chr c
  | String c s' => Seq (chr c) (lit s')
  end.

Fixpoint ilit (s : string) : re :=
  match s with
  | EmptyString => Eps
  | String c EmptyString => ichr c
  | String c s' => Seq (ichr c) (ilit s')
  end.

Definition star (p : ascii -> bool) : re := Rep true p.
Definition plus (p : ascii -> bool) : re := Seq (Chr p) (Rep true p).
Definition lazy_plus (p : ascii -> bool) : re := Seq (Chr p) (Rep false p).
Definition opt (r : re) : re := Alt r Eps.

(** [\s], [\d] on ASCII; on a [str], Python's [\d] also takes the decimal
    digits of other scripts, which [int()] reads as well. *)
Definition ws : ascii -> bool := Py.is_space.
Definition digit : ascii -> bool := Py.is_digit.

(** [(20\d{2})] as group [i] *)
Definition year4 : re :=
  Seq (chr "2") (Seq (chr "0") (Seq (Chr digit) (Chr digit))).

End Re.

(** ** The rule-based extractor ([gemini_client.py]) *)

Import Re.

(** [[\w &/\-]] *)
Definition category_char (c : ascii) : bool :=
  Py.is_word c || Py.mem_char c " &/-".

(** [\b(?:only\s+)?in\s+the\s+([\w &/\-]+?)\s+category\b] *)
Definition re_in_the_category : re :=
  seqs [WordB; opt (Seq (ilit "only") (plus ws)); ilit "in"; plus ws;
        ilit "the"; plus ws; Grp 1 (lazy_plus category_char); plus ws;
        ilit "category"; WordB].

(** [\b(?:only\s+)?in\s+([\w &/\-]+?)\s+category\b] *)
Definition re_in_category : re :=
  seqs [WordB; opt (Seq (ilit "only") (plus ws)); ilit "in"; plus ws;
        Grp 1 (lazy_plus category_char); plus ws; ilit "category"; WordB].

(** [\bcategory\s*[:=]?\s*([\w &/\-]+)\b] *)
Definition re_category_is : re :=
  seqs [WordB; ilit "category"; star ws;
        opt (Chr (fun c => Py.mem_char c ":=")); star ws;
        Grp 1 (plus category_char); WordB].

(** A double quote, [([^dq]+)], a double quote. *)
Definition re_quoted : re :=
  seqs [chr Py.dquote; Grp 1 (plus (fun c => negb (Ascii.eqb c Py.dquote)));
        chr Py.dquote].

(** [(20\d{2})\s*[-–]\s*(20\d{2})]; the en dash is outside ASCII. *)
Definition re_range_dash : re :=
  seqs [Grp 1 year4; star ws; chr "-"; star ws; Grp 2 year4].

(** [(20\d{2})\s+(?:to|through|thru)\s+(20\d{2})] *)
Definition re_range_to : re :=
  seqs [Grp 1 year4; plus ws;
        Alt (lit "to") (Alt (lit "through") (lit "thru")); plus ws;
        Grp 2 year4].

(** [between\s+(20\d{2})\s+and\s+(20\d{2})] *)
Definition re_range_between : re :=
  seqs [lit "between"; plus ws; Grp 1 year4; plus ws; lit "and"; plus ws;
        Grp 2 year4].

(** [from\s+(20\d{2})] and [to\s+(20\d{2})] *)
Definition re_from : re := seqs [lit "from"; plus ws; Grp 1 year4].
Definition re_to : re := seqs [lit "to"; plus ws; Grp 1 year4].

(** [top\s+(\d+)] *)
Definition re_top_n : re := seqs [lit "top"; plus ws; Grp 1 (plus digit)].

Definition _normalize_category (raw : option string) : option string :=
  match raw with
  | None => None
  | Some raw =>
      if String.eqb raw "" then None
      else
        let s := Py.strip_chars (String Py.dquote "'") (Py.strip raw) in
        let s := Py.strip_chars " .,:;()[]{}" s in
        if String.eqb s "" then None
        else Some (Py.join " " (map Py.capitalize (Py.split s)))
  end.

Definition _extract_category (text : string) : option string :=
  let t := Py.strip text in
  let m := search re_in_the_category t in
  let m := match m with Some _ => m | None => search re_in_category t end in
  let m := match m with Some _ => m | None => search re_category_is t end in
  match m with
  | None => None
  | Some g => _normalize_category (Some (group g 1))
  end.

Definition _mentions_comparison (text : string) : bool :=
  let t := Py.lower text in
  Py.any_in t [" vs "; " versus "; "compare "; "comparison"].

(** [range(2015, 2031)] *)
Definition year_range : list Z :=
  map (fun i => 2015 + Z.of_nat i) (seq 0 16).

Definition _extract_year (text : string) : option Z :=
  find (fun year => Py.contains (Py.str_of_Z year) text) year_range.

Definition _extract_two_years (text : string) : option (list value) :=
  let found :=
    filter (fun year => Py.contains (Py.str_of_Z year) text) year_range in
  let unique := sorted_set (map VInt found) in
  if (2 <=? List.length unique)%nat then Some (firstn 2 unique) else None.

(** [int(m.group(i))]; the [ValueError] is not caught. *)
Definition int_group (g : groups) (i : nat) : result Z :=
  match Py.int_of_str (group g i) with
  | Some n => ok n
  | None => raise ValueError
  end.

Definition year_pair (g : groups) : result (option Z * option Z) :=
  a <- int_group g 1 ;;
  b <- int_group g 2 ;;
  ok (Some a, Some b).

Definition _extract_year_range (text : string) : result (option Z * option Z) :=
  match search re_range_dash text with
  | Some g => year_pair g
  | None =>
  match search re_range_to text with
  | Some g => year_pair g
  | None =>
  match search re_range_between text with
  | Some g => year_pair g
  | None =>
      year_from <- match search re_from text with
                   | Some g => a <- int_group g 1 ;; ok (Some a)
                   | None => ok None
                   end ;;
      year_to <- match search re_to text with
                 | Some g => b <- int_group g 1 ;; ok (Some b)
                 | None => ok None
                 end ;;
      ok (year_from, year_to)
  end end end.

(** The [ValueError] of [int] is caught here. *)
Definition _extract_limit (text : string) : option Z :=
  match search re_top_n text with
  | None => None
  | Some g => Py.int_of_str (group g 1)
  end.

Definition mk_payload (intent dim : string) (filters : dict) (chart : string)
  : dict :=
  [("intent", VStr intent);
   ("metrics", VList [VStr "total_revenue"]);
   ("dimensions", VList [VStr dim]);
   ("filters", VDict filters);
   ("chart", VStr chart)].

(** [if year is not None: filters["year"] = year] *)
Definition with_year (filters : dict) (year : option Z) : dict :=
  match year with
  | Some y => dict_set filters "year" (VInt y)
  | None => filters
  end.

(** [_base_filters()] *)
Definition base_filters (category : option string) : dict :=
  match category with
  | Some c => if String.eqb c "" then [] else [("category", VStr c)]
  | None => []
  end.

(** [_extract_limit(q) or dflt] *)
Definition limit_or (limit : option Z) (dflt : Z) : Z :=
  match limit with
  | Some n => if n =? 0 then dflt else n
  | None => dflt
  end.

Definition names_product_or_category (q : string) : bool :=
  Py.contains "product" q || Py.contains "products" q ||
  Py.contains "category" q || Py.contains "categories" q.

Definition entity_of (q : string) : string :=
  if Py.contains "category" q || Py.contains "categories" q
  then "category" else "product".

(** The rules of [_stub_parse] after the year range was looked for. *)
Definition stub_tail (question q : string) (category : option string) : dict :=
  match (if _mentions_comparison question
         then _extract_two_years q else None) with
  | Some years =>
      mk_payload "sales_comparison_by_year" "year"
        (dict_update [("years", VList years)] (base_filters category)) "bar"
  | None =>
  match (if Py.any_in q ["gap"; "difference"; "increase"; "decrease"]
         then _extract_two_years q else None) with
  | Some years =>
      mk_payload "sales_comparison_by_year" "year"
        (dict_update [("years", VList years)] (base_filters category)) "bar"
  | None =>
  if Py.any_in q ["last 3 years"; "last three years"]
  then mk_payload "multi_year_comparison" "year"
         (dict_update (base_filters category) [("year_count", VInt 3)]) "bar"
  else if Py.contains "average" q && (Py.contains "year" q || Py.contains "yearly" q)
  then mk_payload "multi_year_comparison" "year"
         (dict_update (base_filters category)
            [("year_count", VInt 5); ("average", VBool true)]) "bar"
  else
  match (if Py.any_in q ["total sales"; "total revenue";
                         "how much did we sell"; "how much revenue"]
         then _extract_year q else None) with
  | Some year =>
      mk_payload "total_sales_for_period" "year"
        (dict_update (base_filters category) [("year", VInt year)]) "bar"
  | None =>
  if Py.any_in q ["which products"; "by product"; "across all products";
                  "rank products"]
  then mk_payload "sales_by_product" "product"
         (with_year (base_filters category) (_extract_year q)) "bar"
  else if Py.any_in q ["category generates"; "between categories";
                       "categories performing"; "different categories"]
  then mk_payload "sales_by_category" "category"
         (with_year (base_filters category) (_extract_year q)) "bar"
  else if Py.any_in q ["overall"; "overview"; "how are we doing";
                       "sales performance"; "business performing"]
  then mk_payload "clarification_required" "year" [] "line"
  else mk_payload "sales_trend_over_time" "year" (base_filters category) "line"
  end end end.

(** The rules on a year range [(year_from, year_to)] that was found. *)
Definition stub_range (question q : string) (category : option string)
  (year_from year_to : option Z) : dict :=
  let filters : dict := [] in
  let filters :=
    match year_from with
    | Some y => dict_set filters "year_from" (VInt y)
    | None => filters
    end in
  let filters :=
    match year_to with
    | Some y => dict_set filters "year_to" (VInt y)
    | None => filters
    end in
  let filters := dict_update filters (base_filters category) in
  match (if Py.contains "trend" q || Py.contains "over time" q
            || Py.contains "year by year" q
         then search re_quoted question else None) with
  | Some m =>
      mk_payload "product_sales_trend" "year"
        (dict_set filters "product_name" (VStr (Py.strip (group m 1)))) "line"
  | None =>
      if Py.any_in q ["year-over-year"; "year over year"; "yoy"; "growth";
                      "declin"]
      then mk_payload "sales_growth_analysis" "year" filters "line"
      else mk_payload "sales_trend_over_time" "year" filters "line"
  end.

Definition _stub_parse (question : string) : result dict :=
  let q := Py.lower question in
  let category := _extract_category question in
  if Py.any_in q ["by category"; "per category"; "group by category";
                  "grouped by category"; "breakdown by category"]
  then ok (mk_payload "sales_by_category" "category"
             (with_year (base_filters category) (_extract_year q)) "bar")
  else if (Py.contains "top" q || Py.contains "best-selling" q
           || Py.contains "best selling" q) && names_product_or_category q
  then
    let year := _extract_year q in
    let limit := limit_or (_extract_limit q) 10 in
    let entity := entity_of q in
    ok (mk_payload "top_bottom_performers" entity
          (with_year
             (dict_update (base_filters category)
                [("limit", VInt limit); ("order", VStr "top");
                 ("entity", VStr entity)]) year) "bar")
  else if Py.any_in q ["worst"; "lowest"; "bottom"] && names_product_or_category q
  then
    let year := _extract_year q in
    let limit := limit_or (_extract_limit q) 5 in
    let entity := entity_of q in
    ok (mk_payload "top_bottom_performers" entity
          (with_year
             (dict_update (base_filters category)
                [("limit", VInt limit); ("order", VStr "bottom");
                 ("entity", VStr entity)]) year) "bar")
  else
  match (if Py.any_in q ["break down"; "breakdown"; "category-wise";
                         "category wise"]
         then _extract_year q else None) with
  | Some year =>
      ok (mk_payload "sales_breakdown_for_year" (entity_of q)
            (dict_update (base_filters category) [("year", VInt year)]) "bar")
  | None =>
      range <- _extract_year_range q ;;
      match range with
      | (None, None) => ok (stub_tail question q category)
      | (year_from, year_to) =>
          ok (stub_range question q category year_from year_to)
      end
  end.

(** ** Response assembly ([routes.py]) *)

(** [decimal.Decimal]: a finite number [(-1)^neg * coeff * 10^exp], an
    infinity, or a quiet or signaling NaN. *)
Inductive decimal : Type :=
| Dec_finite (neg : bool) (coeff : N) (exp : Z)
| Dec_inf (neg : bool)
| Dec_nan (signaling : bool).

(** A value of a result row. [COther conv] is an object of any other type;
    [conv] is what [float()] makes of it, [None] when that raises. *)
Inductive cell : Type :=
| CNone
| CFloat (x : spec_float)
| CBool (b : bool)
| CInt (n : Z)
| CDecimal (d : decimal)
| CStr (s : string)
| COther (conv : option spec_float).

Definition row : Type := list (string * cell).

Fixpoint row_get (r : row) (k : string) : cell :=
  match r with
  | [] => CNone
  | (k', v) :: r' => if String.eqb k k' then v else row_get r' k
  end.

Definition float_zero : spec_float := S754_zero false.

(** [float(n)] for an [int]: round to nearest even in binary64, and
    [OverflowError] when the result is not finite. *)
Definition float_of_int (n : Z) : result spec_float :=
  match binary_normalize 53 1024 n 0 false with
  | S754_infinity _ => raise OverflowError
  | x => ok x
  end.

Record Dataset : Type := {
  ds_label : string;
  ds_data : list spec_float
}.

Record QueryResponse : Type := {
  title : option string;
  chartType : value;
  labels : list string;
  datasets : list Dataset
}.

(** What the endpoint does: a response, an [HTTPException] with status 400,
    or an exception nobody catches. *)
Inductive outcome : Type :=
| Response (r : QueryResponse)
| Http400 (error : string)
| Uncaught (e : exn).

Section Routes.

Variable py_repr : value -> string.
Variable hash_order_rev : bool.

(** [float(d)] for a [Decimal] that is not a signaling NaN, and [float(s)]
    for a string, [None] when it raises [ValueError]: the conversions of
    the runtime. *)
Variable float_of_decimal : decimal -> spec_float.
Variable float_of_text : string -> option spec_float.

(** [str(v)] for a value of a row. *)
Variable str_of_cell : cell -> string.

(** What the remote model answers to a question: [None] when it is not
    configured, not reachable, or its output is not a JSON object. This
    covers the runs of [parse_intent] that return: the calls it makes
    before its [try] ([configure], [GenerativeModel], [count_tokens]) can
    raise, and so can [get_engine] in [query]; such a run has no outcome
    here, and nothing below is stated about the exceptions of these
    calls. *)
Variable gemini : string -> option dict.

Definition _year_phrase (filters : dict) : string :=
  let year := dict_get filters "year" in
  let years := dict_get filters "years" in
  let year_from := dict_get filters "year_from" in
  let year_to := dict_get filters "year_to" in
  let year_count := dict_get filters "year_count" in
  let cleaned := filter is_int (list_val years) in
  if is_int year then "in " ++ str_of_int_value year
  else
    match (if is_list years then cleaned else []) with
    | [a; b] => "(" ++ str_of_int_value a ++ " vs " ++ str_of_int_value b ++ ")"
    | _ :: _ => "(" ++ Py.join ", " (map str_of_int_value cleaned) ++ ")"
    | [] =>
        if is_int year_from && is_int year_to
        then "from " ++ str_of_int_value year_from ++ " to "
               ++ str_of_int_value year_to
        else if is_int year_from then "from " ++ str_of_int_value year_from
        else if is_int year_to then "up to " ++ str_of_int_value year_to
        else if is_int year_count && (int_val year_count >? 0)
        then "(last " ++ str_of_int_value year_count ++ " years)"
        else ""
    end.

Definition _scope_phrase (filters : dict) : string :=
  let category := dict_get filters "category" in
  let categories := dict_get filters "categories" in
  let product_name := dict_get filters "product_name" in
  let product_id := dict_get filters "product_id" in
  let cleaned :=
    filter (fun c => negb (String.eqb c ""))
      (map (fun c => Py.strip (py_str py_repr c)) (list_val categories)) in
  let parts : list string :=
    if nonblank_str category
    then ["category " ++ Py.strip (str_val category)]
    else if is_list categories
    then match cleaned with
         | [] => []
         | _ => ["categories " ++ Py.join ", " (firstn 5 cleaned)]
         end
    else [] in
  let parts :=
    if nonblank_str product_name
    then app parts ["product " ++ Py.strip (str_val product_name)]
    else if is_int product_id
    then app parts ["product #" ++ str_of_int_value product_id]
    else parts in
  match parts with
  | [] => ""
  | _ => "(" ++ Py.join ", " parts ++ ")"
  end.

Definition _derive_title (intent_payload : dict) : string :=
  let intent := py_str py_repr (py_or (dict_get intent_payload "intent") (VStr "")) in
  let filters := dict_get intent_payload "filters" in
  let filters := if negb (is_dict filters) then [] else dict_val filters in
  let year_part := _year_phrase filters in
  let scope_part := _scope_phrase filters in
  let limit := dict_get filters "limit" in
  let order := dict_get filters "order" in
  let entity := dict_get filters "entity" in
  let average := truthy (dict_get filters "average") in
  let _join (base : string) : string :=
    Py.strip (Py.join " "
      (app [base]
         (app (if String.eqb year_part "" then [] else [year_part])
              (if String.eqb scope_part "" then [] else [scope_part])))) in
  let is_one_of := existsb (String.eqb intent) in
  if is_one_of ["sales_trend"; "sales_trend_over_time"]
  then _join "Revenue trend"
  else if is_one_of ["sales_comparison"; "sales_comparison_by_year"]
  then _join "Revenue comparison"
  else if String.eqb intent "total_sales_for_period" then _join "Total revenue"
  else if is_one_of ["top_products"]
  then
    let n := if is_int limit then str_of_int_value limit else "10" in
    _join ("Top " ++ n ++ " products by revenue")
  else if is_one_of ["sales_by_product"] then _join "Revenue by product"
  else if is_one_of ["revenue_by_category"; "sales_by_category"]
  then _join "Revenue by category"
  else if String.eqb intent "product_sales_trend"
  then _join "Product revenue trend"
  else if String.eqb intent "sales_breakdown_for_year"
  then
    let dims := dict_get intent_payload "dimensions" in
    let dim0 :=
      match list_val dims with
      | d :: _ => py_str py_repr d
      | [] => "product"
      end in
    _join ("Sales breakdown by " ++ dim0)
  else if String.eqb intent "sales_growth_analysis"
  then _join "Year-over-year revenue change"
  else if String.eqb intent "multi_year_comparison"
  then if average then _join "Average yearly revenue" else _join "Revenue by year"
  else if String.eqb intent "top_bottom_performers"
  then
    let n := if is_int limit then str_of_int_value limit else "5" in
    let ent := if in_lits entity ["product"; "category"] then str_val entity
               else "product" in
    let ord_word := if negb (eq_lit order "bottom") then "Top" else "Bottom" in
    let label := if String.eqb ent "product" then "products" else "categories" in
    _join (ord_word ++ " " ++ n ++ " " ++ label ++ " by revenue")
  else if String.eqb intent "clarification_required"
  then "Sales overview (needs clarification)"
  else _join "Revenue".

Definition _to_float (v : cell) : result spec_float :=
  match v with
  | CNone => ok float_zero
  | CFloat x => ok x
  | CBool b => float_of_int (if b then 1 else 0)
  | CInt n => float_of_int n
  | CDecimal (Dec_nan true) => raise ValueError
  | CDecimal d => ok (float_of_decimal d)
  | CStr s =>
      match float_of_text s with
      | Some x => ok x
      | None => ok float_zero
      end
  | COther (Some x) => ok x
  | COther None => ok float_zero
  end.

(** The loop over the rows: [labels] and [values]. *)
Fixpoint collect (plan : PlannedQuery) (rows : list row)
  : result (list string * list spec_float) :=
  match rows with
  | [] => ok ([], [])
  | r :: rows' =>
      let label := str_of_cell (row_get r (label_field plan)) in
      v <- _to_float (row_get r (value_field plan)) ;;
      rest <- collect plan rows' ;;
      ok (label :: fst rest, v :: snd rest)
  end.

Definition parse_intent (question : string) : result dict :=
  match gemini question with
  | Some payload => ok payload
  | None => _stub_parse question
  end.

(** The response built from the rows of a plan. *)
Definition assemble (intent : dict) (plan : PlannedQuery) (rows : list row)
  : outcome :=
  match collect plan rows with
  | inl e => Uncaught e
  | inr (labels_, values) =>
      let title_ := _derive_title intent in
      match labels_ with
      | [] =>
          Response {| title := Some title_; chartType := chart_type plan;
                      labels := []; datasets := [] |}
      | _ =>
          Response {| title := Some title_; chartType := chart_type plan;
                      labels := labels_;
                      datasets := [{| ds_label := "total_revenue";
                                      ds_data := values |}] |}
      end
  end.

(** [query]: [execute] is the database, [None] when it raises. *)
Definition query (execute : string -> dict -> option (list row))
  (question : string) : outcome :=
  match parse_intent question with
  | inl e => Uncaught e
  | inr intent =>
      match plan_intent py_repr hash_order_rev intent with
      | inl (QueryPlannerError _) => Http400 "planner_error"
      | inl e => Uncaught e
      | inr plan =>
          match execute (sql plan) (params plan) with
          | None => Http400 "db_error"
          | Some rows => assemble intent plan rows
          end
      end
  end.

End Routes.

(** ** Notions the properties are stated with *)

(** [sub] occurs in [text]. *)
Definition occurs (sub text : string) : Prop :=
  exists pre post, text = pre ++ sub ++ post.

(** The filters of a payload, as [plan_intent] reads them. *)
Definition filters_of (intent_payload : dict) : dict :=
  dict_val (py_or (dict_get intent_payload "filters") (VDict [])).

(** The intent of a payload is the string [intent_name]. *)
Definition has_intent (intent_payload : dict) (intent_name : string) : Prop :=
  dict_get intent_payload "intent" = VStr intent_name.

(** [v] is an integer [n] with [lo <= n <= hi]. *)
Definition int_within (lo hi : Z) (v : value) : bool :=
  is_int v && (lo <=? int_val v) && (int_val v <=? hi).

(** [w] is made of characters of the class [p]. *)
Fixpoint all_chars (p : ascii -> bool) (w : string) : bool :=
  match w with
  | EmptyString => true
  | String c w' => p c && all_chars p w'
  end.

(** [matches r w g g']: the pattern [r] can read exactly [w], turning the
    groups [g] into [g'] (the test of [\b] on the neighbours is left out,
    so this is what a match has to look like, not when there is one). *)
Inductive matches : re -> string -> groups -> groups -> Prop :=
| M_eps g : matches Eps "" g g
| M_chr p c g : p c = true -> matches (Chr p) (String c "") g g
| M_seq r1 r2 w1 w2 g g1 g2 :
    matches r1 w1 g g1 -> matches r2 w2 g1 g2 ->
    matches (Seq r1 r2) (w1 ++ w2) g g2
| M_alt_l r1 r2 w g g' : matches r1 w g g' -> matches (Alt r1 r2) w g g'
| M_alt_r r1 r2 w g g' : matches r2 w g g' -> matches (Alt r1 r2) w g g'
| M_rep greedy p w g : all_chars p w = true -> matches (Rep greedy p) w g g
| M_grp i r w g g' : matches r w g g' -> matches (Grp i r) w g ((i, w) :: g')
| M_wordb g : matches WordB "" g g.

(** The errors of the validation step of [plan_intent]. *)
Definition is_validation_error (e : exn) : bool :=
  match e with
  | QueryPlannerError (Unsupported_intent _) => true
  | QueryPlannerError Invalid_types => true
  | QueryPlannerError (Unsupported _ _) => true
  | TypeError _ => true
  | _ => false
  end.

(** The intents, dimensions and charts [_stub_parse] builds payloads with. *)
Definition stub_shapes : list (string * string * string) := [
  ("sales_by_category", "category", "bar");
  ("top_bottom_performers", "product", "bar");
  ("top_bottom_performers", "category", "bar");
  ("sales_breakdown_for_year", "product", "bar");
  ("sales_breakdown_for_year", "category", "bar");
  ("product_sales_trend", "year", "line");
  ("sales_growth_analysis", "year", "line");
  ("sales_trend_over_time", "year", "line");
  ("sales_comparison_by_year", "year", "bar");
  ("multi_year_comparison", "year", "bar");
  ("total_sales_for_period", "year", "bar");
  ("sales_by_product", "product", "bar");
  ("clarification_required", "year", "line")
].

(** What the validation step of [plan_intent] lets through: the intent is
    a key of the catalog, metrics and dimensions are lists (or falsy) of
    allowed names, and filters is a dictionary (or falsy). *)
Definition accepted (payload : dict) : bool :=
  match lookup_intent (dict_get payload "intent") with
  | None => false
  | Some spec =>
      let metrics := py_or (dict_get payload "metrics") (VList []) in
      let dimensions := py_or (dict_get payload "dimensions") (VList []) in
      let filters := py_or (dict_get payload "filters") (VDict []) in
      is_list metrics && is_list dimensions && is_dict filters &&
      forallb (fun v => in_lits v (allowed_metrics spec)) (list_val metrics) &&
      forallb (fun v => in_lits v (allowed_dimensions spec)) (list_val dimensions)
  end.

(** The intent demands a filter that the payload does not give. *)
Definition missing_required_filter (payload : dict) : bool :=
  let intent := dict_get payload "intent" in
  let filters := filters_of payload in
  eq_lit intent "product_sales_trend"
    && negb (is_int (dict_get filters "product_id"))
    && negb (nonblank_str (dict_get filters "product_name"))
  || eq_lit intent "sales_breakdown_for_year"
    && negb (is_int (dict_get filters "year")).

Definition supported_intent (payload : dict) : bool :=
  match lookup_intent (dict_get payload "intent") with
  | Some _ => true
  | None => false
  end.

(** The keys of [params] are the placeholders of [sql]. *)
Definition names_agree (plan : PlannedQuery) : bool :=
  same_namesb (dict_keys (params plan)) (placeholders (sql plan)).

(** *** Payloads that differ in the text of string filters

    [text_variant good v1 v2]: [v2] is [v1], or both are strings whose
    texts are [good]. Two dictionaries of filters are variants when they
    have the same keys in the same order and their values agree, up to the
    text of [category], of [product_name] and of the elements of
    [categories]; two payloads are variants when they agree up to their
    filters. *)

Inductive text_variant (good : string -> Prop) : value -> value -> Prop :=
| tv_same v : text_variant good v v
| tv_text s1 s2 : good s1 -> good s2 -> text_variant good (VStr s1) (VStr s2).

Definition list_variant (good : string -> Prop) (v1 v2 : value) : Prop :=
  v1 = v2 \/
  exists l1 l2, v1 = VList l1 /\ v2 = VList l2 /\
                Forall2 (text_variant good) l1 l2.

Definition field_variant (good : string -> Prop) (k : string)
  (v1 v2 : value) : Prop :=
  if String.eqb k "category" || String.eqb k "product_name"
  then text_variant good v1 v2
  else if String.eqb k "categories" then list_variant good v1 v2
  else v1 = v2.

Definition filters_variant (good : string -> Prop) (f1 f2 : dict) : Prop :=
  Forall2 (fun kv1 kv2 =>
             fst kv1 = fst kv2 /\
             field_variant good (fst kv1) (snd kv1) (snd kv2)) f1 f2.

Definition entry_variant (good : string -> Prop) (k : string)
  (v1 v2 : value) : Prop :=
  if String.eqb k "filters"
  then v1 = v2 \/
       exists f1 f2, v1 = VDict f1 /\ v2 = VDict f2 /\
                     filters_variant good f1 f2
  else v1 = v2.

Definition payload_variant (good : string -> Prop) (p1 p2 : dict) : Prop :=
  Forall2 (fun kv1 kv2 =>
             fst kv1 = fst kv2 /\
             entry_variant good (fst kv1) (snd kv1) (snd kv2)) p1 p2.

Definition nonempty (s : string) : Prop := s <> "".
Definition nonblank (s : string) : Prop := Py.strip s <> "".

(** What of the accumulators goes into the template. *)
Definition same_shape (st1 st2 : clauses) : Prop :=
  where_ st1 = where_ st2 /\ join_products st1 = join_products st2.

(** The filters whose text the relation leaves alone. *)
Definition neutral (k : string) : bool :=
  negb (String.eqb k "category" || String.eqb k "product_name"
        || String.eqb k "categories").

(** ** Settings ([settings.py]) *)

(** [s.split(sep)] for a separator of one character. *)
Fixpoint split_on_acc (sep : ascii) (acc s : string) : list string :=
  match s with
  | EmptyString => [acc]
  | String c s' =>
      if Ascii.eqb c sep then acc :: split_on_acc sep EmptyString s'
      else split_on_acc sep (acc ++ String c EmptyString) s'
  end.

Definition split_on (sep : ascii) (s : string) : list string :=
  split_on_acc sep EmptyString s.

(** [[o.strip() for o in self.cors_origins.split(",") if o.strip()]] *)
Definition cors_origin_list (cors_origins : string) : list string :=
  map Py.strip
    (filter (fun o => negb (String.eqb (Py.strip o) EmptyString))
       (split_on "," cors_origins)).

(** ** Master data ([admin_routes.py]) *)

Module Admin.

(** What [float()] raises. *)
Inductive float_error : Type :=
| Overflow
| Value_error
| Other_error.

(** [_to_float] of [admin_routes.py]: the last conversion has no [try]. *)
Definition _to_float (float_of_decimal : decimal -> spec_float)
  (float_of_text : string -> option spec_float) (v : cell)
  : float_error + spec_float :=
  match v with
  | CNone => inr float_zero
  | CFloat x => inr x
  | CBool b =>
      match float_of_int (if b then 1 else 0) with
      | inr x => inr x
      | inl _ => inl Overflow
      end
  | CInt n =>
      match float_of_int n with
      | inr x => inr x
      | inl _ => inl Overflow
      end
  | CDecimal (Dec_nan true) => inl Value_error
  | CDecimal d => inr (float_of_decimal d)
  | CStr s =>
      match float_of_text s with
      | Some x => inr x
      | None => inl Value_error
      end
  | COther (Some x) => inr x
  | COther None => inl Other_error
  end.

(** What the database does with a statement that returns at most one row:
    it raises (a [KeyError] or something else), returns no row, or a row. *)
Inductive db_answer : Type :=
| Raises (key_error : bool)
| No_row
| One_row (r : row).

(** The answer of an endpoint: [Done a] when it reaches its [return] with
    the data [a] it hands to the response model (the validation of that
    model is not part of this development), an [HTTPException], or an
    exception that escapes. *)
Inductive outcome (A : Type) : Type :=
| Done (a : A)
| Http (status : Z) (error : string)
| Escapes.

Arguments Done {A} a.
Arguments Http {A} status error.
Arguments Escapes {A}.

Record ProductUpdate : Type := {
  pu_name : option string;
  pu_category : option string
}.

Record SaleUpdate : Type := {
  su_product_id : option Z;
  su_year : option Z;
  su_revenue : option spec_float
}.

(** [if field is not None: updates[key] = field] *)
Definition set_field (updates : dict) (key : string) (field : option value)
  : dict :=
  match field with
  | Some v => dict_set updates key v
  | None => updates
  end.

(** [", ".join([f"{k} = :{k}" for k in updates.keys()])] *)
Definition set_sql_of (updates : dict) : string :=
  Py.join ", " (map (fun k => k ++ " = :" ++ k) (dict_keys updates)).

(** The statement and parameters of [update_product]; [None] when no field
    is given. *)
Definition update_product_statement (product_id : Z) (payload : ProductUpdate)
  : option (string * dict) :=
  let updates : dict := [] in
  let updates := set_field updates "name" (option_map VStr (pu_name payload)) in
  let updates :=
    set_field updates "category" (option_map VStr (pu_category payload)) in
  if negb (truthy (VDict updates)) then None
  else
    let set_sql := set_sql_of updates in
    let params := dict_update updates [("id", VInt product_id)] in
    Some ("
                    UPDATE products
                    SET " ++ set_sql ++ "
                    WHERE id = :id
                    RETURNING id, name, category
                    ", params).

Definition update_product (execute : string -> dict -> db_answer)
  (product_id : Z) (payload : ProductUpdate) : outcome row :=
  match update_product_statement product_id payload with
  | None => Http 400 "validation"
  | Some (statement, params) =>
      match execute statement params with
      | Raises _ => Http 400 "db_error"
      | No_row | One_row [] => Http 404 "not_found"
      | One_row r => Done r
      end
  end.

Definition update_sale_statement (sale_id : Z) (payload : SaleUpdate)
  : option (string * dict) :=
  let updates : dict := [] in
  let updates :=
    set_field updates "product_id" (option_map VInt (su_product_id payload)) in
  let updates := set_field updates "year" (option_map VInt (su_year payload)) in
  let updates :=
    set_field updates "revenue" (option_map VFloat (su_revenue payload)) in
  if negb (truthy (VDict updates)) then None
  else
    let set_sql := set_sql_of updates in
    let params := dict_update updates [("id", VInt sale_id)] in
    Some ("
                    UPDATE sales
                    SET " ++ set_sql ++ "
                    WHERE id = :id
                    RETURNING id, product_id, year, revenue
                    ", params).

(** [r[k] = v] on a row. *)
Fixpoint row_set (r : row) (k : string) (v : cell) : row :=
  match r with
  | [] => [(k, v)]
  | (k', v') :: r' =>
      if String.eqb k k' then (k', v) :: r' else (k', v') :: row_set r' k v
  end.

Fixpoint row_has (r : row) (k : string) : bool :=
  match r with
  | [] => false
  | (k', _) :: r' => String.eqb k k' || row_has r' k
  end.

(** What makes the loop of [list_sales] raise: the conversion of a revenue
    or the validation of an item. *)
Inductive item_error : Type :=
| Conversion (e : float_error)
| Validation.

Section Endpoints.

Variable float_of_decimal : decimal -> spec_float.
Variable float_of_text : string -> option spec_float.

(** [Sale] applied to the keys of the dictionary [r]: the item that the
    model of [schemas.py] builds, [None] when its validation raises. *)
Variable sale_model : row -> option row.

(** [data = dict(row); data["revenue"] = _to_float(data.get("revenue"));
     if prod: data["product_name"] = ...; data["product_category"] = ...] *)
Definition sale_of (r : row) (prod : option row) : outcome row :=
  match _to_float float_of_decimal float_of_text (row_get r "revenue") with
  | inl _ => Escapes
  | inr x =>
      let data := row_set r "revenue" (CFloat x) in
      match prod with
      | Some (_ :: _ as p) =>
          Done (row_set (row_set data "product_name" (row_get p "name"))
                  "product_category" (row_get p "category"))
      | _ => Done data
      end
  end.

(** [update_sale]: [find_product] is the look-up of the product of the
    updated row, [SELECT name, category FROM products WHERE id = :id] with
    [row["product_id"]] bound to [id]. A [KeyError] raised inside the [try]
    is answered with 404, whatever raised it. *)
Definition update_sale (execute : string -> dict -> db_answer)
  (find_product : cell -> db_answer)
  (sale_id : Z) (payload : SaleUpdate) : outcome row :=
  match update_sale_statement sale_id payload with
  | None => Http 400 "validation"
  | Some (statement, params) =>
      match execute statement params with
      | Raises true => Http 404 "not_found"
      | Raises false => Http 400 "db_error"
      | No_row | One_row [] => Http 404 "not_found"
      | One_row r =>
          if negb (row_has r "product_id") then Http 404 "not_found"
          else
            match find_product (row_get r "product_id") with
            | Raises true => Http 404 "not_found"
            | Raises false => Http 400 "db_error"
            | No_row => sale_of r None
            | One_row p => sale_of r (Some p)
            end
      end
  end.

(** [limit = max(1, min(int(limit), 1000)); offset = max(0, int(offset))]
    and the statement of [list_sales]. *)
Definition list_sales_statement (limit offset : Z) : string * dict :=
  let limit := Z.max 1 (Z.min limit 1000) in
  let offset := Z.max 0 offset in
  ("
                SELECT s.id,
                       s.product_id,
                       s.year,
                       s.revenue,
                       p.name AS product_name,
                       p.category AS product_category
                FROM sales s
                JOIN products p ON p.id = s.product_id
                ORDER BY s.year DESC, s.id DESC
                LIMIT :limit OFFSET :offset
                ", [("limit", VInt limit); ("offset", VInt offset)]).

(** The loop of [list_sales] over the rows:
    [r = dict(r); r["revenue"] = _to_float(r.get("revenue"))], then the
    item that [Sale] builds from [r] is appended. *)
Fixpoint sale_items (rows : list row) : item_error + list row :=
  match rows with
  | [] => inr []
  | r :: rows' =>
      match _to_float float_of_decimal float_of_text (row_get r "revenue") with
      | inl e => inl (Conversion e)
      | inr x =>
          match sale_model (row_set r "revenue" (CFloat x)) with
          | None => inl Validation
          | Some item =>
              match sale_items rows' with
              | inl e => inl e
              | inr items => inr (item :: items)
              end
          end
      end
  end.

Definition list_sales (execute : string -> dict -> option (list row))
  (limit offset : Z) : outcome (list row) :=
  let '(statement, params) := list_sales_statement limit offset in
  match execute statement params with
  | None => Escapes
  | Some rows =>
      match sale_items rows with
      | inl _ => Escapes
      | inr items => Done items
      end
  end.

End Endpoints.

End Admin.

(** Every character of [text] is an ASCII character. *)
Definition is_ascii (text : string) : Prop :=
  all_chars (fun c => (N_of_ascii c <? 128)%N) text = true.

(** What the payloads of [_stub_parse] promise to the planner. *)
Definition payload_facts (intent dim : string) (filters : dict) : Prop :=
  (intent = "sales_breakdown_for_year" ->
   is_int (dict_get filters "year") = true) /\
  (intent = "top_bottom_performers" ->
   exists n, dict_get filters "limit" = VInt n /\ 1 <= n /\
             in_lits (dict_get filters "order") ["top"; "bottom"] = true /\
             dict_get filters "entity" = VStr dim).

(** What a plan may bind under [category] and [product_name]: nothing, or
    the text of the filter of that name, trimmed and not blank; for a
    product name, wrapped in [%] unless it holds one. *)
Definition bound_text (filters params_ : dict) : Prop :=
  (dict_get params_ "category" = VNone \/
   (nonblank_str (dict_get filters "category") = true /\
    dict_get params_ "category" = stripped (dict_get filters "category"))) /\
  (dict_get params_ "product_name" = VNone \/
   (nonblank_str (dict_get filters "product_name") = true /\
    dict_get params_ "product_name"
    = like_pattern (dict_get filters "product_name"))).

(** The year filters a plan binds when the payload gives an explicit list
    of years, or one year: that one only, never the bounds of a range. *)
Definition only_bound (params_ : dict) (key : string) (v : value) : Prop :=
  dict_get params_ key = v /\
  forall other, In other ["year"; "years"; "year_from"; "year_to"] ->
                other <> key -> dict_get params_ other = VNone.

(** ** Strings: substrings and search *)

Example str_of_Z_samples :
  (Py.str_of_Z 2015, Py.str_of_Z 0, Py.str_of_Z (-5)) = ("2015", "0", "-5").
Proof. reflexivity. Qed.

Example strip_samples :
  (Py.strip " toyota ", Py.strip "   ", Py.split "  a  bc d ") =
  ("toyota", "", ["a"; "bc"; "d"]).
Proof. reflexivity. Qed.


Lemma prefix_app (sub text : string) :
  String.prefix sub text = true <-> exists post, text = sub ++ post.
Proof.
  revert text; induction sub as [|c sub IH]; intros text.
  - split; [intros _; now exists text | intros _; now destruct text].
  - destruct text as [|d text]; simpl.
    + split; [discriminate | intros [post H]; discriminate].
    + destruct (ascii_dec c d) as [->|Hne].
      * rewrite IH. split; intros [post H]; exists post.
        -- now rewrite H.
        -- now injection H.
      * split; [discriminate | intros [post H]].
        injection H as H1 _. now elim Hne.
Qed.

Lemma contains_occurs (sub text : string) :
  Py.contains sub text = true <-> occurs sub text.
Proof.
  induction text as [|c text IH]; cbn [Py.contains].
  - rewrite orb_false_r, prefix_app. split.
    + intros [post H]. now exists "", post.
    + intros [pre [post H]]. destruct pre; simpl in H.
      * now exists post.
      * discriminate.
  - rewrite orb_true_iff, prefix_app, IH. split.
    + intros [[post H] | [pre [post H]]].
      * now exists "", post.
      * exists (String c pre), post. simpl. now rewrite H.
    + intros [pre [post H]]. destruct pre as [|d pre]; simpl in H.
      * left. now exists post.
      * right. injection H as _ H. now exists pre, post.
Qed.

Lemma find_first {A : Type} (f : A -> bool) (l : list A) (y : A) :
  find f l = Some y ->
  exists l1 l2, l = (l1 ++ y :: l2)%list /\ f y = true /\
                forall x, In x l1 -> f x = false.
Proof.
  induction l as [|a l IH]; simpl; [discriminate|].
  destruct (f a) eqn:Ha.
  - intros [= ->]. exists [], l. repeat split; [assumption | intros x []].
  - intros H. destruct (IH H) as (l1 & l2 & -> & Hy & Hl1).
    exists (a :: l1), l2. repeat split; [assumption|].
    intros x [<- | Hx]; auto.
Qed.

Lemma year_range_eq :
  year_range = [2015; 2016; 2017; 2018; 2019; 2020; 2021; 2022; 2023; 2024;
                2025; 2026; 2027; 2028; 2029; 2030].
Proof. reflexivity. Qed.

Lemma year_range_bounds (y : Z) : In y year_range <-> 2015 <= y <= 2030.
Proof. rewrite year_range_eq. simpl. lia. Qed.

Lemma year_range_before (l1 l2 : list Z) (y y' : Z) :
  year_range = (l1 ++ y :: l2)%list -> 2015 <= y' < y -> In y' l1.
Proof.
  rewrite year_range_eq. intros H Hy.
  do 16 (destruct l1 as [|? l1];
         [simpl in H; injection H; intros; subst; simpl; lia | ]).
  apply (f_equal (@List.length Z)) in H. simpl in H.
  rewrite length_app in H. simpl in H. lia.
Qed.

(** ** The year of a text *)

(** C10: [_extract_year] returns the numerically smallest year of
    2015..2030 that occurs in the text as a substring, whatever the order
    of the years in the text, and [None] when no such year occurs; a text
    that mentions 2030 before 2016 yields 2016. *)
Theorem extract_year_smallest (text : string) :
  match _extract_year text with
  | Some y =>
      2015 <= y <= 2030 /\ occurs (Py.str_of_Z y) text /\
      forall y', 2015 <= y' < y -> ~ occurs (Py.str_of_Z y') text
  | None => forall y, 2015 <= y <= 2030 -> ~ occurs (Py.str_of_Z y) text
  end /\
  _extract_year "from 2030 back to 2016" = Some 2016.
Proof.
  split; [|reflexivity].
  unfold _extract_year.
  destruct (find _ year_range) as [y|] eqn:Hfind.
  - destruct (find_first _ _ _ Hfind) as (l1 & l2 & Hsplit & Hy & Hbefore).
    split; [|split].
    + apply year_range_bounds. rewrite Hsplit. apply in_or_app. right. now left.
    + now apply contains_occurs.
    + intros y' Hy' Hocc. apply contains_occurs in Hocc.
      rewrite (Hbefore y') in Hocc; [discriminate|].
      eapply year_range_before; eassumption.
  - intros y Hy Hocc. apply contains_occurs in Hocc.
    apply year_range_bounds in Hy.
    now rewrite (find_none _ _ Hfind y Hy) in Hocc.
Qed.

(** ** Soundness of the matcher *)

Lemma length_append (w s : string) :
  String.length (w ++ s) = (String.length w + String.length s)%nat.
Proof. induction w as [|c w IH]; simpl; [reflexivity | now rewrite IH]. Qed.

Lemma taken_app (w s' : string) : taken (w ++ s') s' = w.
Proof.
  unfold taken. rewrite length_append, Nat.add_sub.
  induction w as [|c w IH]; simpl.
  - now destruct s'.
  - now rewrite IH.
Qed.

Lemma rep_sound {A : Type} (greedy : bool) (p : ascii -> bool)
  (k : option ascii -> string -> option A) (s : string) :
  forall prev x, rep greedy p k prev s = Some x ->
  exists w s' prev', s = w ++ s' /\ all_chars p w = true /\ k prev' s' = Some x.
Proof.
  induction s as [|c s IH]; intros prev x H; simpl in H.
  - now exists "", "", prev.
  - assert (Hstop : k prev (String c s) = Some x ->
             exists w s' prev', String c s = w ++ s' /\ all_chars p w = true
                                /\ k prev' s' = Some x)
      by (intros Hk; now exists "", (String c s), prev).
    assert (Hgo : rep greedy p k (Some c) s = Some x -> p c = true ->
             exists w s' prev', String c s = w ++ s' /\ all_chars p w = true
                                /\ k prev' s' = Some x).
    { intros Hr Hp. destruct (IH _ _ Hr) as (w & s' & prev' & -> & Hw & Hk).
      exists (String c w), s', prev'. simpl. now rewrite Hp, Hw. }
    destruct (p c) eqn:Hp; [|auto].
    destruct greedy.
    + destruct (rep true p k (Some c) s) eqn:Hr; [injection H as ->|]; auto.
    + destruct (k prev (String c s)) eqn:Hk; [injection H as ->|]; auto.
Qed.

Lemma exec_sound {A : Type} (r : re) :
  forall prev s g (k : option ascii -> string -> groups -> option A) x,
  exec r prev s g k = Some x ->
  exists w s' prev' g',
    s = w ++ s' /\ matches r w g g' /\ k prev' s' g' = Some x.
Proof.
  induction r as [|p|r1 IH1 r2 IH2|r1 IH1 r2 IH2|greedy p|i r IH|];
    intros prev s g k x H; simpl in H.
  - exists "", s, prev, g. repeat split; [constructor | assumption].
  - destruct s as [|c s]; [discriminate|].
    destruct (p c) eqn:Hp; [|discriminate].
    exists (String c ""), s, (Some c), g. repeat split; [now constructor | assumption].
  - destruct (IH1 _ _ _ _ _ H) as (w1 & s1 & prev1 & g1 & -> & Hm1 & H1).
    destruct (IH2 _ _ _ _ _ H1) as (w2 & s2 & prev2 & g2 & -> & Hm2 & H2).
    exists (w1 ++ w2), s2, prev2, g2. repeat split.
    + clear. induction w1; simpl; congruence.
    + econstructor; eassumption.
    + assumption.
  - destruct (exec r1 prev s g k) eqn:H1.
    + injection H as ->.
      destruct (IH1 _ _ _ _ _ H1) as (w & s' & prev' & g' & -> & Hm & Hk).
      exists w, s', prev', g'. repeat split; [now apply M_alt_l | assumption].
    + destruct (IH2 _ _ _ _ _ H) as (w & s' & prev' & g' & -> & Hm & Hk).
      exists w, s', prev', g'. repeat split; [now apply M_alt_r | assumption].
  - destruct (rep_sound _ _ _ _ _ _ H) as (w & s' & prev' & -> & Hw & Hk).
    exists w, s', prev', g. repeat split; [now constructor | assumption].
  - destruct (IH _ _ _ _ _ H) as (w & s' & prev' & g' & -> & Hm & Hk).
    rewrite taken_app in Hk.
    exists w, s', prev', ((i, w) :: g'). repeat split; [now constructor | assumption].
  - destruct (at_boundary prev s); [|discriminate].
    exists "", s, prev, g. repeat split; [constructor | assumption].
Qed.

Lemma search_from_sound (r : re) (s : string) :
  forall prev g, search_from r prev s = Some g -> exists w, matches r w [] g.
Proof.
  induction s as [|c s IH]; intros prev g H; simpl in H.
  - destruct (exec r prev "" [] _) eqn:He; [|discriminate].
    injection H as ->.
    destruct (exec_sound _ _ _ _ _ _ He) as (w & _ & _ & g' & _ & Hm & [= ->]).
    now exists w.
  - destruct (exec r prev (String c s) [] _) eqn:He.
    + injection H as ->.
      destruct (exec_sound _ _ _ _ _ _ He) as (w & _ & _ & g' & _ & Hm & [= ->]).
      now exists w.
    + eauto.
Qed.

Lemma search_sound (r : re) (s : string) (g : groups) :
  search r s = Some g -> exists w, matches r w [] g.
Proof. apply search_from_sound. Qed.

Ltac invert_matches :=
  repeat match goal with
  | H : matches (Seq _ _) _ _ _ |- _ => inversion H; clear H; subst
  | H : matches (Alt _ _) _ _ _ |- _ => inversion H; clear H; subst
  | H : matches (Chr _) _ _ _ |- _ => inversion H; clear H; subst
  | H : matches (Rep _ _) _ _ _ |- _ => inversion H; clear H; subst
  | H : matches (Grp _ _) _ _ _ |- _ => inversion H; clear H; subst
  | H : matches Eps _ _ _ |- _ => inversion H; clear H; subst
  | H : matches WordB _ _ _ |- _ => inversion H; clear H; subst
  end.

Lemma digit_value (c : ascii) :
  Py.is_digit c = true -> 0 <= Z.of_N (N_of_ascii c - 48) <= 9.
Proof.
  unfold Py.is_digit, Py.in_range. intros H.
  apply andb_prop in H. destruct H as [H1 H2].
  apply N.leb_le in H1, H2. lia.
Qed.

Lemma year_digits (c d : ascii) :
  Py.is_digit c = true -> Py.is_digit d = true ->
  exists n, Py.int_of_str (String "2" (String "0" (String c (String d ""))))
            = Some n /\ 2000 <= n <= 2099.
Proof.
  intros Hc Hd.
  exists (2000 + 10 * Z.of_N (N_of_ascii c - 48) + Z.of_N (N_of_ascii d - 48)).
  split.
  - cbn [Py.int_of_str Py.digits_acc].
    change (Py.is_digit "2") with true. change (Py.is_digit "0") with true.
    cbn iota. rewrite Hc, Hd. f_equal.
    change (Z.of_N (N_of_ascii "2" - 48)) with 2.
    change (Z.of_N (N_of_ascii "0" - 48)) with 0. lia.
  - pose proof (digit_value _ Hc). pose proof (digit_value _ Hd). lia.
Qed.

(** What [(20\d{2})] reads is a number, so [int] of the group is defined. *)
Lemma year4_text (w : string) (g g' : groups) :
  matches year4 w g g' ->
  g' = g /\ exists n, Py.int_of_str w = Some n /\ 2000 <= n <= 2099.
Proof.
  unfold year4, chr, digit. intros H. invert_matches.
  repeat match goal with
         | H : Ascii.eqb _ _ = true |- _ => apply Ascii.eqb_eq in H; subst
         end.
  split; [reflexivity|]. cbn [append]. now apply year_digits.
Qed.

Lemma int_group_year (g : groups) (i : nat) (w : string) :
  group g i = w -> (exists n, Py.int_of_str w = Some n /\ 2000 <= n <= 2099) ->
  exists n, int_group g i = ok n.
Proof.
  intros <- (n & Hn & _). exists n. unfold int_group. now rewrite Hn.
Qed.

Ltac groups_of_search H :=
  apply search_sound in H; destruct H as [? H];
  cbv [re_range_dash re_range_to re_range_between re_from re_to] in H;
  cbn [seqs lit] in H; unfold star, plus, chr in H;
  invert_matches;
  repeat match goal with
         | Hy : matches year4 _ _ _ |- _ =>
             apply year4_text in Hy; destruct Hy as (-> & ? & Hy & _)
         end.

Ltac ints_of_groups :=
  unfold year_pair, int_group; cbn [group Nat.eqb];
  repeat match goal with
         | Hy : Py.int_of_str _ = Some _ |- _ => rewrite Hy; clear Hy
         end;
  cbn [bind ok]; eexists; reflexivity.

(** [_extract_year_range] returns on every text: the [int] of a group that
    read [20\d{2}] does not raise. *)
Lemma extract_year_range_returns (text : string) :
  exists range, _extract_year_range text = ok range.
Proof.
  unfold _extract_year_range.
  destruct (search re_range_dash text) as [g|] eqn:H1.
  { groups_of_search H1. ints_of_groups. }
  destruct (search re_range_to text) as [g|] eqn:H2.
  { groups_of_search H2; ints_of_groups. }
  destruct (search re_range_between text) as [g|] eqn:H3.
  { groups_of_search H3. ints_of_groups. }
  destruct (search re_from text) as [g|] eqn:H4;
    destruct (search re_to text) as [g'|] eqn:H5;
    try groups_of_search H4; try groups_of_search H5; ints_of_groups.
Qed.

(** ** The payloads of the rule-based extractor *)

Ltac shape_found :=
  do 4 eexists; split; [reflexivity | cbv [stub_shapes In]; tauto].

Ltac walk_rules :=
  first
    [ shape_found
    | match goal with
      | |- context [if ?c then _ else _] => destruct c
      | |- context [match ?c with Some _ => _ | None => _ end] => destruct c
      end; walk_rules ].

Lemma stub_tail_shape (question q : string) (category : option string) :
  exists intent dim chart filters,
    ok (stub_tail question q category)
    = ok (mk_payload intent dim filters chart) /\
    In (intent, dim, chart) stub_shapes.
Proof. unfold stub_tail. walk_rules. Qed.

Lemma stub_range_shape (question q : string) (category : option string)
  (year_from year_to : option Z) :
  exists intent dim chart filters,
    ok (stub_range question q category year_from year_to)
    = ok (mk_payload intent dim filters chart) /\
    In (intent, dim, chart) stub_shapes.
Proof. unfold stub_range. walk_rules. Qed.

Lemma stub_parse_shape (question : string) :
  exists intent dim chart filters,
    _stub_parse question = ok (mk_payload intent dim filters chart) /\
    In (intent, dim, chart) stub_shapes.
Proof.
  unfold _stub_parse, entity_of.
  destruct (extract_year_range_returns (Py.lower question)) as [[a b] ->].
  cbn [bind].
  destruct (Py.any_in (Py.lower question)
              ["by category"; "per category"; "group by category";
               "grouped by category"; "breakdown by category"]);
    [shape_found|].
  match goal with
  | |- context [if ?c then _ else _] => destruct c
  end; [walk_rules|].
  match goal with
  | |- context [if ?c then _ else _] => destruct c
  end; [walk_rules|].
  match goal with
  | |- context [match ?c with Some _ => _ | None => _ end] => destruct c
  end; [walk_rules|].
  destruct a, b;
    first [apply stub_range_shape | apply stub_tail_shape].
Qed.

Lemma shape_plans (intent dim chart : string) :
  In (intent, dim, chart) stub_shapes ->
  exists spec,
    intents_get INTENTS intent = Some spec /\
    allowed_metrics spec = ["total_revenue"] /\
    existsb (String.eqb dim) (allowed_dimensions spec) = true /\
    forall py_repr hash_order_rev filters,
      plan_intent py_repr hash_order_rev (mk_payload intent dim filters chart)
      = plan_branch py_repr intent filters (VStr dim) (VStr chart).
Proof.
  cbv [stub_shapes In]. intros H.
  repeat (destruct H as [H|H];
          [injection H as <- <- <-; eexists; split; [reflexivity|];
           split; [reflexivity|]; split; [reflexivity|];
           intros py_repr h [|kv filters]; reflexivity | ]).
  destruct H.
Qed.

Lemma plan_branch_errors (py_repr : value -> string) (intent_name : string)
  (filters : dict) (dim0 chart : value) (e : exn) :
  plan_branch py_repr intent_name filters dim0 chart = raise e ->
  is_validation_error e = false.
Proof.
  unfold plan_branch, plan_product_sales_trend, plan_sales_breakdown_for_year.
  repeat match goal with
         | |- context [if ?c then _ else _] => destruct c
         end; cbn [bind ok raise]; intros H; try discriminate H;
    injection H as <-; reflexivity.
Qed.

(** C8: for every question, [_stub_parse] returns a payload whose intent
    is a key of [INTENTS] and whose metrics and dimensions are among those
    the catalog entry allows, so that [plan_intent] never rejects it in its
    validation step. *)
Theorem stub_parse_passes_validation (question : string) :
  exists payload spec,
    _stub_parse question = ok payload /\
    lookup_intent (dict_get payload "intent") = Some spec /\
    Forall (fun m => in_lits m (allowed_metrics spec) = true)
      (list_val (dict_get payload "metrics")) /\
    Forall (fun d => in_lits d (allowed_dimensions spec) = true)
      (list_val (dict_get payload "dimensions")) /\
    forall py_repr hash_order_rev e,
      plan_intent py_repr hash_order_rev payload = raise e ->
      is_validation_error e = false.
Proof.
  destruct (stub_parse_shape question)
    as (intent & dim & chart & filters & Hparse & Hshape).
  destruct (shape_plans _ _ _ Hshape) as (spec & Hspec & Hm & Hd & Hplan).
  exists (mk_payload intent dim filters chart), spec.
  split; [assumption|]. split; [exact Hspec|]. split; [|split].
  - cbn. rewrite Hm. now constructor.
  - cbn. constructor; [|constructor]. cbn. exact Hd.
  - intros py_repr h e. rewrite Hplan. apply plan_branch_errors.
Qed.

(** ** Two questions *)

(** C6: for "top 5 products in 2023" the extractor yields the intent
    [top_bottom_performers] with the filters limit 5, order top, entity
    product and year 2023 (and nothing else). *)
Theorem stub_parse_top_5_products :
  _stub_parse "top 5 products in 2023"
  = ok [("intent", VStr "top_bottom_performers");
        ("metrics", VList [VStr "total_revenue"]);
        ("dimensions", VList [VStr "product"]);
        ("filters", VDict [("limit", VInt 5); ("order", VStr "top");
                           ("entity", VStr "product"); ("year", VInt 2023)]);
        ("chart", VStr "bar")].
Proof. vm_compute. reflexivity. Qed.

(** C5, as stated, fails: the payload the extractor builds for
    "revenue in 2022" has no filter whose value is 2022, under any key. *)
Lemma revenue_in_2022_no_year_filter :
  ~ exists payload key,
      _stub_parse "revenue in 2022" = ok payload /\
      dict_get (filters_of payload) key = VInt 2022.
Proof.
  intros (payload & key & Hparse & Hkey).
  vm_compute in Hparse. injection Hparse as <-.
  cbn in Hkey. discriminate Hkey.
Qed.

(** C5, amended: "revenue in 2022" matches none of the rules that look
    for a year, so the extractor answers with its default, the intent
    [sales_trend_over_time] with no filter, although [_extract_year] finds
    2022 in the text; the answer is a function of the text alone. *)
Theorem stub_parse_revenue_in_2022 :
  _stub_parse "revenue in 2022"
  = ok [("intent", VStr "sales_trend_over_time");
        ("metrics", VList [VStr "total_revenue"]);
        ("dimensions", VList [VStr "year"]);
        ("filters", VDict []);
        ("chart", VStr "line")] /\
  _extract_year "revenue in 2022" = Some 2022 /\
  forall r1 r2,
    _stub_parse "revenue in 2022" = r1 ->
    _stub_parse "revenue in 2022" = r2 -> r1 = r2.
Proof.
  split; [vm_compute; reflexivity|].
  split; [vm_compute; reflexivity|].
  intros r1 r2 <- <-. reflexivity.
Qed.

(** ** The planner: shape of a successful run *)

Lemma plan_intent_inv (py_repr : value -> string) (hash_order_rev : bool)
  (payload : dict) (plan : PlannedQuery) :
  plan_intent py_repr hash_order_rev payload = ok plan ->
  exists dim0 chart,
    plan_branch py_repr (str_val (dict_get payload "intent"))
      (filters_of payload) dim0 chart = ok plan.
Proof.
  unfold plan_intent, filters_of.
  destruct (negb (hashable _)); [discriminate|].
  destruct (lookup_intent _) as [spec|]; [|discriminate].
  destruct (_ || _); [discriminate|].
  destruct (_validate_list _ (allowed_metrics spec) _); [discriminate|].
  destruct (_validate_list _ (allowed_dimensions spec) _); [discriminate|].
  cbn [bind]. eauto.
Qed.

Lemma limit_or_default_spec (limit : value) (hi dflt : Z) :
  limit_or_default limit hi dflt
  = if int_within 1 hi limit then limit else VInt dflt.
Proof.
  unfold limit_or_default, int_within.
  destruct (is_int limit); cbn [negb orb andb]; [|reflexivity].
  destruct (Z.leb_spec (int_val limit) 0), (Z.leb_spec 1 (int_val limit));
    try lia; cbn [orb andb]; [reflexivity|].
  destruct (Z.leb_spec (int_val limit) hi), (Z.gtb_spec (int_val limit) hi);
    try lia; reflexivity.
Qed.

Ltac split_conditions :=
  repeat match goal with
         | |- context [if ?c then _ else _] => destruct c
         end.

Lemma sales_by_product_limit (filters : dict) (chart : value) :
  dict_get (params (plan_sales_by_product filters chart)) "limit"
  = limit_or_default (dict_get filters "limit") 100 20.
Proof.
  unfold plan_sales_by_product, add_year_or_range, add_year_from_to, add, start.
  generalize (limit_or_default (dict_get filters "limit") 100 20) as limit.
  intros limit. split_conditions; reflexivity.
Qed.

Lemma top_bottom_performers_limit (filters : dict) (dim0 chart : value) :
  dict_get (params (plan_top_bottom_performers filters dim0 chart)) "limit"
  = limit_or_default (dict_get filters "limit") 50 5.
Proof.
  unfold plan_top_bottom_performers, add_year_or_range, add_year_from_to,
    add, start.
  generalize (limit_or_default (dict_get filters "limit") 50 5) as limit.
  intros limit. cbn [params mk_plan params_].
  destruct (is_int (dict_get filters "year")); [reflexivity|].
  destruct (is_int (dict_get filters "year_from"));
    destruct (is_int (dict_get filters "year_to")); reflexivity.
Qed.

(** ** Limits *)

Example sales_by_product_limits :
  map (fun limit =>
         option_map (fun plan => dict_get (params plan) "limit")
           (match plan_intent (fun _ => "") false
                    [("intent", VStr "sales_by_product");
                     ("filters", VDict [("limit", VInt limit)])] with
            | inr plan => Some plan
            | inl _ => None
            end))
      [0; -5; 500; 100; 1]
  = [Some (VInt 20); Some (VInt 20); Some (VInt 20); Some (VInt 100);
     Some (VInt 1)].
Proof. vm_compute. reflexivity. Qed.

(** C1, as stated, fails: a [top_bottom_performers] limit of 999 does not
    come out as 50. *)
Lemma top_bottom_limit_999_not_50 :
  ~ exists plan,
      plan_intent (fun _ => "") false
        [("intent", VStr "top_bottom_performers");
         ("filters", VDict [("limit", VInt 999)])] = ok plan /\
      dict_get (params plan) "limit" = VInt 50.
Proof.
  intros (plan & Hplan & Hlimit).
  vm_compute in Hplan. injection Hplan as <-.
  vm_compute in Hlimit. discriminate Hlimit.
Qed.

(** C1, amended: [plan_intent] keeps a limit that is an integer of 1..100
    ([sales_by_product]) or of 1..50 ([top_bottom_performers]) and replaces
    any other by the default, 20 or 5; the limit it binds is therefore
    always in the range. (So 0, -5 and 500 give 20, and 999 gives 5.) *)
Theorem limit_kept_or_default (py_repr : value -> string)
  (hash_order_rev : bool) (payload : dict) (plan : PlannedQuery) :
  plan_intent py_repr hash_order_rev payload = ok plan ->
  let limit := dict_get (filters_of payload) "limit" in
  let bound := dict_get (params plan) "limit" in
  (has_intent payload "sales_by_product" ->
   bound = (if int_within 1 100 limit then limit else VInt 20) /\
   int_within 1 100 bound = true) /\
  (has_intent payload "top_bottom_performers" ->
   bound = (if int_within 1 50 limit then limit else VInt 5) /\
   int_within 1 50 bound = true).
Proof.
  intros Hplan limit bound.
  destruct (plan_intent_inv _ _ _ _ Hplan) as (dim0 & chart & Hbranch).
  split; intros Hintent; unfold has_intent in Hintent;
    rewrite Hintent in Hbranch; cbn in Hbranch;
    injection Hbranch as <-; subst bound limit.
  - rewrite sales_by_product_limit, limit_or_default_spec.
    destruct (int_within 1 100 _) eqn:Hw; split; auto.
  - rewrite top_bottom_performers_limit, limit_or_default_spec.
    destruct (int_within 1 50 _) eqn:Hw; split; auto.
Qed.

Lemma limit_kept_or_default_witness :
  exists plan,
    plan_intent (fun _ => "") false
      [("intent", VStr "top_bottom_performers");
       ("filters", VDict [("limit", VInt 999)])] = ok plan /\
    dict_get (params plan) "limit" = VInt 5.
Proof.
  eexists. split.
  - vm_compute. reflexivity.
  - refine (proj1 (proj2 (limit_kept_or_default (fun _ => "") false
                            [("intent", VStr "top_bottom_performers");
                             ("filters", VDict [("limit", VInt 999)])] _ _)
                         eq_refl)).
    vm_compute. reflexivity.
Defined.

(** ** The clarification intent and the empty chart *)

Lemma derive_title_clarification (py_repr : value -> string) (payload : dict) :
  has_intent payload "clarification_required" ->
  _derive_title py_repr payload = "Sales overview (needs clarification)".
Proof.
  unfold has_intent, _derive_title. intros ->. reflexivity.
Qed.

(** C7: for the intent [clarification_required] the plan binds no
    parameter and its query is the constant selection under [WHERE FALSE],
    which selects no row from any data; and the response assembled from no
    row has no label and no dataset, and raises nothing. *)
Theorem clarification_required_empty_chart (py_repr : value -> string)
  (hash_order_rev : bool) (float_of_decimal : decimal -> spec_float)
  (float_of_text : string -> option spec_float) (str_of_cell : cell -> string)
  (payload : dict) (plan : PlannedQuery) :
  has_intent payload "clarification_required" ->
  plan_intent py_repr hash_order_rev payload = ok plan ->
  params plan = [] /\
  sql plan = "SELECT 1::TEXT AS label, 0::NUMERIC AS value WHERE FALSE" /\
  placeholders (sql plan) = [] /\
  assemble py_repr float_of_decimal float_of_text str_of_cell payload plan []
  = Response {| title := Some "Sales overview (needs clarification)";
                chartType := chart_type plan;
                labels := []; datasets := [] |}.
Proof.
  intros Hintent Hplan.
  destruct (plan_intent_inv _ _ _ _ Hplan) as (dim0 & chart & Hbranch).
  unfold has_intent in Hintent. rewrite Hintent in Hbranch. cbn in Hbranch.
  injection Hbranch as <-.
  repeat split.
  unfold assemble. cbn [collect bind ok].
  rewrite derive_title_clarification by exact Hintent. reflexivity.
Qed.

Lemma clarification_required_empty_chart_witness :
  exists payload plan,
    _stub_parse "give me an overview" = ok payload /\
    plan_intent (fun _ => "") false payload = ok plan /\
    params plan = [] /\
    query (fun _ => "") false (fun _ => float_zero) (fun _ => None)
      (fun _ => "") (fun _ => None) (fun _ _ => Some []) "give me an overview"
    = Response {| title := Some "Sales overview (needs clarification)";
                  chartType := VStr "line"; labels := []; datasets := [] |}.
Proof.
  do 2 eexists. split; [vm_compute; reflexivity|].
  split; [vm_compute; reflexivity|].
  split.
  - refine (proj1 (clarification_required_empty_chart (fun _ => "") false
                     (fun _ => float_zero) (fun _ => None) (fun _ => "")
                     (mk_payload "clarification_required" "year" [] "line")
                     _ _ _)).
    + reflexivity.
    + vm_compute. reflexivity.
  - vm_compute. reflexivity.
Defined.

(** ** Numbers of a row *)

Lemma to_float_raises_only (float_of_decimal : decimal -> spec_float)
  (float_of_text : string -> option spec_float) (v : cell) (e : exn) :
  _to_float float_of_decimal float_of_text v = raise e ->
  (exists n, v = CInt n /\ float_of_int n = raise e) \/
  v = CDecimal (Dec_nan true).
Proof.
  destruct v as [|x|[|]|n|[neg c ex|neg|[|]]|s|[x|]]; cbn;
    try discriminate; eauto.
  destruct (float_of_text s); discriminate.
Qed.

(** C9, as stated, fails: [_to_float] raises on an integer too large for
    a float, which it converts outside the [try], and on a [Decimal] that
    is a signaling NaN. *)
Lemma to_float_raises_on_huge_int :
  _to_float (fun _ => float_zero) (fun _ => None) (CInt (10 ^ 400))
  = raise OverflowError /\
  _to_float (fun _ => float_zero) (fun _ => None) (CDecimal (Dec_nan true))
  = raise ValueError.
Proof. split; vm_compute; reflexivity. Qed.

(** C9, amended: on every value other than an integer that overflows a
    float and a signaling NaN, [_to_float] returns and does not raise:
    [None] gives 0.0, a float is returned as it is, an integer and a
    [Decimal] are converted, and a value of another type gives what
    [float()] makes of it, or 0.0 when [float()] rejects it. *)
Theorem to_float_returns_on_convertible
  (float_of_decimal : decimal -> spec_float)
  (float_of_text : string -> option spec_float) (v : cell) :
  (forall n, v = CInt n -> float_of_int n <> raise OverflowError) ->
  v <> CDecimal (Dec_nan true) ->
  exists x,
    _to_float float_of_decimal float_of_text v = ok x /\
    match v with
    | CNone => x = float_zero
    | CFloat y => x = y
    | CBool b => float_of_int (if b then 1 else 0) = ok x
    | CInt n => float_of_int n = ok x
    | CDecimal d => x = float_of_decimal d
    | CStr s => x = match float_of_text s with
                    | Some y => y
                    | None => float_zero
                    end
    | COther conv => x = match conv with
                         | Some y => y
                         | None => float_zero
                         end
    end.
Proof.
  intros Hint Hnan.
  destruct v as [|y|[|]|n|[neg c ex|neg|[|]]|s|[y|]]; cbn [_to_float];
    try (eexists; split; reflexivity).
  - specialize (Hint n eq_refl). unfold float_of_int in *.
    destruct (binary_normalize 53 1024 n 0 false);
      try (eexists; split; reflexivity).
    now elim Hint.
  - now elim Hnan.
  - destruct (float_of_text s); eexists; split; reflexivity.
Qed.

Lemma to_float_returns_on_convertible_witness :
  exists x,
    _to_float (fun _ => float_zero) (fun _ => None) (CInt 3) = ok x /\
    float_of_int 3 = ok x.
Proof.
  refine (to_float_returns_on_convertible (fun _ => float_zero)
            (fun _ => None) (CInt 3) _ _).
  - intros n [= <-]. vm_compute. discriminate.
  - discriminate.
Defined.

(** ** When the planner fails *)

Lemma in_lits_str (v : value) (lits : list string) :
  in_lits v lits = true -> hashable v = true.
Proof.
  destruct v; try reflexivity; unfold in_lits;
    induction lits; cbn; auto; discriminate.
Qed.

Lemma validate_succeeds (values : list value) (allowed : list string)
  (what : string) :
  succeeds (_validate_list values allowed what)
  = forallb (fun v => in_lits v allowed) values.
Proof.
  induction values as [|v values IH]; cbn; [reflexivity|].
  destruct (in_lits v allowed) eqn:Hv.
  - rewrite (in_lits_str _ _ Hv). cbn. exact IH.
  - destruct (hashable v); reflexivity.
Qed.

Lemma intents_get_in (s : string) (spec : IntentSpec) :
  intents_get INTENTS s = Some spec -> In (s, spec) INTENTS.
Proof.
  generalize INTENTS as tbl. induction tbl as [|[k sp] tbl IH]; cbn.
  - discriminate.
  - destruct (String.eqb_spec s k) as [->|_].
    + intros [= ->]. now left.
    + intros H. right. auto.
Qed.

(** A branch fails only for want of a required filter. *)
Lemma plan_branch_succeeds (py_repr : value -> string) (s : string)
  (spec : IntentSpec) (filters : dict) (dim0 chart : value) :
  intents_get INTENTS s = Some spec ->
  succeeds (plan_branch py_repr s filters dim0 chart)
  = negb (String.eqb s "product_sales_trend"
            && negb (is_int (dict_get filters "product_id"))
            && negb (nonblank_str (dict_get filters "product_name"))
          || String.eqb s "sales_breakdown_for_year"
            && negb (is_int (dict_get filters "year"))).
Proof.
  intros H. apply intents_get_in in H. cbv [INTENTS In mk_intent] in H.
  repeat (destruct H as [H|H]; [injection H as <- _; clear | ]);
    try destruct H;
    cbn [plan_branch existsb String.eqb Ascii.eqb Bool.eqb orb andb negb
         succeeds ok];
    try reflexivity.
  - unfold plan_product_sales_trend.
    destruct (is_int (dict_get filters "product_id"));
      destruct (nonblank_str (dict_get filters "product_name")); reflexivity.
  - unfold plan_sales_breakdown_for_year.
    destruct (is_int (dict_get filters "year")); reflexivity.
Qed.



(** ** Parameters and placeholders *)

Lemma subset_names_sound (xs ys : list string) :
  subset_names xs ys = true -> forall k, In k xs -> In k ys.
Proof.
  unfold subset_names. rewrite forallb_forall. intros H k Hk.
  apply H in Hk. apply existsb_exists in Hk. destruct Hk as (y & Hy & Heq).
  apply String.eqb_eq in Heq. now subst.
Qed.

Lemma same_namesb_sound (xs ys : list string) :
  same_namesb xs ys = true -> same_names xs ys.
Proof.
  unfold same_namesb. intros H. apply andb_prop in H. destruct H as [H1 H2].
  split; now apply subset_names_sound.
Qed.

Ltac by_cases :=
  repeat match goal with
         | |- context [if ?c then _ else _] => destruct c
         | |- context [match ?c with [] => _ | _ :: _ => _ end] => destruct c
         end;
  vm_compute; reflexivity.

Ltac open_branch :=
  unfold add_years_or_range, add_years_or_pair, add_year_or_range,
    add_year_from_to, add_product_id, add_category,
    add_category_or_categories, add_product_name.

Lemma names_sales_trend (py_repr : value -> string) (filters : dict)
  (chart : value) :
  names_agree (plan_sales_trend py_repr filters chart) = true.
Proof.
  unfold plan_sales_trend. open_branch.
  destruct (truthy (py_or (py_or (dict_get filters "category")
                             (dict_get filters "categories"))
                      (dict_get filters "product_name"))); by_cases.
Qed.

Lemma names_sales_comparison_by_year (filters : dict) (chart : value) :
  names_agree (plan_sales_comparison_by_year filters chart) = true.
Proof.
  unfold plan_sales_comparison_by_year. open_branch.
  destruct (truthy (py_or (dict_get filters "category")
                      (dict_get filters "product_name"))); by_cases.
Qed.

Lemma label_total_sales_for_period (filters : dict) (chart : value) :
  let plan := plan_total_sales_for_period filters chart in
  existsb (String.eqb "label") (dict_keys (params plan))
  && negb (existsb (String.eqb "label") (placeholders (sql plan)))
  && existsb (String.eqb "labe") (placeholders (sql plan)) = true.
Proof.
  unfold plan_total_sales_for_period. open_branch.
  generalize (str_of_int_value (dict_get filters "year")),
    (str_of_int_value (dict_get filters "year_from")),
    (str_of_int_value (dict_get filters "year_to")).
  intros l1 l2 l3.
  destruct (truthy (py_or (dict_get filters "category")
                      (dict_get filters "product_name"))); by_cases.
Qed.

Lemma names_sales_by_product (filters : dict) (chart : value) :
  names_agree (plan_sales_by_product filters chart) = true.
Proof. unfold plan_sales_by_product. open_branch. by_cases. Qed.

Lemma names_product_sales_trend (filters : dict) (chart : value)
  (plan : PlannedQuery) :
  plan_product_sales_trend filters chart = ok plan -> names_agree plan = true.
Proof.
  unfold plan_product_sales_trend. open_branch.
  repeat match goal with
         | |- context [if ?c then _ else _] => destruct c
         end;
    cbn [bind ok raise]; intros H; try discriminate H;
    injection H as <-; vm_compute; reflexivity.
Qed.

Lemma names_sales_by_category (filters : dict) (chart : value) :
  names_agree (plan_sales_by_category filters chart) = true.
Proof. unfold plan_sales_by_category. open_branch. by_cases. Qed.

Lemma names_top_bottom_performers (filters : dict) (dim0 chart : value) :
  names_agree (plan_top_bottom_performers filters dim0 chart) = true.
Proof. unfold plan_top_bottom_performers. open_branch. by_cases. Qed.

Lemma names_sales_breakdown_for_year (filters : dict) (dim0 chart : value)
  (plan : PlannedQuery) :
  plan_sales_breakdown_for_year filters dim0 chart = ok plan ->
  names_agree plan = true.
Proof.
  unfold plan_sales_breakdown_for_year.
  repeat match goal with
         | |- context [if ?c then _ else _] => destruct c
         end;
    cbn [bind ok raise]; intros H; try discriminate H;
    injection H as <-; vm_compute; reflexivity.
Qed.

Lemma names_sales_growth_analysis (filters : dict) (chart : value) :
  names_agree (plan_sales_growth_analysis filters chart) = true.
Proof.
  unfold plan_sales_growth_analysis. open_branch.
  destruct (truthy (dict_get filters "category")); by_cases.
Qed.

Lemma names_multi_year_comparison (filters : dict) (chart : value) :
  names_agree (plan_multi_year_comparison filters chart) = true.
Proof.
  unfold plan_multi_year_comparison.
  destruct (truthy (dict_get filters "category")); by_cases.
Qed.

Lemma names_revenue_by_category (filters : dict) (chart : value) :
  names_agree (plan_revenue_by_category filters chart) = true.
Proof. unfold plan_revenue_by_category. by_cases. Qed.

Lemma names_top_products (filters : dict) (chart : value) :
  names_agree (plan_top_products filters chart) = true.
Proof. unfold plan_top_products. by_cases. Qed.

Lemma names_plan_branch (py_repr : value -> string) (intent_name : string)
  (filters : dict) (dim0 chart : value) (plan : PlannedQuery) :
  String.eqb intent_name "total_sales_for_period" = false ->
  plan_branch py_repr intent_name filters dim0 chart = ok plan ->
  names_agree plan = true.
Proof.
  intros Hname. unfold plan_branch. rewrite Hname.
  repeat match goal with
         | |- context [if ?c then _ else _] => destruct c
         end;
    intros H;
    first
      [ discriminate H
      | injection H as <-;
        solve [auto using names_sales_trend, names_sales_comparison_by_year,
                 names_sales_by_product,
                 names_sales_by_category, names_top_bottom_performers,
                 names_sales_growth_analysis, names_multi_year_comparison,
                 names_revenue_by_category, names_top_products]
      | solve [eauto using names_product_sales_trend,
                 names_sales_breakdown_for_year] ].
Qed.

Lemma existsb_eqb_In (k : string) (l : list string) :
  existsb (String.eqb k) l = true <-> In k l.
Proof.
  rewrite existsb_exists. split.
  - intros (x & Hx & Heq). apply String.eqb_eq in Heq. now subst.
  - intros H. exists k. split; [exact H | apply String.eqb_refl].
Qed.

(** C4 fails on the code, by a slip in one branch: the template of
    [total_sales_for_period] writes [:label::TEXT], which the lexer of
    [sqlalchemy.text] reads as the parameter [labe], while the plan binds
    [label]. This is so for the plan of the question "total sales in 2022"
    and for every plan of that intent; the plans of all other intents have
    as keys of [params] exactly the placeholders of their template. *)
Theorem total_sales_label_not_bound (py_repr : value -> string)
  (hash_order_rev : bool) :
  (exists payload plan,
     _stub_parse "total sales in 2022" = ok payload /\
     has_intent payload "total_sales_for_period" /\
     plan_intent py_repr hash_order_rev payload = ok plan /\
     dict_keys (params plan) = ["year"; "label"] /\
     placeholders (sql plan) = ["labe"; "year"]) /\
  (forall payload plan,
     plan_intent py_repr hash_order_rev payload = ok plan ->
     if eq_lit (dict_get payload "intent") "total_sales_for_period"
     then In "label" (dict_keys (params plan)) /\
          ~ In "label" (placeholders (sql plan)) /\
          In "labe" (placeholders (sql plan))
     else same_names (dict_keys (params plan)) (placeholders (sql plan))).
Proof.
  split.
  - do 2 eexists. split; [vm_compute; reflexivity|].
    split; [reflexivity|]. split; [vm_compute; reflexivity|].
    split; vm_compute; reflexivity.
  - intros payload plan Hplan.
    destruct (plan_intent_inv _ _ _ _ Hplan) as (dim0 & chart & Hbranch).
    destruct (eq_lit (dict_get payload "intent") "total_sales_for_period")
      eqn:Hintent.
    + destruct (dict_get payload "intent") as [| | | |s| |];
        try discriminate Hintent.
      cbn [eq_lit] in Hintent. apply String.eqb_eq in Hintent. subst s.
      cbn [str_val plan_branch existsb String.eqb Ascii.eqb Bool.eqb orb andb]
        in Hbranch.
      injection Hbranch as <-.
      pose proof (label_total_sales_for_period (filters_of payload) chart)
        as H.
      cbv zeta in H. apply andb_prop in H. destruct H as [H Hlabe].
      apply andb_prop in H. destruct H as [Hkey Hnot].
      apply existsb_eqb_In in Hkey. apply existsb_eqb_In in Hlabe.
      apply negb_true_iff in Hnot.
      repeat split; try assumption.
      intros Hin. apply existsb_eqb_In in Hin. congruence.
    + apply same_namesb_sound.
      refine (names_plan_branch _ _ _ _ _ _ _ Hbranch).
      destruct (dict_get payload "intent") as [| | | |s| |];
        try reflexivity. exact Hintent.
Qed.

(** ** The template does not depend on the text of the filters *)

Lemma get_variant (f1 f2 : dict) (k : string) :
  filters_variant nonblank f1 f2 ->
  field_variant nonblank k (dict_get f1 k) (dict_get f2 k).
Proof.
  induction 1 as [|[k1 v1] [k2 v2] l1 l2 [Hk Hv] _ IH];
    cbn [dict_get fst snd] in *.
  - unfold field_variant. destruct (_ || _); [constructor|].
    destruct (String.eqb k "categories"); [now left | reflexivity].
  - subst k2. destruct (String.eqb_spec k k1) as [->|_]; assumption.
Qed.

Lemma get_neutral (f1 f2 : dict) (k : string) :
  filters_variant nonblank f1 f2 -> neutral k = true ->
  dict_get f2 k = dict_get f1 k.
Proof.
  unfold neutral. intros Hf H. pose proof (get_variant _ _ k Hf) as Hv.
  unfold field_variant in Hv.
  destruct (String.eqb k "category"); [discriminate|].
  destruct (String.eqb k "product_name"); [discriminate|].
  destruct (String.eqb k "categories"); [discriminate|].
  cbn in Hv. now symmetry.
Qed.

Lemma get_category (f1 f2 : dict) :
  filters_variant nonblank f1 f2 ->
  text_variant nonblank (dict_get f1 "category") (dict_get f2 "category").
Proof. exact (get_variant f1 f2 "category"). Qed.

Lemma get_product_name (f1 f2 : dict) :
  filters_variant nonblank f1 f2 ->
  text_variant nonblank (dict_get f1 "product_name")
    (dict_get f2 "product_name").
Proof. exact (get_variant f1 f2 "product_name"). Qed.

Lemma get_categories (f1 f2 : dict) :
  filters_variant nonblank f1 f2 ->
  list_variant nonblank (dict_get f1 "categories") (dict_get f2 "categories").
Proof. exact (get_variant f1 f2 "categories"). Qed.

Lemma text_variant_nonblank (v1 v2 : value) :
  text_variant nonblank v1 v2 -> nonblank_str v2 = nonblank_str v1.
Proof.
  intros [v|s1 s2 H1 H2]; [reflexivity|]. unfold nonblank in *. cbn.
  destruct (String.eqb_spec (Py.strip s1) ""), (String.eqb_spec (Py.strip s2) "");
    congruence.
Qed.

Lemma text_variant_truthy (v1 v2 : value) :
  text_variant nonblank v1 v2 -> truthy v2 = truthy v1.
Proof.
  intros [v|s1 s2 H1 H2]; [reflexivity|]. unfold nonblank in *. cbn.
  destruct (String.eqb_spec s1 ""), (String.eqb_spec s2 ""); subst;
    try reflexivity; exfalso; auto.
Qed.

Lemma list_variant_is_list (v1 v2 : value) :
  list_variant nonblank v1 v2 -> is_list v2 = is_list v1.
Proof. intros [->|(l1 & l2 & -> & -> & _)]; reflexivity. Qed.

Lemma list_variant_truthy (v1 v2 : value) :
  list_variant nonblank v1 v2 -> truthy v2 = truthy v1.
Proof.
  intros [->|(l1 & l2 & -> & -> & H)]; [reflexivity|]. now destruct H.
Qed.

Lemma truthy_or (a b : value) : truthy (py_or a b) = truthy a || truthy b.
Proof. unfold py_or. destruct (truthy a) eqn:Ha; [exact Ha | reflexivity]. Qed.

(** The cleaned list of categories is empty for both or for none. *)
Lemma list_variant_cleaned (py_repr : value -> string) (v1 v2 : value) :
  list_variant nonblank v1 v2 ->
  cleaned_categories py_repr (list_val v1) = [] <->
  cleaned_categories py_repr (list_val v2) = [].
Proof.
  intros [->|(l1 & l2 & -> & -> & H)]; [reflexivity|]. cbn [list_val].
  unfold cleaned_categories.
  induction H as [|a b l1 l2 Hab _ IH]; [reflexivity|]. cbn [filter].
  assert (Hsame : negb (String.eqb (Py.strip (py_str py_repr b)) "")
                  = negb (String.eqb (Py.strip (py_str py_repr a)) "")).
  { destruct Hab as [v|s1 s2 H1 H2]; [reflexivity|]. unfold nonblank in *.
    cbn [py_str].
    destruct (String.eqb_spec (Py.strip s1) ""),
      (String.eqb_spec (Py.strip s2) ""); congruence. }
  rewrite Hsame. clear Hsame.
  destruct (negb (String.eqb (Py.strip (py_str py_repr a)) "")); cbn [map]; [split; intros H'; discriminate H' | exact IH].
Qed.

Lemma shape_add (st1 st2 : clauses) (text k : string) (v1 v2 : value) :
  same_shape st1 st2 -> same_shape (add st1 text k v1) (add st2 text k v2).
Proof. intros [Hw Hj]. split; cbn; congruence. Qed.

Lemma shape_joined (st1 st2 : clauses) :
  same_shape st1 st2 -> same_shape (joined st1) (joined st2).
Proof. intros [Hw Hj]. split; [exact Hw | reflexivity]. Qed.

Lemma shape_start (p1 p2 : dict) (j1 j2 : bool) :
  j2 = j1 -> same_shape (start p1 j1) (start p2 j2).
Proof. intros ->. split; reflexivity. Qed.

Section Shapes.

Variable py_repr : value -> string.
Variables f1 f2 : dict.
Hypothesis Hf : filters_variant nonblank f1 f2.
Variables st1 st2 : clauses.
Hypothesis Hst : same_shape st1 st2.

Ltac neutral_gets :=
  rewrite ?(get_neutral f1 f2 "year" Hf eq_refl),
    ?(get_neutral f1 f2 "years" Hf eq_refl),
    ?(get_neutral f1 f2 "year_from" Hf eq_refl),
    ?(get_neutral f1 f2 "year_to" Hf eq_refl),
    ?(get_neutral f1 f2 "product_id" Hf eq_refl).

Lemma shape_year_from_to :
  same_shape (add_year_from_to f1 st1) (add_year_from_to f2 st2).
Proof using Hf Hst.
  unfold add_year_from_to. neutral_gets.
  destruct (is_int (dict_get f1 "year_from"));
    destruct (is_int (dict_get f1 "year_to")); auto using shape_add.
Qed.

Lemma shape_year_or_range :
  same_shape (add_year_or_range f1 st1) (add_year_or_range f2 st2).
Proof using Hf Hst.
  unfold add_year_or_range. neutral_gets.
  destruct (is_int (dict_get f1 "year"));
    auto using shape_add, shape_year_from_to.
Qed.

Lemma shape_years_or_range :
  same_shape (add_years_or_range f1 st1) (add_years_or_range f2 st2).
Proof using Hf Hst.
  unfold add_years_or_range. neutral_gets.
  destruct (_ && _); auto using shape_add, shape_year_from_to.
Qed.

Lemma shape_years_or_pair :
  same_shape (add_years_or_pair f1 st1) (add_years_or_pair f2 st2).
Proof using Hf Hst.
  unfold add_years_or_pair. neutral_gets.
  destruct (_ && _); [auto using shape_add|].
  destruct (sorted_set _); auto using shape_add.
Qed.

Lemma shape_product_id :
  same_shape (add_product_id f1 st1) (add_product_id f2 st2).
Proof using Hf Hst.
  unfold add_product_id. neutral_gets.
  destruct (is_int _); auto using shape_add.
Qed.

Lemma shape_category :
  same_shape (add_category f1 st1) (add_category f2 st2).
Proof using Hf Hst.
  unfold add_category.
  rewrite (text_variant_nonblank _ _ (get_category _ _ Hf)).
  destruct (nonblank_str _); auto using shape_add, shape_joined.
Qed.

Lemma shape_product_name :
  same_shape (add_product_name f1 st1) (add_product_name f2 st2).
Proof using Hf Hst.
  unfold add_product_name.
  rewrite (text_variant_nonblank _ _ (get_product_name _ _ Hf)).
  destruct (nonblank_str _); auto using shape_add, shape_joined.
Qed.

Lemma shape_category_or_categories :
  same_shape (add_category_or_categories py_repr f1 st1)
             (add_category_or_categories py_repr f2 st2).
Proof using Hf Hst.
  unfold add_category_or_categories.
  rewrite (text_variant_nonblank _ _ (get_category _ _ Hf)).
  destruct (nonblank_str _); [auto using shape_add, shape_joined|].
  rewrite (list_variant_is_list _ _ (get_categories _ _ Hf)),
          (list_variant_truthy _ _ (get_categories _ _ Hf)).
  destruct (_ && _); [|assumption].
  pose proof (list_variant_cleaned py_repr _ _ (get_categories _ _ Hf)) as Hc.
  destruct (cleaned_categories py_repr (list_val (dict_get f1 "categories")));
    destruct (cleaned_categories py_repr (list_val (dict_get f2 "categories")));
    auto using shape_add, shape_joined.
  - destruct Hc as [Hc _]. discriminate (Hc eq_refl).
  - destruct Hc as [_ Hc]. discriminate (Hc eq_refl).
Qed.

End Shapes.

Ltac shape_steps :=
  repeat (first [ apply shape_product_name | apply shape_category
                | apply shape_category_or_categories | apply shape_product_id
                | apply shape_years_or_range | apply shape_years_or_pair
                | apply shape_year_or_range | apply shape_year_from_to
                | apply shape_add | apply shape_joined ];
          try assumption).

Ltac same_template :=
  cbn [sql mk_plan];
  match goal with
  | |- ?lhs = ?rhs =>
      match lhs with
      | context [where_ ?a] =>
          match rhs with
          | context [where_ ?b] =>
              let H := fresh "H" in
              assert (H : same_shape a b);
              [ shape_steps
              | destruct H as [Hw Hj]; rewrite Hw, ?Hj; reflexivity ]
          end
      end
  end.

Section Templates.

Variable py_repr : value -> string.
Variables f1 f2 : dict.
Hypothesis Hf : filters_variant nonblank f1 f2.

Ltac truthy_gets :=
  rewrite ?truthy_or,
    ?(text_variant_truthy _ _ (get_category _ _ Hf)),
    ?(text_variant_truthy _ _ (get_product_name _ _ Hf)),
    ?(list_variant_truthy _ _ (get_categories _ _ Hf)),
    ?(text_variant_nonblank _ _ (get_category _ _ Hf)),
    ?(text_variant_nonblank _ _ (get_product_name _ _ Hf)).

Ltac other_gets :=
  rewrite ?(get_neutral f1 f2 "year" Hf eq_refl),
    ?(get_neutral f1 f2 "product_id" Hf eq_refl),
    ?(get_neutral f1 f2 "limit" Hf eq_refl),
    ?(get_neutral f1 f2 "entity" Hf eq_refl),
    ?(get_neutral f1 f2 "order" Hf eq_refl),
    ?(get_neutral f1 f2 "average" Hf eq_refl),
    ?(get_neutral f1 f2 "year_count" Hf eq_refl).

Lemma template_sales_trend (chart : value) :
  sql (plan_sales_trend py_repr f1 chart)
  = sql (plan_sales_trend py_repr f2 chart).
Proof using Hf.
  unfold plan_sales_trend. same_template.
  apply shape_start. truthy_gets. reflexivity.
Qed.

Lemma template_sales_comparison_by_year (chart : value) :
  sql (plan_sales_comparison_by_year f1 chart)
  = sql (plan_sales_comparison_by_year f2 chart).
Proof using Hf.
  unfold plan_sales_comparison_by_year. same_template.
  apply shape_start. truthy_gets. reflexivity.
Qed.

Lemma template_total_sales_for_period (chart : value) :
  sql (plan_total_sales_for_period f1 chart)
  = sql (plan_total_sales_for_period f2 chart).
Proof using Hf.
  unfold plan_total_sales_for_period. same_template.
  apply shape_start. truthy_gets. reflexivity.
Qed.

Lemma template_sales_by_product (chart : value) :
  sql (plan_sales_by_product f1 chart) = sql (plan_sales_by_product f2 chart).
Proof using Hf.
  unfold plan_sales_by_product. truthy_gets.
  destruct (nonblank_str (dict_get f1 "category")); same_template;
    now apply shape_start.
Qed.

Lemma template_product_sales_trend (chart : value) (q1 q2 : PlannedQuery) :
  plan_product_sales_trend f1 chart = ok q1 ->
  plan_product_sales_trend f2 chart = ok q2 -> sql q1 = sql q2.
Proof using Hf.
  unfold plan_product_sales_trend. truthy_gets. other_gets.
  destruct (is_int (dict_get f1 "product_id")); cbn [bind ok];
    [|destruct (nonblank_str (dict_get f1 "product_name")); cbn [bind ok raise];
      [|discriminate]];
    intros [= <-] [= <-]; same_template; now apply shape_start.
Qed.

Lemma template_sales_by_category (chart : value) :
  sql (plan_sales_by_category f1 chart) = sql (plan_sales_by_category f2 chart).
Proof using Hf.
  unfold plan_sales_by_category. same_template. now apply shape_start.
Qed.

Lemma template_top_bottom_performers (dim0 chart : value) :
  sql (plan_top_bottom_performers f1 dim0 chart)
  = sql (plan_top_bottom_performers f2 dim0 chart).
Proof using Hf.
  unfold plan_top_bottom_performers. other_gets. same_template.
  now apply shape_start.
Qed.

Lemma template_sales_breakdown_for_year (dim0 chart : value)
  (q1 q2 : PlannedQuery) :
  plan_sales_breakdown_for_year f1 dim0 chart = ok q1 ->
  plan_sales_breakdown_for_year f2 dim0 chart = ok q2 -> sql q1 = sql q2.
Proof using Hf.
  unfold plan_sales_breakdown_for_year. other_gets.
  destruct (negb _); [discriminate|]. now intros [= <-] [= <-].
Qed.

Lemma template_sales_growth_analysis (chart : value) :
  sql (plan_sales_growth_analysis f1 chart)
  = sql (plan_sales_growth_analysis f2 chart).
Proof using Hf.
  unfold plan_sales_growth_analysis. same_template.
  apply shape_start. truthy_gets. reflexivity.
Qed.

Lemma template_multi_year_comparison (chart : value) :
  sql (plan_multi_year_comparison f1 chart)
  = sql (plan_multi_year_comparison f2 chart).
Proof using Hf.
  unfold plan_multi_year_comparison. truthy_gets. other_gets.
  destruct (truthy (dict_get f1 "average")); reflexivity.
Qed.

Lemma template_revenue_by_category (chart : value) :
  sql (plan_revenue_by_category f1 chart)
  = sql (plan_revenue_by_category f2 chart).
Proof using Hf. unfold plan_revenue_by_category. other_gets. reflexivity. Qed.

Lemma template_top_products (chart : value) :
  sql (plan_top_products f1 chart) = sql (plan_top_products f2 chart).
Proof using Hf. unfold plan_top_products. other_gets. reflexivity. Qed.

Lemma template_plan_branch (intent_name : string) (dim0 chart : value)
  (q1 q2 : PlannedQuery) :
  plan_branch py_repr intent_name f1 dim0 chart = ok q1 ->
  plan_branch py_repr intent_name f2 dim0 chart = ok q2 ->
  sql q1 = sql q2.
Proof using Hf.
  unfold plan_branch.
  repeat match goal with
         | |- context [if ?c then _ else _] => destruct c
         end;
    try (intros [= <-] [= <-]);
    auto using template_sales_trend, template_sales_comparison_by_year,
      template_total_sales_for_period, template_sales_by_product,
      template_sales_by_category, template_top_bottom_performers,
      template_sales_growth_analysis, template_multi_year_comparison,
      template_revenue_by_category, template_top_products;
    try discriminate;
    eauto using template_product_sales_trend,
      template_sales_breakdown_for_year.
Qed.

End Templates.

Lemma filters_variant_refl (good : string -> Prop) (f : dict) :
  filters_variant good f f.
Proof.
  induction f as [|[k v] f IH]; constructor; [|exact IH].
  split; [reflexivity|]. unfold field_variant. cbn [fst snd].
  destruct (_ || _); [constructor|].
  destruct (String.eqb k "categories"); [now left | reflexivity].
Qed.

Lemma payload_get (good : string -> Prop) (p1 p2 : dict) (k : string) :
  payload_variant good p1 p2 ->
  entry_variant good k (dict_get p1 k) (dict_get p2 k).
Proof.
  induction 1 as [|[k1 v1] [k2 v2] l1 l2 [Hk Hv] _ IH];
    cbn [dict_get fst snd] in *.
  - unfold entry_variant. destruct (String.eqb k "filters"); [now left | reflexivity].
  - subst k2. destruct (String.eqb_spec k k1) as [->|_]; assumption.
Qed.

Lemma payload_get_other (good : string -> Prop) (p1 p2 : dict) (k : string) :
  payload_variant good p1 p2 -> String.eqb k "filters" = false ->
  dict_get p2 k = dict_get p1 k.
Proof.
  intros Hp Hk. pose proof (payload_get good p1 p2 k Hp) as H.
  unfold entry_variant in H. rewrite Hk in H. now symmetry.
Qed.

Lemma payload_filters (good : string -> Prop) (p1 p2 : dict) :
  payload_variant good p1 p2 ->
  filters_variant good (filters_of p1) (filters_of p2).
Proof.
  intros Hp. pose proof (payload_get good p1 p2 "filters" Hp) as H.
  unfold filters_of. cbv [entry_variant String.eqb Ascii.eqb Bool.eqb] in H.
  destruct H as [<-|(f1 & f2 & -> & -> & H)]; [apply filters_variant_refl|].
  destruct H; cbn; [constructor | now constructor].
Qed.




(** ** Stripping *)

Lemma lstrip_by_head (p : ascii -> bool) (s : string) (c : ascii) (t : string) :
  Py.lstrip_by p s = String c t -> p c = false.
Proof.
  induction s as [|d s IH]; simpl; [discriminate|].
  destruct (p d) eqn:Hd; [exact IH|]. now intros [= <- _].
Qed.

Lemma rstrip_by_cons (p : ascii -> bool) (c : ascii) (t : string) :
  p c = false -> Py.rstrip_by p (String c t) = String c (Py.rstrip_by p t).
Proof. intros H. simpl. now rewrite H, andb_false_r. Qed.

Lemma rstrip_by_idem (p : ascii -> bool) (s : string) :
  Py.rstrip_by p (Py.rstrip_by p s) = Py.rstrip_by p s.
Proof.
  induction s as [|c s IH]; [reflexivity|]. cbn [Py.rstrip_by].
  destruct (String.eqb (Py.rstrip_by p s) "" && p c) eqn:H; [reflexivity|].
  cbn [Py.rstrip_by]. now rewrite IH, H.
Qed.

Lemma strip_by_head (p : ascii -> bool) (c : ascii) (s : string) :
  p c = false ->
  Py.strip_by p (String c s) = String c (Py.rstrip_by p s).
Proof.
  intros H. unfold Py.strip_by. cbn [Py.lstrip_by]. rewrite H.
  now apply rstrip_by_cons.
Qed.

Lemma strip_by_idem (p : ascii -> bool) (s : string) :
  Py.strip_by p (Py.strip_by p s) = Py.strip_by p s.
Proof.
  unfold Py.strip_by.
  destruct (Py.lstrip_by p s) as [|c t] eqn:Hl; [reflexivity|].
  pose proof (lstrip_by_head _ _ _ _ Hl) as Hc.
  rewrite (rstrip_by_cons _ _ _ Hc). cbn [Py.lstrip_by]. rewrite Hc.
  rewrite (rstrip_by_cons _ _ _ Hc). now rewrite rstrip_by_idem.
Qed.

Lemma mem_char_lstrip (p : ascii -> bool) (c : ascii) (s : string) :
  Py.mem_char c (Py.lstrip_by p s) = true -> Py.mem_char c s = true.
Proof.
  induction s as [|d s IH]; simpl; [discriminate|].
  destruct (p d); [|exact (fun H => H)].
  intros H. rewrite (IH H). apply orb_true_r.
Qed.

Lemma mem_char_rstrip (p : ascii -> bool) (c : ascii) (s : string) :
  Py.mem_char c (Py.rstrip_by p s) = true -> Py.mem_char c s = true.
Proof.
  induction s as [|d s IH]; cbn [Py.rstrip_by Py.mem_char]; [discriminate|].
  destruct (_ && _); [discriminate|]. cbn [Py.mem_char].
  destruct (Ascii.eqb c d); [reflexivity|]. exact IH.
Qed.

Lemma mem_char_strip (p : ascii -> bool) (c : ascii) (s : string) :
  Py.mem_char c (Py.strip_by p s) = true -> Py.mem_char c s = true.
Proof.
  unfold Py.strip_by. intros H.
  apply mem_char_rstrip in H. now apply mem_char_lstrip in H.
Qed.

Lemma mem_char_app (c : ascii) (s t : string) :
  Py.mem_char c (s ++ t) = Py.mem_char c s || Py.mem_char c t.
Proof.
  induction s as [|d s IH]; simpl; [reflexivity|].
  now rewrite IH, orb_assoc.
Qed.

(** ** The origins of the settings *)

Lemma split_on_acc_pieces (sep : ascii) (s acc : string) :
  Py.mem_char sep acc = false ->
  Forall (fun piece => Py.mem_char sep piece = false) (split_on_acc sep acc s).
Proof.
  revert acc. induction s as [|c s IH]; intros acc Hacc; cbn [split_on_acc].
  - now constructor.
  - destruct (Ascii.eqb_spec c sep) as [->|Hne].
    + constructor; [assumption | now apply IH].
    + apply IH. rewrite mem_char_app, Hacc. cbn.
      destruct (Ascii.eqb_spec sep c); [now subst | reflexivity].
Qed.

(** X1: every origin that [cors_origin_list] returns is not empty, has no
    white space around it and holds no comma. *)
Theorem cors_origins_clean (cors_origins : string) :
  Forall (fun o => o <> "" /\ Py.strip o = o /\ Py.mem_char "," o = false)
    (cors_origin_list cors_origins).
Proof.
  unfold cors_origin_list. apply Forall_forall. intros o Ho.
  apply in_map_iff in Ho. destruct Ho as (piece & <- & Hp).
  apply filter_In in Hp. destruct Hp as [Hin Hnb].
  split; [|split].
  - intros H. now rewrite H in Hnb.
  - apply strip_by_idem.
  - pose proof (split_on_acc_pieces "," cors_origins "" eq_refl) as Hall.
    rewrite Forall_forall in Hall. specialize (Hall _ Hin).
    destruct (Py.mem_char "," (Py.strip piece)) eqn:Hm; [|reflexivity].
    apply mem_char_strip in Hm. congruence.
Qed.

Example cors_origin_list_samples :
  cors_origin_list "http://localhost:5173" = ["http://localhost:5173"] /\
  cors_origin_list " http://a.test , ,http://b.test," = ["http://a.test"; "http://b.test"] /\
  cors_origin_list "" = [].
Proof. repeat split. Qed.

(** ** Master data *)

(** X2: [list_sales] saturates its window instead of rejecting it: the
    bound [limit] is the given one brought into 1..1000 and the bound
    [offset] is never negative; the statement has exactly these two
    parameters. *)
Theorem list_sales_window (limit offset : Z) :
  exists l o,
    snd (Admin.list_sales_statement limit offset)
    = [("limit", VInt l); ("offset", VInt o)] /\
    1 <= l <= 1000 /\ 0 <= o /\
    (1 <= limit <= 1000 -> l = limit) /\ (limit < 1 -> l = 1) /\
    (1000 < limit -> l = 1000) /\
    (0 <= offset -> o = offset) /\ (offset < 0 -> o = 0) /\
    same_names (dict_keys (snd (Admin.list_sales_statement limit offset)))
      (placeholders (fst (Admin.list_sales_statement limit offset))).
Proof.
  exists (Z.max 1 (Z.min limit 1000)), (Z.max 0 offset).
  split; [reflexivity|]. repeat (split; [lia|]).
  apply same_namesb_sound. vm_compute. reflexivity.
Qed.

Lemma update_names (statement : string) (params : dict) :
  same_namesb (dict_keys params) (placeholders statement) = true ->
  same_names (dict_keys params) (placeholders statement).
Proof. apply same_namesb_sound. Qed.

(** X3: [update_product] answers 400 [validation], whatever the database
    does, exactly when the payload gives no field; otherwise the statement
    it sends has as placeholders exactly the keys of its parameters, which
    are the fields given and [id]. *)
Theorem update_product_fields (execute : string -> dict -> Admin.db_answer)
  (product_id : Z) (payload : Admin.ProductUpdate) :
  (Admin.update_product execute product_id payload = Admin.Http 400 "validation"
   <-> Admin.pu_name payload = None /\ Admin.pu_category payload = None) /\
  match Admin.update_product_statement product_id payload with
  | None => Admin.pu_name payload = None /\ Admin.pu_category payload = None
  | Some (statement, params) =>
      same_names (dict_keys params) (placeholders statement) /\
      dict_get params "id" = VInt product_id /\
      dict_get params "name" = match Admin.pu_name payload with
                               | Some n => VStr n
                               | None => VNone
                               end /\
      dict_get params "category" = match Admin.pu_category payload with
                                   | Some c => VStr c
                                   | None => VNone
                                   end
  end.
Proof.
  unfold Admin.update_product.
  destruct payload as [[n|] [c|]];
    match goal with
    | |- context [Admin.update_product_statement ?i ?p] =>
        let v := eval vm_compute in (Admin.update_product_statement i p) in
        change (Admin.update_product_statement i p) with v
    end; cbv beta iota; cbn [Admin.pu_name Admin.pu_category];
    try (split; [split; [intros _; split; reflexivity | reflexivity]
                | split; reflexivity]);
    (split;
     [ split; [|intros [H1 H2]; discriminate];
       match goal with
       | |- context [execute ?s ?p] => destruct (execute s p) as [k| |[|kv r]]
       end; discriminate
     | split; [apply update_names; vm_compute; reflexivity|];
       repeat split ]).
Qed.

Lemma row_get_set_same (r : row) (k : string) (v : cell) :
  row_get (Admin.row_set r k v) k = v.
Proof.
  induction r as [|[k' v'] r IH]; cbn.
  - now rewrite String.eqb_refl.
  - destruct (String.eqb k k') eqn:Hk; cbn; now rewrite Hk.
Qed.

Lemma row_get_set_other (r : row) (k k' : string) (v : cell) :
  String.eqb k' k = false ->
  row_get (Admin.row_set r k v) k' = row_get r k'.
Proof.
  intros Hne. induction r as [|[k0 v0] r IH]; cbn.
  - now rewrite Hne.
  - destruct (String.eqb_spec k k0) as [->|_]; cbn.
    + now rewrite Hne.
    + now rewrite IH.
Qed.

Lemma sale_of_revenue (float_of_decimal : decimal -> spec_float)
  (float_of_text : string -> option spec_float) (r : row) (prod : option row)
  (d : row) :
  Admin.sale_of float_of_decimal float_of_text r prod = Admin.Done d ->
  exists x, row_get d "revenue" = CFloat x.
Proof.
  unfold Admin.sale_of.
  destruct (Admin._to_float _ _ _) as [e|x]; [discriminate|].
  destruct prod as [[|kv p]|]; intros [= <-]; exists x;
    rewrite ?row_get_set_other by reflexivity; apply row_get_set_same.
Qed.

Lemma update_sale_validation (float_of_decimal : decimal -> spec_float)
  (float_of_text : string -> option spec_float)
  (execute : string -> dict -> Admin.db_answer)
  (find_product : cell -> Admin.db_answer)
  (sale_id : Z) (payload : Admin.SaleUpdate) :
  Admin.update_sale float_of_decimal float_of_text execute find_product
    sale_id payload = Admin.Http 400 "validation" <->
  Admin.update_sale_statement sale_id payload = None.
Proof.
  unfold Admin.update_sale.
  destruct (Admin.update_sale_statement sale_id payload) as [[s q]|];
    [|split; reflexivity].
  split; [|discriminate].
  destruct (execute s q) as [[|]| |[|kv r]]; try discriminate.
  destruct (negb _); try discriminate.
  destruct (find_product _) as [[|]| |p]; try discriminate;
    unfold Admin.sale_of; destruct (Admin._to_float _ _ _);
    try discriminate; try (destruct p); discriminate.
Qed.

Lemma update_sale_done (float_of_decimal : decimal -> spec_float)
  (float_of_text : string -> option spec_float)
  (execute : string -> dict -> Admin.db_answer)
  (find_product : cell -> Admin.db_answer)
  (sale_id : Z) (payload : Admin.SaleUpdate) (d : row) :
  Admin.update_sale float_of_decimal float_of_text execute find_product
    sale_id payload = Admin.Done d ->
  exists x, row_get d "revenue" = CFloat x.
Proof.
  unfold Admin.update_sale.
  destruct (Admin.update_sale_statement sale_id payload) as [[s q]|];
    [|discriminate].
  destruct (execute s q) as [[|]| |[|kv r]]; try discriminate.
  destruct (negb _); try discriminate.
  destruct (find_product _) as [[|]| |p]; try discriminate;
    apply sale_of_revenue.
Qed.

(** X4: [update_sale] answers 400 [validation] exactly when the payload
    gives no field; otherwise the placeholders of its statement are exactly
    the keys of its parameters, the fields given and [id]; and a sale it
    returns always carries its revenue as a float. *)
Theorem update_sale_fields (float_of_decimal : decimal -> spec_float)
  (float_of_text : string -> option spec_float)
  (execute : string -> dict -> Admin.db_answer)
  (find_product : cell -> Admin.db_answer)
  (sale_id : Z) (payload : Admin.SaleUpdate) :
  let answer := Admin.update_sale float_of_decimal float_of_text execute
                  find_product sale_id payload in
  let no_field := Admin.su_product_id payload = None /\
                  Admin.su_year payload = None /\
                  Admin.su_revenue payload = None in
  (answer = Admin.Http 400 "validation" <-> no_field) /\
  (forall d, answer = Admin.Done d -> exists x, row_get d "revenue" = CFloat x) /\
  match Admin.update_sale_statement sale_id payload with
  | None => no_field
  | Some (statement, params) =>
      same_names (dict_keys params) (placeholders statement) /\
      dict_get params "id" = VInt sale_id /\
      dict_get params "product_id"
      = match Admin.su_product_id payload with Some n => VInt n | None => VNone end /\
      dict_get params "year"
      = match Admin.su_year payload with Some n => VInt n | None => VNone end /\
      dict_get params "revenue"
      = match Admin.su_revenue payload with Some x => VFloat x | None => VNone end
  end.
Proof.
  intros answer no_field. subst answer no_field.
  rewrite update_sale_validation.
  split; [|split; [apply update_sale_done|]];
    destruct payload as [[p|] [y|] [x|]];
    match goal with
    | |- context [Admin.update_sale_statement ?i ?p] =>
        let v := eval vm_compute in (Admin.update_sale_statement i p) in
        change (Admin.update_sale_statement i p) with v
    end; cbv beta iota;
    cbn [Admin.su_product_id Admin.su_year Admin.su_revenue];
    first
      [ split; [discriminate | intros (H1 & H2 & H3); discriminate]
      | split; [intros _; repeat split | reflexivity]
      | split; [apply update_names; vm_compute; reflexivity | repeat split]
      | repeat split ].
Qed.

(** X5: [list_sales] builds one item per row, in order: the item that
    [Sale] makes of the row with its revenue replaced by the float
    conversion and its other columns unchanged. The loop raises exactly
    when, for some row, the conversion of the revenue raises or [Sale]
    rejects the converted row. *)
Theorem list_sales_items (float_of_decimal : decimal -> spec_float)
  (float_of_text : string -> option spec_float)
  (sale_model : row -> option row) (rows : list row) :
  match Admin.sale_items float_of_decimal float_of_text sale_model rows with
  | inr items =>
      Forall2 (fun r item =>
                 exists x d,
                   Admin._to_float float_of_decimal float_of_text
                     (row_get r "revenue") = inr x /\
                   row_get d "revenue" = CFloat x /\
                   (forall k, String.eqb k "revenue" = false ->
                              row_get d k = row_get r k) /\
                   sale_model d = Some item) rows items
  | inl (Admin.Conversion e) =>
      exists r, In r rows /\
                Admin._to_float float_of_decimal float_of_text
                  (row_get r "revenue") = inl e
  | inl Admin.Validation =>
      exists r x, In r rows /\
                  Admin._to_float float_of_decimal float_of_text
                    (row_get r "revenue") = inr x /\
                  sale_model (Admin.row_set r "revenue" (CFloat x)) = None
  end.
Proof.
  induction rows as [|r rows IH]; cbn [Admin.sale_items]; [constructor|].
  destruct (Admin._to_float _ _ (row_get r "revenue")) as [e|x] eqn:Hx.
  - exists r. split; [now left | exact Hx].
  - destruct (sale_model (Admin.row_set r "revenue" (CFloat x)))
      as [item|] eqn:Hitem.
    + destruct (Admin.sale_items _ _ _ rows) as [[e|]|items].
      * destruct IH as (r' & Hin & Hr'). exists r'.
        split; [now right | exact Hr'].
      * destruct IH as (r' & x' & Hin & Hr' & Hv). exists r', x'.
        split; [now right | split; assumption].
      * constructor; [|exact IH].
        exists x, (Admin.row_set r "revenue" (CFloat x)).
        split; [exact Hx|]. split; [apply row_get_set_same|].
        split; [|exact Hitem].
        intros k Hk. now apply row_get_set_other.
    + exists r, x. split; [now left | split; assumption].
Qed.

(** X6: the two [_to_float] agree wherever the one of [admin_routes.py]
    returns; where it raises, the one of [routes.py] raises as well for an
    integer too large and for a signaling NaN, and returns 0.0 for every
    other value [float()] rejects. *)
Theorem to_float_admin_and_routes (float_of_decimal : decimal -> spec_float)
  (float_of_text : string -> option spec_float) (v : cell) :
  match Admin._to_float float_of_decimal float_of_text v with
  | inr x => _to_float float_of_decimal float_of_text v = ok x
  | inl Admin.Overflow =>
      _to_float float_of_decimal float_of_text v = raise OverflowError /\
      exists n, v = CInt n
  | inl Admin.Value_error =>
      (v = CDecimal (Dec_nan true) /\
       _to_float float_of_decimal float_of_text v = raise ValueError) \/
      ((exists s, v = CStr s) /\
       _to_float float_of_decimal float_of_text v = ok float_zero)
  | inl Admin.Other_error =>
      _to_float float_of_decimal float_of_text v = ok float_zero
  end.
Proof.
  destruct v as [|x|[|]|n|[neg c ex|neg|[|]]|s|[x|]];
    cbn [Admin._to_float _to_float]; try reflexivity.
  - unfold float_of_int.
    destruct (binary_normalize 53 1024 n 0 false); cbn;
      try reflexivity; split; eauto.
  - left. now split.
  - destruct (float_of_text s); [reflexivity|]. right. split; eauto.
Qed.

(** ** Two years of a text *)

Lemma find_filter_head {A : Type} (f : A -> bool) (l : list A) (a : A)
  (rest : list A) :
  filter f l = a :: rest -> find f l = Some a.
Proof.
  induction l as [|x l IH]; cbn; [discriminate|].
  destruct (f x); [now intros [= -> _] | exact IH].
Qed.

Lemma sorted_filter (f : Z -> bool) (l : list Z) :
  StronglySorted Z.lt l -> StronglySorted Z.lt (filter f l).
Proof.
  induction 1 as [|x l Hl IH Hx]; cbn; [constructor|].
  destruct (f x); [|exact IH]. constructor; [exact IH|].
  eapply incl_Forall; [apply incl_filter | exact Hx].
Qed.

Lemma year_range_sorted : StronglySorted Z.lt year_range.
Proof.
  rewrite year_range_eq.
  repeat (constructor; [|repeat (constructor; [lia|]); constructor]).
  constructor.
Qed.

Lemma mem_int_below (x : Z) (seen : list value) :
  Forall (fun s => int_val s < x) seen -> mem_int x seen = false.
Proof.
  induction 1 as [|s seen Hs _ IH]; cbn; [reflexivity|].
  rewrite IH, orb_false_r. apply Z.eqb_neq. lia.
Qed.

Lemma set_of_ints_sorted (l : list Z) :
  StronglySorted Z.lt l ->
  forall seen,
    Forall (fun s => Forall (fun x => int_val s < x) l) seen ->
    set_of_ints seen (map VInt l) = (rev seen ++ map VInt l)%list.
Proof.
  induction 1 as [|x l Hl IH Hx]; intros seen Hseen; cbn [map set_of_ints].
  - now rewrite app_nil_r.
  - cbn [int_val]. rewrite mem_int_below.
    + rewrite IH; [cbn [rev]; now rewrite <- app_assoc|].
      constructor.
      * cbn [int_val]. exact Hx.
      * eapply Forall_impl; [|exact Hseen]. cbn. intros s Hs.
        now inversion Hs.
    + eapply Forall_impl; [|exact Hseen]. cbn. intros s Hs.
      now inversion Hs.
Qed.

Lemma insert_sorted_last (x : value) (acc : list value) :
  Forall (fun y => int_val y < int_val x) acc ->
  insert_sorted x acc = (acc ++ [x])%list.
Proof.
  induction 1 as [|y acc Hy _ IH]; cbn; [reflexivity|].
  destruct (Z.ltb_spec (int_val x) (int_val y)); [lia|]. now rewrite IH.
Qed.

Lemma fold_insert_sorted (l : list Z) :
  StronglySorted Z.lt l ->
  forall acc,
    Forall (fun y => Forall (fun x => int_val y < x) l) acc ->
    fold_left (fun acc x => insert_sorted x acc) (map VInt l) acc
    = (acc ++ map VInt l)%list.
Proof.
  induction 1 as [|x l Hl IH Hx]; intros acc Hacc; cbn [map fold_left].
  - now rewrite app_nil_r.
  - rewrite insert_sorted_last.
    + rewrite IH; [now rewrite <- app_assoc|].
      apply Forall_app. split.
      * eapply Forall_impl; [|exact Hacc]. cbn. intros s Hs. now inversion Hs.
      * constructor; [exact Hx | constructor].
    + eapply Forall_impl; [|exact Hacc]. cbn. intros s Hs. now inversion Hs.
Qed.

Lemma sorted_set_sorted (l : list Z) :
  StronglySorted Z.lt l -> sorted_set (map VInt l) = map VInt l.
Proof.
  intros Hl. unfold sorted_set.
  rewrite (set_of_ints_sorted l Hl []) by constructor. cbn [rev app].
  now rewrite (fold_insert_sorted l Hl []) by constructor.
Qed.

(** X7: [_extract_two_years] returns the two numerically smallest distinct
    years of 2015..2030 that occur in the text, in ascending order, the
    first being the year [_extract_year] returns; it returns [None] when
    fewer than two of these years occur. *)
Theorem extract_two_years_smallest (text : string) :
  match _extract_two_years text with
  | Some years =>
      exists a b,
        years = [VInt a; VInt b] /\ _extract_year text = Some a /\
        a < b <= 2030 /\ occurs (Py.str_of_Z b) text /\
        forall y, a < y < b -> ~ occurs (Py.str_of_Z y) text
  | None =>
      forall a b, 2015 <= a -> a < b -> b <= 2030 ->
                  occurs (Py.str_of_Z a) text -> ~ occurs (Py.str_of_Z b) text
  end.
Proof.
  unfold _extract_two_years, _extract_year.
  set (f := fun year => Py.contains (Py.str_of_Z year) text).
  pose proof (sorted_filter f _ year_range_sorted) as Hsorted.
  rewrite (sorted_set_sorted _ Hsorted).
  assert (Hin : forall y, In y (filter f year_range) <->
                          2015 <= y <= 2030 /\ occurs (Py.str_of_Z y) text).
  { intros y. rewrite filter_In, year_range_bounds. subst f. cbn.
    now rewrite contains_occurs. }
  pose proof (find_filter_head f year_range) as Hfind.
  destruct (filter f year_range) as [|a [|b rest]] eqn:Hfound;
    cbn [List.length Nat.leb firstn map].
  - intros a b Ha Hab Hb Hoa _. apply (proj2 (Hin a)). split; [lia | exact Hoa].
  - intros x y Hx Hxy Hy Hox Hoy.
    assert (Hxa : In x [a]) by (apply Hin; split; [lia | exact Hox]).
    assert (Hya : In y [a]) by (apply Hin; split; [lia | exact Hoy]).
    cbn in Hxa, Hya. lia.
  - exists a, b. split; [reflexivity|].
    split; [exact (Hfind _ _ eq_refl)|].
    apply StronglySorted_inv in Hsorted. destruct Hsorted as [Hs Ha].
    apply StronglySorted_inv in Hs. destruct Hs as [_ Hb].
    pose proof (proj1 (Hin a) (or_introl eq_refl)) as [Hra _].
    pose proof (proj1 (Hin b) (or_intror (or_introl eq_refl))) as [Hrb Hob].
    inversion Ha as [|? ? Hab _]; subst.
    split; [lia|]. split; [exact Hob|].
    intros y Hy Hoy.
    assert (Hyin : In y (a :: b :: rest)) by (apply Hin; split; [lia | exact Hoy]).
    destruct Hyin as [<-|[<-|Hyr]]; try lia.
    rewrite Forall_forall in Hb. specialize (Hb _ Hyr). lia.
Qed.

(** ** What a search finds is in the text *)

Lemma occurs_refl (s : string) : occurs s s.
Proof.
  exists "", "". cbn. induction s as [|c s IH]; cbn; [reflexivity|].
  now rewrite <- IH.
Qed.

Lemma append_assoc (a b c : string) : (a ++ b) ++ c = a ++ b ++ c.
Proof. induction a as [|x a IH]; cbn; [reflexivity | now rewrite IH]. Qed.

Lemma append_empty (a : string) : a ++ "" = a.
Proof. induction a as [|x a IH]; cbn; [reflexivity | now rewrite IH]. Qed.

Lemma occurs_app_l (x a b : string) : occurs x a -> occurs x (a ++ b).
Proof.
  intros (pre & post & ->). exists pre, (post ++ b).
  now rewrite !append_assoc.
Qed.

Lemma occurs_app_r (x a b : string) : occurs x b -> occurs x (a ++ b).
Proof.
  intros (pre & post & ->). exists (a ++ pre), post.
  now rewrite !append_assoc.
Qed.

Lemma search_from_occurs (r : re) (s : string) :
  forall prev g,
    search_from r prev s = Some g ->
    exists w, matches r w [] g /\ occurs w s.
Proof.
  induction s as [|c s IH]; intros prev g H; cbn [search_from] in H.
  - destruct (exec r prev "" [] _) eqn:He; [|discriminate].
    injection H as ->.
    destruct (exec_sound _ _ _ _ _ _ He) as (w & s' & _ & g' & Hs & Hm & [= ->]).
    exists w. split; [exact Hm|]. rewrite Hs. apply occurs_app_l, occurs_refl.
  - destruct (exec r prev (String c s) [] _) eqn:He.
    + injection H as ->.
      destruct (exec_sound _ _ _ _ _ _ He) as (w & s' & _ & g' & Hs & Hm & [= ->]).
      exists w. split; [exact Hm|]. rewrite Hs. apply occurs_app_l, occurs_refl.
    + destruct (IH _ _ H) as (w & Hm & Ho). exists w. split; [exact Hm|].
      now apply (occurs_app_r w (String c "") s).
Qed.

Lemma search_occurs (r : re) (s : string) (g : groups) :
  search r s = Some g -> exists w, matches r w [] g /\ occurs w s.
Proof. apply search_from_occurs. Qed.

Lemma digit_cases (c : ascii) :
  Py.is_digit c = true ->
  In c ["0"; "1"; "2"; "3"; "4"; "5"; "6"; "7"; "8"; "9"]%char.
Proof.
  destruct c as [[|] [|] [|] [|] [|] [|] [|] [|]]; vm_compute;
    intros H; try discriminate H; tauto.
Qed.

Lemma year_digits_text (c d : ascii) :
  Py.is_digit c = true -> Py.is_digit d = true ->
  exists n, Py.int_of_str (String "2" (String "0" (String c (String d ""))))
            = Some n /\ 2000 <= n <= 2099 /\
            Py.str_of_Z n = String "2" (String "0" (String c (String d ""))).
Proof.
  intros Hc Hd. apply digit_cases in Hc, Hd. cbv [In] in Hc, Hd.
  repeat (destruct Hc as [<-|Hc]; [|]); try contradiction;
    repeat (destruct Hd as [<-|Hd]; [|]); try contradiction;
    eexists; (split; [vm_compute; reflexivity|]);
    (split; [lia | vm_compute; reflexivity]).
Qed.

(** The number [(20\d{2})] reads, written again, is what it read. *)
Lemma year4_number (w : string) (g g' : groups) :
  matches year4 w g g' ->
  g' = g /\ exists n, Py.int_of_str w = Some n /\ 2000 <= n <= 2099 /\
                      Py.str_of_Z n = w.
Proof.
  unfold year4, chr, digit. intros H. invert_matches.
  repeat match goal with
         | H : Ascii.eqb _ _ = true |- _ => apply Ascii.eqb_eq in H; subst
         end.
  split; [reflexivity|]. cbn [append]. now apply year_digits_text.
Qed.

Lemma occurs_trans (a b c : string) : occurs a b -> occurs b c -> occurs a c.
Proof.
  intros (p1 & q1 & ->) (p2 & q2 & ->). exists (p2 ++ p1), (q1 ++ q2).
  now rewrite !append_assoc.
Qed.

Ltac find_piece :=
  first [ apply occurs_refl
        | apply occurs_app_l; find_piece
        | apply occurs_app_r; find_piece ].

Ltac open_search H :=
  let Ho := fresh "Ho" in
  apply search_occurs in H; destruct H as (? & H & Ho);
  cbv [re_range_dash re_range_to re_range_between re_from re_to re_top_n] in H;
  cbn [seqs lit] in H; unfold star, plus, chr in H;
  invert_matches;
  repeat match goal with
         | Hy : matches year4 _ _ _ |- _ =>
             apply year4_number in Hy; destruct Hy as (-> & ? & ? & ? & ?)
         end.

Ltac years_found :=
  unfold year_pair, int_group; cbn [group Nat.eqb];
  repeat match goal with
         | Hy : Py.int_of_str _ = Some _ |- _ => rewrite Hy
         end;
  cbn [bind ok]; do 2 eexists; (split; [reflexivity|]);
  intros y [Hy|Hy]; try discriminate Hy; injection Hy as <-;
  (split; [lia | intros _]);
  try match goal with
      | Hs : Py.str_of_Z ?n = _ |- occurs (Py.str_of_Z ?n) _ => rewrite Hs
      end;
  match goal with
  | Ho : occurs ?w ?t |- occurs _ ?t =>
      apply (occurs_trans _ w); [find_piece | exact Ho]
  end.

(** X8: [_extract_year_range] returns on every text, and every year it
    returns is a number of 2000..2099 (not only of 2015..2030); in an
    ASCII text that year is written, in decimal digits. *)
Theorem extract_year_range_years (text : string) :
  exists year_from year_to,
    _extract_year_range text = ok (year_from, year_to) /\
    forall y, year_from = Some y \/ year_to = Some y ->
              2000 <= y <= 2099 /\
              (is_ascii text -> occurs (Py.str_of_Z y) text).
Proof.
  unfold _extract_year_range.
  destruct (search re_range_dash text) as [g|] eqn:H1.
  { open_search H1. years_found. }
  destruct (search re_range_to text) as [g|] eqn:H2.
  { open_search H2; years_found. }
  destruct (search re_range_between text) as [g|] eqn:H3.
  { open_search H3. years_found. }
  destruct (search re_from text) as [g|] eqn:H4;
    destruct (search re_to text) as [g'|] eqn:H5;
    try open_search H4; try open_search H5; years_found.
Qed.

(** ** The category of a question *)

Lemma all_chars_lstrip (q p : ascii -> bool) (s : string) :
  all_chars q s = true -> all_chars q (Py.lstrip_by p s) = true.
Proof.
  induction s as [|c s IH]; cbn [Py.lstrip_by all_chars]; [reflexivity|].
  intros H. apply andb_prop in H. destruct H as [Hc Hs].
  destruct (p c); [now apply IH | cbn [all_chars]; now rewrite Hc, Hs].
Qed.

Lemma all_chars_rstrip (q p : ascii -> bool) (s : string) :
  all_chars q s = true -> all_chars q (Py.rstrip_by p s) = true.
Proof.
  induction s as [|c s IH]; cbn [Py.rstrip_by all_chars]; [reflexivity|].
  intros H. apply andb_prop in H. destruct H as [Hc Hs].
  destruct (_ && _); [reflexivity|]. cbn [all_chars]. now rewrite Hc, IH.
Qed.

Lemma all_chars_strip (q p : ascii -> bool) (s : string) :
  all_chars q s = true -> all_chars q (Py.strip_by p s) = true.
Proof. intros H. now apply all_chars_rstrip, all_chars_lstrip. Qed.

Lemma strip_by_first (p : ascii -> bool) (s : string) (c : ascii) (t : string) :
  Py.strip_by p s = String c t -> p c = false.
Proof.
  unfold Py.strip_by.
  destruct (Py.lstrip_by p s) as [|d u] eqn:Hl; [discriminate|].
  pose proof (lstrip_by_head _ _ _ _ Hl) as Hd.
  rewrite (rstrip_by_cons _ _ _ Hd). now intros [= <- _].
Qed.

Lemma category_char_space (c : ascii) :
  category_char c = true -> Py.mem_char c " .,:;()[]{}" = false ->
  Py.is_space (Py.upper_char c) = false.
Proof.
  destruct c as [[|] [|] [|] [|] [|] [|] [|] [|]]; vm_compute;
    intros H1 H2; first [reflexivity | discriminate H1 | discriminate H2].
Qed.

Lemma split_acc_first (s acc : string) :
  acc <> "" -> exists w rest, Py.split_acc acc s = (acc ++ w) :: rest.
Proof.
  revert acc. induction s as [|c s IH]; intros acc Hacc; cbn [Py.split_acc].
  - destruct (String.eqb_spec acc ""); [contradiction|].
    exists "", []. now rewrite append_empty.
  - destruct (Py.is_space c).
    + destruct (String.eqb_spec acc ""); [contradiction|].
      exists "", (Py.split_acc "" s). now rewrite append_empty.
    + destruct (IH (acc ++ String c "")) as (w & rest & ->).
      * destruct acc; discriminate.
      * exists (String c w), rest. now rewrite append_assoc.
Qed.

Lemma join_first (sep : string) (c : ascii) (w : string) (rest : list string) :
  exists t, Py.join sep (String c w :: rest) = String c t.
Proof. destruct rest; cbn; eauto. Qed.

Lemma normalize_category_not_blank (raw s : string) :
  all_chars category_char raw = true ->
  _normalize_category (Some raw) = Some s ->
  nonblank_str (VStr s) = true.
Proof.
  intros Hraw. unfold _normalize_category.
  destruct (String.eqb raw ""); [discriminate|].
  set (s2 := Py.strip_chars _ (Py.strip raw)).
  destruct (Py.strip_chars " .,:;()[]{}" s2) as [|c t] eqn:Hs3; [discriminate|].
  cbn [String.eqb]. intros [= <-].
  assert (Hall : all_chars category_char (String c t) = true).
  { rewrite <- Hs3. subst s2. unfold Py.strip_chars, Py.strip.
    now repeat apply all_chars_strip. }
  cbn [all_chars] in Hall. apply andb_prop in Hall. destruct Hall as [Hc _].
  pose proof (strip_by_first _ _ _ _ Hs3) as Hq. cbn beta in Hq.
  pose proof (category_char_space c Hc Hq) as Hup.
  assert (Hsp : Py.is_space c = false).
  { destruct c as [[|] [|] [|] [|] [|] [|] [|] [|]];
      revert Hc Hq; vm_compute; intros H1 H2;
      first [reflexivity | discriminate H1 | discriminate H2]. }
  unfold Py.split. cbn [Py.split_acc]. rewrite Hsp. cbn [append].
  destruct (split_acc_first t (String c "")) as (w & rest & ->); [discriminate|].
  cbn [append map Py.capitalize].
  destruct (join_first " " (Py.upper_char c) (Py.lower w) (map Py.capitalize rest))
    as (u & ->).
  cbn [nonblank_str]. unfold Py.strip. now rewrite strip_by_head.
Qed.

Ltac category_group H :=
  apply search_sound in H; destruct H as [? H];
  cbv [re_in_the_category re_in_category re_category_is] in H;
  cbn [seqs ilit] in H; unfold opt, star, plus, lazy_plus, ichr in H;
  invert_matches; cbn [group Nat.eqb append all_chars];
  repeat match goal with
         | Hc : category_char _ = true |- _ => rewrite Hc; clear Hc
         end;
  cbn [andb]; assumption.

Lemma extract_category_group (text : string) (g : groups) :
  search re_in_the_category text = Some g \/
  search re_in_category text = Some g \/
  search re_category_is text = Some g ->
  all_chars category_char (group g 1) = true.
Proof. intros [H|[H|H]]; category_group H. Qed.

(** X9: a category that [_extract_category] finds in a question is never
    blank: it passes the [strip()] guard of the planner, and the filters of
    the extractor carry it. *)
Theorem extracted_category_not_blank (text c : string) :
  _extract_category text = Some c ->
  nonblank_str (VStr c) = true /\
  base_filters (_extract_category text) = [("category", VStr c)].
Proof.
  intros H. assert (Hnb : nonblank_str (VStr c) = true).
  { revert H. unfold _extract_category.
    destruct (search re_in_the_category (Py.strip text)) as [g|] eqn:H1.
    { apply normalize_category_not_blank.
      apply (extract_category_group (Py.strip text)). now left. }
    destruct (search re_in_category (Py.strip text)) as [g|] eqn:H2.
    { apply normalize_category_not_blank.
      apply (extract_category_group (Py.strip text)). right. now left. }
    destruct (search re_category_is (Py.strip text)) as [g|] eqn:H3;
      [|discriminate].
    apply normalize_category_not_blank.
    apply (extract_category_group (Py.strip text)). right. now right. }
  split; [exact Hnb|]. rewrite H. unfold base_filters.
  destruct (String.eqb_spec c "") as [->|_]; [discriminate Hnb | reflexivity].
Qed.

Lemma extracted_category_not_blank_witness :
  _extract_category "sales only in the toyota category" = Some "Toyota" /\
  nonblank_str (VStr "Toyota") = true.
Proof.
  split; [vm_compute; reflexivity|].
  refine (proj1 (extracted_category_not_blank
                   "sales only in the toyota category" "Toyota" _)).
  vm_compute. reflexivity.
Defined.

(** ** What the extractor hands to the planner *)

Lemma digits_acc_nonneg (s : string) :
  forall acc n, 0 <= acc -> Py.digits_acc acc s = Some n -> 0 <= n.
Proof.
  induction s as [|c s IH]; intros acc n Hacc; cbn [Py.digits_acc].
  - intros [= <-]. exact Hacc.
  - destruct (Py.is_digit c); [|discriminate]. apply IH. lia.
Qed.

Lemma extract_limit_nonneg (text : string) (n : Z) :
  _extract_limit text = Some n -> 0 <= n.
Proof.
  unfold _extract_limit. destruct (search re_top_n text) as [g|]; [|discriminate].
  unfold Py.int_of_str. destruct (group g 1); [discriminate|].
  now apply digits_acc_nonneg.
Qed.

Lemma limit_or_positive (text : string) (dflt : Z) :
  1 <= dflt -> 1 <= limit_or (_extract_limit text) dflt.
Proof.
  intros Hd. unfold limit_or.
  destruct (_extract_limit text) as [n|] eqn:Hn; [|exact Hd].
  apply extract_limit_nonneg in Hn.
  destruct (Z.eqb_spec n 0); lia.
Qed.

Ltac facts_found :=
  do 4 eexists; (split; [reflexivity|]);
  (split; [cbv [stub_shapes In]; tauto|]);
  split; intros Hi; try discriminate Hi;
  unfold base_filters, with_year;
  repeat match goal with
         | |- context [match ?c with Some _ => _ | None => _ end] => destruct c
         | |- context [if ?c then _ else _] => destruct c
         end;
  first [ reflexivity
        | eexists; (split; [reflexivity|]);
          (split; [apply limit_or_positive; lia|]); split; reflexivity ].

Ltac walk_facts :=
  first
    [ facts_found
    | match goal with
      | |- context [if ?c then _ else _] => destruct c
      | |- context [match ?c with Some _ => _ | None => _ end] => destruct c
      end; walk_facts ].

Lemma stub_tail_facts (question q : string) (category : option string) :
  exists intent dim chart filters,
    ok (stub_tail question q category)
    = ok (mk_payload intent dim filters chart) /\
    In (intent, dim, chart) stub_shapes /\ payload_facts intent dim filters.
Proof. unfold stub_tail, payload_facts. walk_facts. Qed.

Lemma stub_range_facts (question q : string) (category : option string)
  (year_from year_to : option Z) :
  exists intent dim chart filters,
    ok (stub_range question q category year_from year_to)
    = ok (mk_payload intent dim filters chart) /\
    In (intent, dim, chart) stub_shapes /\ payload_facts intent dim filters.
Proof. unfold stub_range, payload_facts. walk_facts. Qed.

Lemma stub_parse_facts (question : string) :
  exists intent dim chart filters,
    _stub_parse question = ok (mk_payload intent dim filters chart) /\
    In (intent, dim, chart) stub_shapes /\ payload_facts intent dim filters.
Proof.
  unfold _stub_parse, entity_of.
  destruct (extract_year_range_returns (Py.lower question)) as [[a b] ->].
  cbn [bind].
  generalize (_extract_category question) as category. intros category.
  destruct (Py.any_in (Py.lower question)
              ["by category"; "per category"; "group by category";
               "grouped by category"; "breakdown by category"]);
    [unfold payload_facts; facts_found|].
  match goal with
  | |- context [if ?c then _ else _] => destruct c
  end; [unfold payload_facts; walk_facts|].
  match goal with
  | |- context [if ?c then _ else _] => destruct c
  end; [unfold payload_facts; walk_facts|].
  match goal with
  | |- context [match ?c with Some _ => _ | None => _ end] => destruct c
  end; [unfold payload_facts; walk_facts|].
  destruct a, b;
    first [apply stub_range_facts | apply stub_tail_facts].
Qed.

Lemma filters_of_mk_payload (intent dim : string) (filters : dict)
  (chart : string) :
  filters_of (mk_payload intent dim filters chart) = filters.
Proof. unfold filters_of. cbn. now destruct filters. Qed.

Lemma stub_payload_plans (question : string) (payload : dict) :
  _stub_parse question = ok payload ->
  exists intent dim chart filters,
    payload = mk_payload intent dim filters chart /\
    In (intent, dim, chart) stub_shapes /\
    payload_facts intent dim filters /\
    forall py_repr hash_order_rev,
      plan_intent py_repr hash_order_rev payload
      = plan_branch py_repr intent filters (VStr dim) (VStr chart).
Proof.
  intros Hparse.
  destruct (stub_parse_facts question)
    as (intent & dim & chart & filters & Hq & Hshape & Hfacts).
  rewrite Hq in Hparse. injection Hparse as <-.
  exists intent, dim, chart, filters. repeat split; try assumption.
  - apply Hfacts.
  - apply Hfacts.
  - destruct (shape_plans _ _ _ Hshape) as (spec & _ & _ & _ & Hplan).
    intros py_repr h. apply Hplan.
Qed.

Lemma stub_plan_error (question : string)
  (payload : dict) (py_repr : value -> string) (hash_order_rev : bool)
  (e : exn) :
  _stub_parse question = ok payload ->
  plan_intent py_repr hash_order_rev payload = raise e ->
  e = QueryPlannerError Requires_product /\
  has_intent payload "product_sales_trend" /\
  nonblank_str (dict_get (filters_of payload) "product_name") = false.
Proof.
  intros Hparse Hplan.
  destruct (stub_payload_plans _ _ Hparse)
    as (intent & dim & chart & filters & -> & Hshape & [Hyear _] & Heq).
  rewrite Heq in Hplan. rewrite filters_of_mk_payload. clear Heq Hparse.
  cbv [stub_shapes In] in Hshape.
  repeat (destruct Hshape as [Hshape|Hshape];
          [injection Hshape as <- <- <-|]); try contradiction;
    cbn [plan_branch existsb String.eqb Ascii.eqb Bool.eqb orb] in Hplan;
    try discriminate Hplan.
  - unfold plan_sales_breakdown_for_year in Hplan.
    rewrite (Hyear eq_refl) in Hplan. discriminate Hplan.
  - unfold plan_sales_breakdown_for_year in Hplan.
    rewrite (Hyear eq_refl) in Hplan. discriminate Hplan.
  - unfold plan_product_sales_trend in Hplan.
    destruct (is_int (dict_get filters "product_id")); [discriminate Hplan|].
    destruct (nonblank_str (dict_get filters "product_name"));
      [discriminate Hplan|].
    cbn [bind raise] in Hplan. injection Hplan as <-. repeat split.
Qed.

(** X10: on a payload of the rule-based extractor the planner can fail in
    one way only: the intent is [product_sales_trend] and the quoted product
    name is blank. It never lacks the year of a breakdown and never rejects
    the intent, the metrics or the dimensions. *)
Theorem planner_rejects_only_blank_product (question : string)
  (payload : dict) (py_repr : value -> string) (hash_order_rev : bool)
  (e : exn) :
  _stub_parse question = ok payload ->
  plan_intent py_repr hash_order_rev payload = raise e ->
  e = QueryPlannerError Requires_product /\
  has_intent payload "product_sales_trend" /\
  nonblank_str (dict_get (filters_of payload) "product_name") = false.
Proof. apply stub_plan_error. Qed.

Lemma planner_rejects_only_blank_product_witness :
  let question :=
    "trend 2020-2023 of " ++ String Py.dquote (" " ++ String Py.dquote "") in
  exists payload,
    _stub_parse question = ok payload /\
    plan_intent (fun _ => "") false payload
    = raise (QueryPlannerError Requires_product) /\
    has_intent payload "product_sales_trend".
Proof.
  intros question. eexists. split; [vm_compute; reflexivity|].
  split; [vm_compute; reflexivity|].
  refine (proj1 (proj2 (planner_rejects_only_blank_product question _
                          (fun _ => "") false
                          (QueryPlannerError Requires_product) _ _)));
    vm_compute; reflexivity.
Defined.

(** X11: a [top_bottom_performers] payload of the extractor carries a limit
    of at least 1, an order that is [top] or [bottom] and its dimension as
    entity; the planner accepts it and binds the limit itself when it is at
    most 50 and 5 otherwise. *)
Theorem extractor_limit_reaches_planner (question : string) (payload : dict) :
  _stub_parse question = ok payload ->
  has_intent payload "top_bottom_performers" ->
  exists n,
    dict_get (filters_of payload) "limit" = VInt n /\ 1 <= n /\
    in_lits (dict_get (filters_of payload) "order") ["top"; "bottom"] = true /\
    VList [dict_get (filters_of payload) "entity"]
    = dict_get payload "dimensions" /\
    forall py_repr hash_order_rev,
    exists plan,
      plan_intent py_repr hash_order_rev payload = ok plan /\
      dict_get (params plan) "limit" = VInt (if n <=? 50 then n else 5).
Proof.
  intros Hparse Hintent.
  destruct (stub_payload_plans _ _ Hparse)
    as (intent & dim & chart & filters & -> & Hshape & [_ Htop] & Heq).
  unfold has_intent in Hintent. cbn in Hintent. injection Hintent as ->.
  destruct (Htop eq_refl) as (n & Hlimit & Hn & Horder & Hentity).
  rewrite filters_of_mk_payload. exists n.
  repeat (split; [assumption|]). split; [now rewrite Hentity|].
  intros py_repr h. rewrite Heq.
  cbn [plan_branch existsb String.eqb Ascii.eqb Bool.eqb orb].
  eexists. split; [reflexivity|].
  rewrite top_bottom_performers_limit, limit_or_default_spec, Hlimit.
  unfold int_within. cbn [is_int int_val andb].
  destruct (Z.leb_spec 1 n); [|lia]. cbn [andb].
  now destruct (n <=? 50).
Qed.

Lemma extractor_limit_reaches_planner_witness :
  exists payload plan,
    _stub_parse "top 100 products" = ok payload /\
    dict_get (filters_of payload) "limit" = VInt 100 /\
    plan_intent (fun _ => "") false payload = ok plan /\
    dict_get (params plan) "limit" = VInt 5.
Proof.
  do 2 eexists. split; [vm_compute; reflexivity|].
  split; [vm_compute; reflexivity|].
  split; [vm_compute; reflexivity|].
  destruct (extractor_limit_reaches_planner "top 100 products" _
              ltac:(vm_compute; reflexivity) ltac:(vm_compute; reflexivity))
    as (n & Hn & _ & _ & _ & Hplan).
  vm_compute in Hn. injection Hn as <-.
  destruct (Hplan (fun _ => "") false) as (plan & Hp & Hl).
  vm_compute in Hp. injection Hp as <-. exact Hl.
Defined.

(** ** What a plan carries *)

Lemma plan_branch_fields (py_repr : value -> string) (intent_name : string)
  (filters : dict) (dim0 chart : value) (plan : PlannedQuery) :
  plan_branch py_repr intent_name filters dim0 chart = ok plan ->
  chart_type plan = chart /\ label_field plan = "label" /\
  value_field plan = "value" /\ series_field plan = None.
Proof.
  unfold plan_branch, plan_product_sales_trend, plan_sales_breakdown_for_year,
    plan_multi_year_comparison.
  repeat match goal with
         | |- context [if ?c then _ else _] => destruct c
         end;
    cbn [bind ok raise]; intros H; try discriminate H; injection H as <-;
    repeat split.
Qed.

Lemma default_chart_known (s : string) (spec : IntentSpec) :
  intents_get INTENTS s = Some spec ->
  in_lits (VStr (default_chart spec)) ["line"; "bar"] = true.
Proof.
  intros H. apply intents_get_in in H. cbv [INTENTS In mk_intent] in H.
  repeat (destruct H as [H|H]; [injection H as _ <-; reflexivity|]).
  destruct H.
Qed.

Lemma in_lits_truthy (v : value) :
  in_lits v ["line"; "bar"] = true -> truthy v = true.
Proof.
  destruct v as [| | | |s| |]; try discriminate. cbn.
  destruct s; [discriminate | reflexivity].
Qed.

(** X12: a plan always names its columns [label] and [value], and its chart
    type is [line] or [bar]: the hint of the payload when that is one of
    the two, the default of the catalog for the intent otherwise. *)
Theorem plan_chart_and_fields (py_repr : value -> string)
  (hash_order_rev : bool) (payload : dict) (plan : PlannedQuery) :
  plan_intent py_repr hash_order_rev payload = ok plan ->
  label_field plan = "label" /\ value_field plan = "value" /\
  series_field plan = None /\
  in_lits (chart_type plan) ["line"; "bar"] = true /\
  exists spec,
    lookup_intent (dict_get payload "intent") = Some spec /\
    chart_type plan
    = if in_lits (dict_get payload "chart") ["line"; "bar"]
      then dict_get payload "chart" else VStr (default_chart spec).
Proof.
  unfold plan_intent.
  destruct (negb (hashable _)); [discriminate|].
  destruct (dict_get payload "intent") as [| | | |s| |] eqn:Hintent;
    try discriminate. cbn [lookup_intent str_val].
  destruct (intents_get INTENTS s) as [spec|] eqn:Hspec; [|discriminate].
  destruct (_ || _); [discriminate|].
  destruct (_validate_list _ (allowed_metrics spec) _); [discriminate|].
  destruct (_validate_list _ (allowed_dimensions spec) _); [discriminate|].
  cbn [bind]. intros H. apply plan_branch_fields in H.
  destruct H as (Hc & Hl & Hv & Hs).
  pose proof (default_chart_known _ _ Hspec) as Hd.
  assert (Hchart : chart_type plan
                   = if in_lits (dict_get payload "chart") ["line"; "bar"]
                     then dict_get payload "chart"
                     else VStr (default_chart spec)).
  { rewrite Hc. unfold py_or.
    destruct (in_lits (dict_get payload "chart") ["line"; "bar"]) eqn:Hin.
    - rewrite (in_lits_truthy _ Hin), Hin. reflexivity.
    - destruct (truthy (dict_get payload "chart")).
      + now rewrite Hin.
      + now rewrite Hd. }
  repeat (split; [assumption|]). split.
  - rewrite Hchart. destruct (in_lits (dict_get payload "chart") _) eqn:Hin;
      assumption.
  - exists spec. split; [reflexivity | exact Hchart].
Qed.

Lemma plan_chart_and_fields_witness :
  exists plan,
    plan_intent (fun _ => "") false
      [("intent", VStr "sales_by_product"); ("chart", VStr "pie")] = ok plan /\
    chart_type plan = VStr "bar".
Proof.
  eexists. split; [vm_compute; reflexivity|].
  destruct (plan_chart_and_fields (fun _ => "") false
              [("intent", VStr "sales_by_product"); ("chart", VStr "pie")] _
              ltac:(vm_compute; reflexivity))
    as (_ & _ & _ & _ & spec & Hspec & Hchart).
  vm_compute in Hspec. injection Hspec as <-. exact Hchart.
Defined.

(** ** The order of a set *)

Lemma first_of_singleton (h : bool) (x : string) : first_of_set h [x] = x.
Proof. now destruct h. Qed.

Lemma singleton_dimensions (s : string) (spec : IntentSpec) :
  intents_get INTENTS s = Some spec ->
  in_lits (VStr s) ["top_bottom_performers"; "sales_breakdown_for_year"] = false ->
  exists x, allowed_dimensions spec = [x].
Proof.
  intros H. apply intents_get_in in H. cbv [INTENTS In mk_intent] in H.
  repeat (destruct H as [H|H];
          [injection H as <- <-; cbn;
           first [discriminate | intros _; eexists; reflexivity]|]).
  destruct H.
Qed.

(** X13: the plan does not depend on the order in which the process
    iterates a set when the payload gives a dimension, or when the intent is
    neither [top_bottom_performers] nor [sales_breakdown_for_year]; for a
    breakdown without dimensions the two orders give different templates. *)
Theorem plan_and_set_order (py_repr : value -> string) :
  (forall payload,
     truthy (dict_get payload "dimensions")
     || negb (in_lits (dict_get payload "intent")
                ["top_bottom_performers"; "sales_breakdown_for_year"]) = true ->
     plan_intent py_repr true payload = plan_intent py_repr false payload) /\
  exists q1 q2,
    plan_intent py_repr false
      [("intent", VStr "sales_breakdown_for_year");
       ("filters", VDict [("year", VInt 2022)])] = ok q1 /\
    plan_intent py_repr true
      [("intent", VStr "sales_breakdown_for_year");
       ("filters", VDict [("year", VInt 2022)])] = ok q2 /\
    sql q1 <> sql q2.
Proof.
  split.
  - intros payload Hfree. unfold plan_intent.
    destruct (negb (hashable _)); [reflexivity|].
    destruct (dict_get payload "intent") as [| | | |s| |] eqn:Hintent;
      try reflexivity. cbn [lookup_intent str_val].
    destruct (intents_get INTENTS s) as [spec|] eqn:Hspec; [|reflexivity].
    destruct (negb (is_list (py_or (dict_get payload "metrics") (VList [])))
              || negb (is_list (py_or (dict_get payload "dimensions")
                                  (VList [])))
              || negb (is_dict (py_or (dict_get payload "filters")
                                  (VDict [])))) eqn:Htypes; [reflexivity|].
    destruct (_validate_list _ (allowed_metrics spec) _); [reflexivity|].
    destruct (_validate_list _ (allowed_dimensions spec) _); [reflexivity|].
    cbn [bind]. f_equal.
    apply orb_false_iff in Htypes. destruct Htypes as [Htypes _].
    apply orb_false_iff in Htypes. destruct Htypes as [_ Hlist].
    unfold py_or in *.
    destruct (truthy (dict_get payload "dimensions")) eqn:Hdims.
    + destruct (dict_get payload "dimensions") as [| | | | |[|d ds]|];
        try discriminate; reflexivity.
    + cbn [orb] in Hfree. apply negb_true_iff in Hfree. cbn [list_val].
      destruct (singleton_dimensions _ _ Hspec Hfree) as [x ->].
      now rewrite !first_of_singleton.
  - do 2 eexists. split; [reflexivity|]. split; [reflexivity|].
    cbn [sql mk_plan]. apply String.eqb_neq. vm_compute. reflexivity.
Qed.

(** ** Other bounds *)

Lemma top_products_limit (filters : dict) (chart : value) :
  dict_get (params (plan_top_products filters chart)) "limit"
  = limit_or_default (dict_get filters "limit") 50 10.
Proof.
  unfold plan_top_products.
  generalize (limit_or_default (dict_get filters "limit") 50 10) as limit.
  intros limit. cbn [params mk_plan].
  destruct (is_int (dict_get filters "year")); reflexivity.
Qed.

Lemma multi_year_count (filters : dict) (chart : value) :
  dict_get (params (plan_multi_year_comparison filters chart)) "year_count"
  = limit_or_default (dict_get filters "year_count") 20 3.
Proof.
  unfold plan_multi_year_comparison.
  generalize (limit_or_default (dict_get filters "year_count") 20 3) as n.
  intros n.
  destruct (truthy (dict_get filters "average"));
    destruct (nonblank_str (dict_get filters "category")); reflexivity.
Qed.

(** X14: [top_products] keeps a limit that is an integer of 1..50 and
    [multi_year_comparison] a [year_count] of 1..20; any other value is
    replaced by the default, 10 or 3, so that the bound number is always in
    the range. *)
Theorem other_bounds_kept_or_default (py_repr : value -> string)
  (hash_order_rev : bool) (payload : dict) (plan : PlannedQuery) :
  plan_intent py_repr hash_order_rev payload = ok plan ->
  (has_intent payload "top_products" ->
   let limit := dict_get (filters_of payload) "limit" in
   dict_get (params plan) "limit"
   = (if int_within 1 50 limit then limit else VInt 10) /\
   int_within 1 50 (dict_get (params plan) "limit") = true) /\
  (has_intent payload "multi_year_comparison" ->
   let year_count := dict_get (filters_of payload) "year_count" in
   dict_get (params plan) "year_count"
   = (if int_within 1 20 year_count then year_count else VInt 3) /\
   int_within 1 20 (dict_get (params plan) "year_count") = true).
Proof.
  intros Hplan.
  destruct (plan_intent_inv _ _ _ _ Hplan) as (dim0 & chart & Hbranch).
  split; intros Hintent; unfold has_intent in Hintent;
    rewrite Hintent in Hbranch; cbn in Hbranch; injection Hbranch as <-; cbn zeta.
  - rewrite top_products_limit, limit_or_default_spec.
    destruct (int_within 1 50 _) eqn:Hw; split; auto.
  - rewrite multi_year_count, limit_or_default_spec.
    destruct (int_within 1 20 _) eqn:Hw; split; auto.
Qed.

Lemma other_bounds_kept_or_default_witness :
  exists plan,
    plan_intent (fun _ => "") false
      [("intent", VStr "multi_year_comparison");
       ("filters", VDict [("year_count", VInt 25)])] = ok plan /\
    dict_get (params plan) "year_count" = VInt 3.
Proof.
  eexists. split; [vm_compute; reflexivity|].
  refine (proj1 (proj2 (other_bounds_kept_or_default (fun _ => "") false
                          [("intent", VStr "multi_year_comparison");
                           ("filters", VDict [("year_count", VInt 25)])] _ _)
                   eq_refl)).
  vm_compute. reflexivity.
Defined.

(** ** What a plan binds *)

Lemma dict_get_set (d : dict) (k k' : string) (v : value) :
  dict_get (dict_set d k v) k'
  = if String.eqb k' k then v else dict_get d k'.
Proof.
  induction d as [|[k0 v0] d IH]; cbn.
  - reflexivity.
  - destruct (String.eqb k k0) eqn:Hk; cbn.
    + apply String.eqb_eq in Hk. subst k0.
      destruct (String.eqb k' k); reflexivity.
    + rewrite IH. destruct (String.eqb k' k0) eqn:Hk0; [|reflexivity].
      apply String.eqb_eq in Hk0. subst k0.
      destruct (String.eqb k' k) eqn:Hk'; [|reflexivity].
      apply String.eqb_eq in Hk'. subst k'.
      now rewrite String.eqb_refl in Hk.
Qed.

Lemma bound_set_other (filters d : dict) (k : string) (v : value) :
  String.eqb "category" k = false -> String.eqb "product_name" k = false ->
  bound_text filters d -> bound_text filters (dict_set d k v).
Proof.
  unfold bound_text. intros Hc Hn H. now rewrite !dict_get_set, Hc, Hn.
Qed.

Lemma bound_set_category (filters d : dict) :
  nonblank_str (dict_get filters "category") = true ->
  bound_text filters d ->
  bound_text filters
    (dict_set d "category" (stripped (dict_get filters "category"))).
Proof.
  unfold bound_text. intros Hc [_ H]. rewrite !dict_get_set. cbn. auto.
Qed.

Lemma bound_set_product_name (filters d : dict) :
  nonblank_str (dict_get filters "product_name") = true ->
  bound_text filters d ->
  bound_text filters
    (dict_set d "product_name" (like_pattern (dict_get filters "product_name"))).
Proof.
  unfold bound_text. intros Hc [H _]. rewrite !dict_get_set. cbn. auto.
Qed.

Lemma bound_start (filters : dict) (key : string) (v : value) :
  String.eqb "category" key = false -> String.eqb "product_name" key = false ->
  bound_text filters [] /\ bound_text filters [(key, v)].
Proof.
  intros Hc Hn. unfold bound_text. cbn [dict_get]. rewrite Hc, Hn. auto.
Qed.

Ltac bound_step :=
  first [ assumption
        | apply bound_set_category; [assumption|]
        | apply bound_set_product_name; [assumption|]
        | apply bound_set_other; [reflexivity | reflexivity |]
        | apply (proj1 (bound_start _ "limit" VNone eq_refl eq_refl))
        | apply (proj2 (bound_start _ "limit" _ eq_refl eq_refl))
        | apply (proj2 (bound_start _ "year_count" _ eq_refl eq_refl))
        | apply (proj2 (bound_start _ "year" _ eq_refl eq_refl)) ].

Ltac bound_steps :=
  cbn [params mk_plan params_ add joined start];
  repeat match goal with
         | |- context [if ?c then _ else _] => destruct c eqn:?
         | |- context [match ?c with [] => _ | _ :: _ => _ end] => destruct c
         end;
  cbn [params mk_plan params_ add joined start];
  repeat bound_step.

Lemma bound_year_from_to (filters : dict) (st : clauses) :
  bound_text filters (params_ st) ->
  bound_text filters (params_ (add_year_from_to filters st)).
Proof. intros H. unfold add_year_from_to. bound_steps. Qed.

Lemma bound_year_or_range (filters : dict) (st : clauses) :
  bound_text filters (params_ st) ->
  bound_text filters (params_ (add_year_or_range filters st)).
Proof.
  intros H. unfold add_year_or_range.
  destruct (is_int (dict_get filters "year")).
  - bound_steps.
  - now apply bound_year_from_to.
Qed.

Lemma bound_years_or_range (filters : dict) (st : clauses) :
  bound_text filters (params_ st) ->
  bound_text filters (params_ (add_years_or_range filters st)).
Proof.
  intros H. unfold add_years_or_range.
  destruct (is_list (dict_get filters "years")
            && truthy (dict_get filters "years")).
  - bound_steps.
  - now apply bound_year_from_to.
Qed.

Lemma bound_years_or_pair (filters : dict) (st : clauses) :
  bound_text filters (params_ st) ->
  bound_text filters (params_ (add_years_or_pair filters st)).
Proof.
  intros H. unfold add_years_or_pair.
  destruct (is_list (dict_get filters "years")
            && truthy (dict_get filters "years")); [bound_steps|].
  destruct (sorted_set _); bound_steps.
Qed.

Lemma bound_product_id (filters : dict) (st : clauses) :
  bound_text filters (params_ st) ->
  bound_text filters (params_ (add_product_id filters st)).
Proof. intros H. unfold add_product_id. bound_steps. Qed.

Lemma bound_category (filters : dict) (st : clauses) :
  bound_text filters (params_ st) ->
  bound_text filters (params_ (add_category filters st)).
Proof. intros H. unfold add_category. bound_steps. Qed.

Lemma bound_category_or_categories (py_repr : value -> string)
  (filters : dict) (st : clauses) :
  bound_text filters (params_ st) ->
  bound_text filters (params_ (add_category_or_categories py_repr filters st)).
Proof.
  intros H. unfold add_category_or_categories.
  destruct (nonblank_str (dict_get filters "category")) eqn:Hc; [bound_steps|].
  destruct (is_list (dict_get filters "categories")
            && truthy (dict_get filters "categories")); [|assumption].
  destruct (cleaned_categories _ _); bound_steps.
Qed.

Lemma bound_product_name (filters : dict) (st : clauses) :
  bound_text filters (params_ st) ->
  bound_text filters (params_ (add_product_name filters st)).
Proof. intros H. unfold add_product_name. bound_steps. Qed.

Ltac bound_chain :=
  cbn [params mk_plan];
  repeat first [ apply bound_product_name | apply bound_category
               | apply bound_category_or_categories | apply bound_product_id
               | apply bound_years_or_pair | apply bound_years_or_range
               | apply bound_year_or_range | apply bound_year_from_to
               | bound_step ].

Lemma bound_sales_trend (py_repr : value -> string) (filters : dict)
  (chart : value) :
  bound_text filters (params (plan_sales_trend py_repr filters chart)).
Proof. unfold plan_sales_trend. bound_chain. Qed.

Lemma bound_sales_comparison_by_year (filters : dict) (chart : value) :
  bound_text filters (params (plan_sales_comparison_by_year filters chart)).
Proof. unfold plan_sales_comparison_by_year. bound_chain. Qed.

Lemma bound_total_sales_for_period (filters : dict) (chart : value) :
  bound_text filters (params (plan_total_sales_for_period filters chart)).
Proof. unfold plan_total_sales_for_period. bound_chain. Qed.

Lemma bound_sales_by_product (filters : dict) (chart : value) :
  bound_text filters (params (plan_sales_by_product filters chart)).
Proof.
  unfold plan_sales_by_product. cbn [params mk_plan].
  destruct (nonblank_str (dict_get filters "category")) eqn:Hc; bound_chain.
Qed.

Lemma bound_product_sales_trend (filters : dict) (chart : value)
  (plan : PlannedQuery) :
  plan_product_sales_trend filters chart = ok plan ->
  bound_text filters (params plan).
Proof.
  unfold plan_product_sales_trend.
  destruct (is_int (dict_get filters "product_id"));
    destruct (nonblank_str (dict_get filters "product_name")) eqn:Hname;
    cbn [bind ok raise]; intros H; try discriminate H; injection H as <-;
    bound_chain.
Qed.

Lemma bound_sales_by_category (filters : dict) (chart : value) :
  bound_text filters (params (plan_sales_by_category filters chart)).
Proof. unfold plan_sales_by_category. bound_chain. Qed.

Lemma bound_top_bottom_performers (filters : dict) (dim0 chart : value) :
  bound_text filters (params (plan_top_bottom_performers filters dim0 chart)).
Proof. unfold plan_top_bottom_performers. bound_chain. Qed.

Lemma bound_sales_breakdown_for_year (filters : dict) (dim0 chart : value)
  (plan : PlannedQuery) :
  plan_sales_breakdown_for_year filters dim0 chart = ok plan ->
  bound_text filters (params plan).
Proof.
  unfold plan_sales_breakdown_for_year.
  destruct (negb (is_int (dict_get filters "year"))); intros H;
    [discriminate H|]. injection H as <-. bound_chain.
Qed.

Lemma bound_sales_growth_analysis (filters : dict) (chart : value) :
  bound_text filters (params (plan_sales_growth_analysis filters chart)).
Proof. unfold plan_sales_growth_analysis. bound_chain. Qed.

Lemma bound_multi_year_comparison (filters : dict) (chart : value) :
  bound_text filters (params (plan_multi_year_comparison filters chart)).
Proof.
  unfold plan_multi_year_comparison.
  destruct (truthy (dict_get filters "average"));
    destruct (nonblank_str (dict_get filters "category")) eqn:Hc;
    bound_chain.
Qed.

Lemma bound_top_products (filters : dict) (chart : value) :
  bound_text filters (params (plan_top_products filters chart)).
Proof.
  unfold plan_top_products.
  destruct (is_int (dict_get filters "year")); bound_chain.
Qed.

Lemma bound_revenue_by_category (filters : dict) (chart : value) :
  bound_text filters (params (plan_revenue_by_category filters chart)).
Proof.
  unfold plan_revenue_by_category.
  destruct (is_int (dict_get filters "year")); bound_chain.
Qed.

Ltac total_branch lem :=
  match goal with
  | |- (if ?c then _ else _) = _ -> _ =>
      destruct c;
      [ let H := fresh "H" in intros H; injection H as <-; apply lem |]
  end.

Ltac partial_branch lem :=
  match goal with
  | |- (if ?c then _ else _) = _ -> _ => destruct c; [apply lem |]
  end.

Lemma bound_plan_branch (py_repr : value -> string) (intent_name : string)
  (filters : dict) (dim0 chart : value) (plan : PlannedQuery) :
  plan_branch py_repr intent_name filters dim0 chart = ok plan ->
  bound_text filters (params plan).
Proof.
  unfold plan_branch.
  total_branch bound_sales_trend.
  total_branch bound_sales_comparison_by_year.
  total_branch bound_total_sales_for_period.
  total_branch bound_sales_by_product.
  partial_branch bound_product_sales_trend.
  total_branch bound_sales_by_category.
  total_branch bound_top_bottom_performers.
  partial_branch bound_sales_breakdown_for_year.
  total_branch bound_sales_growth_analysis.
  total_branch bound_multi_year_comparison.
  total_branch (proj1 (bound_start filters "limit" VNone eq_refl eq_refl)).
  total_branch bound_revenue_by_category.
  total_branch bound_top_products.
  discriminate.
Qed.

Lemma nonblank_text (v : value) :
  nonblank_str v = true ->
  exists s, v = VStr s /\ Py.strip s <> "".
Proof.
  destruct v as [| | | |s| |]; try discriminate. cbn. intros H.
  exists s. split; [reflexivity|].
  apply negb_true_iff in H. now apply String.eqb_neq in H.
Qed.

(** X15: whatever the payload, a plan binds under [category] nothing or the
    text of the filter [category] with its surrounding white space removed,
    which is then not empty; and under [product_name] nothing or the trimmed,
    non-empty text of the filter [product_name], put between two [%] unless
    it already holds a [%]. *)
Theorem plan_binds_trimmed_text (py_repr : value -> string)
  (hash_order_rev : bool) (payload : dict) (plan : PlannedQuery) :
  plan_intent py_repr hash_order_rev payload = ok plan ->
  (dict_get (params plan) "category" = VNone \/
   exists s,
     dict_get (filters_of payload) "category" = VStr s /\
     Py.strip s <> "" /\
     dict_get (params plan) "category" = VStr (Py.strip s)) /\
  (dict_get (params plan) "product_name" = VNone \/
   exists s,
     dict_get (filters_of payload) "product_name" = VStr s /\
     Py.strip s <> "" /\
     dict_get (params plan) "product_name"
     = VStr (if Py.contains "%" (Py.strip s) then Py.strip s
             else "%" ++ Py.strip s ++ "%")).
Proof.
  intros Hplan.
  destruct (plan_intent_inv _ _ _ _ Hplan) as (dim0 & chart & Hbranch).
  apply bound_plan_branch in Hbranch.
  destruct Hbranch as [[Hc|[Hc Hc']] [Hn|[Hn Hn']]]; split;
    try (left; assumption); right.
  - destruct (nonblank_text _ Hn) as (s & Hs & Hne). exists s.
    rewrite Hn', Hs. unfold like_pattern. cbn [str_val].
    destruct (Py.contains "%" (Py.strip s)); auto.
  - destruct (nonblank_text _ Hc) as (s & Hs & Hne). exists s.
    rewrite Hc', Hs. auto.
  - destruct (nonblank_text _ Hc) as (s & Hs & Hne). exists s.
    rewrite Hc', Hs. auto.
  - destruct (nonblank_text _ Hn) as (s & Hs & Hne). exists s.
    rewrite Hn', Hs. unfold like_pattern. cbn [str_val].
    destruct (Py.contains "%" (Py.strip s)); auto.
Qed.

Lemma plan_binds_trimmed_text_witness :
  exists plan,
    plan_intent (fun _ => "") false
      [("intent", VStr "sales_trend");
       ("filters", VDict [("category", VStr "  Toyota ");
                          ("product_name", VStr " Corolla")])] = ok plan /\
    (dict_get (params plan) "category" = VNone \/
     exists s,
       VStr "  Toyota " = VStr s /\ Py.strip s <> "" /\
       dict_get (params plan) "category" = VStr (Py.strip s)).
Proof.
  eexists. split; [vm_compute; reflexivity|].
  refine (proj1 (plan_binds_trimmed_text (fun _ => "") false
                   [("intent", VStr "sales_trend");
                    ("filters", VDict [("category", VStr "  Toyota ");
                                       ("product_name", VStr " Corolla")])]
                   _ _)).
  vm_compute. reflexivity.
Defined.

(** ** Which year filter wins *)

Ltac year_leaf :=
  cbn [params_ add joined start]; unfold only_bound; split;
  [ reflexivity
  | let other := fresh "other" in
    let Hin := fresh "Hin" in
    let Hne := fresh "Hne" in
    intros other Hin Hne; cbv [In] in Hin;
    repeat (destruct Hin as [<-|Hin]); try contradiction;
    first [reflexivity | now elim Hne] ].

Ltac year_cases :=
  cbn [params mk_plan]; open_branch;
  repeat match goal with
         | H : ?c = true |- context [if ?c then _ else _] => rewrite H
         | |- context [if ?c then _ else _] => destruct c
         | |- context [match ?c with [] => _ | _ :: _ => _ end] => destruct c
         end;
  year_leaf.

Lemma years_sales_trend (py_repr : value -> string) (filters : dict)
  (chart : value) :
  is_list (dict_get filters "years") && truthy (dict_get filters "years")
  = true ->
  only_bound (params (plan_sales_trend py_repr filters chart)) "years"
    (dict_get filters "years").
Proof. intros H. unfold plan_sales_trend. year_cases. Qed.

Lemma years_sales_comparison_by_year (filters : dict) (chart : value) :
  is_list (dict_get filters "years") && truthy (dict_get filters "years")
  = true ->
  only_bound (params (plan_sales_comparison_by_year filters chart)) "years"
    (dict_get filters "years").
Proof. intros H. unfold plan_sales_comparison_by_year. year_cases. Qed.

Lemma year_total_sales_for_period (filters : dict) (chart : value) :
  is_int (dict_get filters "year") = true ->
  only_bound (params (plan_total_sales_for_period filters chart)) "year"
    (dict_get filters "year").
Proof. intros H. unfold plan_total_sales_for_period. year_cases. Qed.

Lemma year_sales_by_product (filters : dict) (chart : value) :
  is_int (dict_get filters "year") = true ->
  only_bound (params (plan_sales_by_product filters chart)) "year"
    (dict_get filters "year").
Proof.
  intros H. unfold plan_sales_by_product.
  generalize (limit_or_default (dict_get filters "limit") 100 20) as limit.
  intros limit. year_cases.
Qed.

Lemma year_sales_by_category (filters : dict) (chart : value) :
  is_int (dict_get filters "year") = true ->
  only_bound (params (plan_sales_by_category filters chart)) "year"
    (dict_get filters "year").
Proof. intros H. unfold plan_sales_by_category. year_cases. Qed.

Lemma year_top_bottom_performers (filters : dict) (dim0 chart : value) :
  is_int (dict_get filters "year") = true ->
  only_bound (params (plan_top_bottom_performers filters dim0 chart)) "year"
    (dict_get filters "year").
Proof.
  intros H. unfold plan_top_bottom_performers.
  generalize (limit_or_default (dict_get filters "limit") 50 5) as limit.
  intros limit. cbn [params mk_plan]. open_branch. rewrite H. year_leaf.
Qed.

Lemma year_sales_breakdown_for_year (filters : dict) (dim0 chart : value)
  (plan : PlannedQuery) :
  plan_sales_breakdown_for_year filters dim0 chart = ok plan ->
  only_bound (params plan) "year" (dict_get filters "year").
Proof.
  unfold plan_sales_breakdown_for_year.
  destruct (negb (is_int (dict_get filters "year"))); intros H;
    [discriminate H|]. injection H as <-. cbn [params mk_plan]. year_leaf.
Qed.

Lemma year_revenue_by_category (filters : dict) (chart : value) :
  is_int (dict_get filters "year") = true ->
  only_bound (params (plan_revenue_by_category filters chart)) "year"
    (dict_get filters "year").
Proof.
  intros H. unfold plan_revenue_by_category. rewrite H.
  cbn [params mk_plan]. year_leaf.
Qed.

Lemma year_top_products (filters : dict) (chart : value) :
  is_int (dict_get filters "year") = true ->
  only_bound (params (plan_top_products filters chart)) "year"
    (dict_get filters "year").
Proof.
  intros H. unfold plan_top_products. rewrite H.
  generalize (limit_or_default (dict_get filters "limit") 50 10) as limit.
  intros limit. cbn [params mk_plan]. year_leaf.
Qed.

Lemma in_lits_cases (v : value) (lits : list string) :
  in_lits v lits = true -> exists s, v = VStr s /\ In s lits.
Proof.
  unfold in_lits. intros H. apply existsb_exists in H.
  destruct H as (lit & Hin & Heq).
  destruct v as [| | | |s| |]; try discriminate. cbn in Heq.
  apply String.eqb_eq in Heq. subst lit. now exists s.
Qed.

Ltac pick_intent Hin Hintent Hbranch :=
  apply in_lits_cases in Hin; destruct Hin as (? & Hintent & Hin);
  rewrite Hintent in Hbranch; cbv [In] in Hin;
  repeat (destruct Hin as [<-|Hin]); try contradiction;
  cbn [str_val plan_branch existsb String.eqb Ascii.eqb Bool.eqb orb andb]
    in Hbranch.

(** X16: an explicit year filter wins over a range. When [years] is a
    non-empty list, the trend and comparison intents bind it under [years]
    and bind neither [year_from] nor [year_to]; when [year] is an integer,
    the intents that read it bind it under [year] and bind no range. *)
Theorem explicit_years_win (py_repr : value -> string)
  (hash_order_rev : bool) (payload : dict) (plan : PlannedQuery) :
  plan_intent py_repr hash_order_rev payload = ok plan ->
  (in_lits (dict_get payload "intent")
     ["sales_trend"; "sales_comparison"; "sales_trend_over_time";
      "sales_comparison_by_year"] = true ->
   is_list (dict_get (filters_of payload) "years")
   && truthy (dict_get (filters_of payload) "years") = true ->
   only_bound (params plan) "years" (dict_get (filters_of payload) "years")) /\
  (in_lits (dict_get payload "intent")
     ["total_sales_for_period"; "sales_by_product"; "sales_by_category";
      "top_bottom_performers"; "sales_breakdown_for_year";
      "revenue_by_category"; "top_products"] = true ->
   is_int (dict_get (filters_of payload) "year") = true ->
   only_bound (params plan) "year" (dict_get (filters_of payload) "year")).
Proof.
  intros Hplan.
  destruct (plan_intent_inv _ _ _ _ Hplan) as (dim0 & chart & Hbranch).
  split; intros Hin Hyear; pick_intent Hin Hintent Hbranch.
  - injection Hbranch as <-. exact (years_sales_trend _ _ _ Hyear).
  - injection Hbranch as <-. exact (years_sales_trend _ _ _ Hyear).
  - injection Hbranch as <-. exact (years_sales_trend _ _ _ Hyear).
  - injection Hbranch as <-.
    exact (years_sales_comparison_by_year _ _ Hyear).
  - injection Hbranch as <-. exact (year_total_sales_for_period _ _ Hyear).
  - injection Hbranch as <-. exact (year_sales_by_product _ _ Hyear).
  - injection Hbranch as <-. exact (year_sales_by_category _ _ Hyear).
  - injection Hbranch as <-. exact (year_top_bottom_performers _ _ _ Hyear).
  - exact (year_sales_breakdown_for_year _ _ _ _ Hbranch).
  - injection Hbranch as <-. exact (year_revenue_by_category _ _ Hyear).
  - injection Hbranch as <-. exact (year_top_products _ _ Hyear).
Qed.

Lemma explicit_years_win_witness :
  exists plan,
    plan_intent (fun _ => "") false
      [("intent", VStr "sales_trend");
       ("filters", VDict [("years", VList [VInt 2021; VInt 2023]);
                          ("year_from", VInt 2015)])] = ok plan /\
    only_bound (params plan) "years" (VList [VInt 2021; VInt 2023]).
Proof.
  eexists. split; [vm_compute; reflexivity|].
  refine (proj1 (explicit_years_win (fun _ => "") false
                   [("intent", VStr "sales_trend");
                    ("filters", VDict [("years", VList [VInt 2021; VInt 2023]);
                                       ("year_from", VInt 2015)])] _ _)
            eq_refl eq_refl).
  vm_compute. reflexivity.
Defined.

(** ** Validation reports the first offender *)

Lemma in_lits_hashable (v : value) (lits : list string) :
  in_lits v lits = true -> hashable v = true.
Proof.
  intros H. apply in_lits_cases in H. now destruct H as (s & -> & _).
Qed.

(** X17: [_validate_list] stops at the first value that is not allowed:
    a list or a dictionary there is a [TypeError], any other value the
    planner's own error naming it; later values are not looked at. *)
Theorem validate_list_first_offender (values : list value)
  (allowed : list string) (what : string) :
  _validate_list values allowed what
  = match find (fun v => negb (in_lits v allowed)) values with
    | None => ok tt
    | Some v => if hashable v
                then raise (QueryPlannerError (Unsupported what v))
                else raise (TypeError v)
    end.
Proof.
  induction values as [|v values IH]; cbn [_validate_list find];
    [reflexivity|].
  destruct (in_lits v allowed) eqn:Hv; cbn [negb].
  - rewrite (in_lits_hashable _ _ Hv). exact IH.
  - destruct (hashable v); reflexivity.
Qed.

(** ** The endpoint *)

Lemma validate_raises (values : list value) (allowed : list string)
  (what : string) (e : exn) :
  _validate_list values allowed what = raise e ->
  (exists pe, e = QueryPlannerError pe) \/ (exists v, e = TypeError v).
Proof.
  induction values as [|v values IH]; cbn; [discriminate|].
  destruct (hashable v); cbn.
  - destruct (in_lits v allowed); cbn; [exact IH|].
    intros [= <-]. eauto.
  - intros [= <-]. eauto.
Qed.

Lemma plan_branch_raises (py_repr : value -> string) (intent_name : string)
  (filters : dict) (dim0 chart : value) (e : exn) :
  plan_branch py_repr intent_name filters dim0 chart = raise e ->
  exists pe, e = QueryPlannerError pe.
Proof.
  unfold plan_branch, plan_product_sales_trend, plan_sales_breakdown_for_year.
  repeat match goal with
         | |- context [if ?c then _ else _] => destruct c
         end; cbn [bind ok raise]; intros H; try discriminate H;
    injection H as <-; eauto.
Qed.

Lemma plan_intent_raises (py_repr : value -> string) (hash_order_rev : bool)
  (payload : dict) (e : exn) :
  plan_intent py_repr hash_order_rev payload = raise e ->
  (exists pe, e = QueryPlannerError pe) \/ (exists v, e = TypeError v).
Proof.
  unfold plan_intent.
  destruct (negb (hashable _)); [intros [= <-]; eauto|].
  destruct (lookup_intent _) as [spec|]; [|intros [= <-]; eauto].
  destruct (_ || _); [intros [= <-]; eauto|].
  destruct (_validate_list _ (allowed_metrics spec) _) eqn:Hm;
    [intros [= <-]; exact (validate_raises _ _ _ _ Hm)|].
  destruct (_validate_list _ (allowed_dimensions spec) _) eqn:Hd;
    [intros [= <-]; exact (validate_raises _ _ _ _ Hd)|].
  cbn [bind]. intros H. left. exact (plan_branch_raises _ _ _ _ _ _ H).
Qed.

Lemma collect_returns (float_of_decimal : decimal -> spec_float)
  (float_of_text : string -> option spec_float) (str_of_cell : cell -> string)
  (plan : PlannedQuery) (rows : list row) (ls : list string)
  (vs : list spec_float) :
  collect float_of_decimal float_of_text str_of_cell plan rows = ok (ls, vs) ->
  ls = map (fun r => str_of_cell (row_get r (label_field plan))) rows /\
  Forall2 (fun r x => _to_float float_of_decimal float_of_text
                        (row_get r (value_field plan)) = ok x) rows vs.
Proof.
  revert ls vs. induction rows as [|r rows IH]; intros ls vs; cbn [collect].
  - intros [= <- <-]. split; [reflexivity | constructor].
  - destruct (_to_float _ _ (row_get r (value_field plan))) as [e'|x] eqn:Hx;
      cbn [bind]; [discriminate|].
    destruct (collect _ _ _ plan rows) as [e'|[ls' vs']]; cbn [bind ok];
      [discriminate|].
    intros [= <- <-]. destruct (IH _ _ eq_refl) as [-> Hvs].
    split; [reflexivity | now constructor].
Qed.

(** X18: what [query] does when the planner raises on the payload that
    [parse_intent] returned. The planner's own error is answered with
    status 400 [planner_error]; a [TypeError] (an intent, metric or
    dimension that is a list or a dictionary) is not caught by [query] and
    escapes, and this happens only on a payload of the remote model, never
    on one of the rule-based extractor. The planner raises nothing else. *)
Theorem query_planner_failures (py_repr : value -> string)
  (hash_order_rev : bool) (float_of_decimal : decimal -> spec_float)
  (float_of_text : string -> option spec_float) (str_of_cell : cell -> string)
  (gemini : string -> option dict)
  (execute : string -> dict -> option (list row)) (question : string)
  (payload : dict) (e : exn) :
  parse_intent gemini question = ok payload ->
  plan_intent py_repr hash_order_rev payload = raise e ->
  (exists pe,
     e = QueryPlannerError pe /\
     query py_repr hash_order_rev float_of_decimal float_of_text str_of_cell
       gemini execute question = Http400 "planner_error") \/
  (exists v,
     e = TypeError v /\ gemini question = Some payload /\
     query py_repr hash_order_rev float_of_decimal float_of_text str_of_cell
       gemini execute question = Uncaught (TypeError v)).
Proof.
  intros Hparse Hplan. unfold query. rewrite Hparse.
  cbv beta iota delta [ok]. rewrite Hplan. cbv beta iota delta [raise].
  unfold parse_intent in Hparse.
  destruct (gemini question) as [remote|] eqn:Hg.
  - injection Hparse as ->.
    destruct (plan_intent_raises _ _ _ _ Hplan) as [[pe ->]|[v ->]].
    + left. now exists pe.
    + right. now exists v.
  - destruct (stub_plan_error _ _ _ _ _ Hparse Hplan) as (-> & _).
    left. now exists Requires_product.
Qed.

Lemma query_planner_failures_witness :
  let gemini := fun _ : string => Some [("intent", VList [VStr "sales_trend"])] in
  query (fun _ => "") false (fun _ => float_zero) (fun _ => None)
    (fun _ => "") gemini (fun _ _ => Some []) "sales trend"
  = Uncaught (TypeError (VList [VStr "sales_trend"])).
Proof.
  intros gemini.
  destruct (query_planner_failures (fun _ => "") false (fun _ => float_zero)
              (fun _ => None) (fun _ => "") gemini (fun _ _ => Some [])
              "sales trend" [("intent", VList [VStr "sales_trend"])]
              (TypeError (VList [VStr "sales_trend"])) eq_refl eq_refl)
    as [(pe & Hpe & _)|(v & Hv & _ & Hq)].
  - discriminate Hpe.
  - injection Hv as <-. exact Hq.
Defined.

(** X19: a response of [query] is read off the rows the database returned
    for the plan: one label per row, the text of its [label] column, and,
    unless there is no row, one dataset [total_revenue] with one number per
    row, the [value] column converted; with no row there is no dataset. The
    chart type is the plan's and the title is derived from the payload. *)
Theorem query_response (py_repr : value -> string) (hash_order_rev : bool)
  (float_of_decimal : decimal -> spec_float)
  (float_of_text : string -> option spec_float) (str_of_cell : cell -> string)
  (gemini : string -> option dict)
  (execute : string -> dict -> option (list row)) (question : string) :
  match query py_repr hash_order_rev float_of_decimal float_of_text
          str_of_cell gemini execute question with
  | Response r =>
      exists payload plan rows,
        parse_intent gemini question = ok payload /\
        plan_intent py_repr hash_order_rev payload = ok plan /\
        execute (sql plan) (params plan) = Some rows /\
        title r = Some (_derive_title py_repr payload) /\
        chartType r = chart_type plan /\
        labels r = map (fun row => str_of_cell (row_get row "label")) rows /\
        match rows with
        | [] => datasets r = []
        | _ =>
            exists data,
              datasets r = [{| ds_label := "total_revenue";
                               ds_data := data |}] /\
              Forall2 (fun row x =>
                         _to_float float_of_decimal float_of_text
                           (row_get row "value") = ok x) rows data
        end
  | _ => True
  end.
Proof.
  unfold query.
  destruct (parse_intent gemini question) as [e|payload] eqn:Hparse;
    [exact I|].
  destruct (plan_intent py_repr hash_order_rev payload) as [e|plan] eqn:Hp;
    [now destruct e|].
  destruct (execute _ _) as [rows|] eqn:Hrows; [|exact I].
  destruct (plan_intent_inv _ _ _ _ Hp) as (dim0 & chart & Hbranch).
  destruct (plan_branch_fields _ _ _ _ _ _ Hbranch) as (_ & Hl & Hv & _).
  unfold assemble.
  destruct (collect _ _ _ plan rows) as [e|[ls vs]] eqn:Hc; [exact I|].
  apply collect_returns in Hc. rewrite Hl, Hv in Hc. destruct Hc as [-> Hvs].
  destruct rows as [|row rows]; cbn [map].
  - exists payload, plan, []. repeat (split; [reflexivity || assumption|]).
    reflexivity.
  - exists payload, plan, (row :: rows).
    repeat (split; [reflexivity || assumption|]).
    exists vs. split; [reflexivity | assumption].
Qed.

(** ** Titles *)

Lemma title_join (c : ascii) (base : string) (parts : list string) :
  Py.is_space c = false ->
  Py.strip (Py.join " " (String c base :: parts)) <> "" /\
  Py.strip (Py.strip (Py.join " " (String c base :: parts)))
  = Py.strip (Py.join " " (String c base :: parts)).
Proof.
  intros Hc. split; [|apply strip_by_idem].
  destruct (join_first " " c base parts) as [t ->].
  unfold Py.strip. now rewrite (strip_by_head _ _ _ Hc).
Qed.

(** X20: the title of a chart is never empty and has no white space at
    either end, whatever the payload. *)
Theorem derive_title_trimmed (py_repr : value -> string) (payload : dict) :
  _derive_title py_repr payload <> "" /\
  Py.strip (_derive_title py_repr payload) = _derive_title py_repr payload.
Proof.
  unfold _derive_title. cbv zeta.
  match goal with
  | |- context [app [_] ?parts] => generalize parts
  end.
  intros parts. cbn [app].
  repeat match goal with
         | |- context [if ?c then _ else _] => destruct c
         end;
    first [ apply title_join; reflexivity
          | split; [discriminate | vm_compute; reflexivity] ].
Qed.
